(** * Badges pipeline: profiling and cleaning of the badge-award table

    A shallow embedding of the two scripts of the repository,
    [src/badges_analysis.py] (the profiler) and [src/badges_cleaning.py]
    (cleaner, exporter, validator), and the properties of their
    specification.

    The scripts compose queries of an external data-frame engine.  A data
    frame is modelled as the list of its rows, a column expression as a
    function from a row to a nullable cell, [filter] with the engine's
    three-valued logic (a row is kept only when the predicate is TRUE),
    [count] as the length of the list.  What the engine decides on its own
    (how a value is coerced by a cast, which calendar year a timestamp falls
    in, whether a cast raises on a value it cannot coerce) is an interface,
    [Engine] and [ErrorPath]; every property is proved for all engines, and
    [reference_engine] is an instance to run the scripts on. *)

From Stdlib Require Import ZArith QArith List String Ascii Bool Lia DecimalString.
From Stdlib Require Import Permutation Sorted.
Import ListNotations.
Open Scope Z_scope.
Open Scope string_scope.

(** ** Values, cells and the engine interface *)

(** A value of a loaded column: the types the loader infers for attribute
    text.  A timestamp is a number of microseconds since the epoch. *)
Inductive value : Type :=
| VLong (z : Z)
| VBool (b : bool)
| VStr (s : string)
| VTime (t : Z).

(** A cell is a value or NULL ([None]). *)
Definition cell : Type := option value.

Definition value_eqb (a b : value) : bool :=
  match a, b with
  | VLong x, VLong y => Z.eqb x y
  | VBool x, VBool y => Bool.eqb x y
  | VStr x, VStr y => String.eqb x y
  | VTime x, VTime y => Z.eqb x y
  | _, _ => false
  end.

Definition cell_eqb (a b : cell) : bool :=
  match a, b with
  | None, None => true
  | Some x, Some y => value_eqb x y
  | _, _ => false
  end.

(** The order of [orderBy], [min] and [max] on values of one type (a column
    holds values of one type). *)
Definition value_ltb (a b : value) : bool :=
  match a, b with
  | VLong x, VLong y => Z.ltb x y
  | VBool x, VBool y => negb x && y
  | VStr x, VStr y => String.ltb x y
  | VTime x, VTime y => Z.ltb x y
  | _, _ => false
  end.

(** NULL sorts before every value in an ascending order. *)
Definition cell_ltb (a b : cell) : bool :=
  match a, b with
  | None, Some _ => true
  | Some x, Some y => value_ltb x y
  | _, _ => false
  end.

(** The engine's part of [Column.cast] and of [year]: what a cast answers
    on a value, [None] when it answers NULL.  Whether the engine raises on
    the value instead of answering is its error path, [ErrorPath] below; the
    scripts as embedded in [Cleaning] and [Analysis] are their runs on an
    engine in which no cast raises, and [Deferred] adds the error path.
    Casting to a string never fails. *)
Class Engine : Type := {
  cast_long : value -> option Z;
  cast_integer : value -> option Z;
  cast_boolean : value -> option bool;
  cast_timestamp : value -> option Z;
  cast_string : value -> string;
  year_of_timestamp : Z -> Z
}.

(** ** Text functions: [trim] and [lower] *)

Definition space : ascii := " "%char.

(** [trim] removes the space character (code 32) from both ends. *)
Fixpoint ltrim (s : string) : string :=
  match s with
  | EmptyString => EmptyString
  | String c s' => if Ascii.eqb c space then ltrim s' else s
  end.

Fixpoint rtrim (s : string) : string :=
  match s with
  | EmptyString => EmptyString
  | String c s' =>
      match rtrim s' with
      | EmptyString => if Ascii.eqb c space then EmptyString else String c EmptyString
      | t => String c t
      end
  end.

Definition trim_string (s : string) : string := rtrim (ltrim s).

(** [lower] maps the letters A to Z to a to z and leaves every other
    character as it is. *)
Definition lower_char (c : ascii) : ascii :=
  let n := nat_of_ascii c in
  if ((65 <=? n)%nat && (n <=? 90)%nat)%bool then ascii_of_nat (n + 32) else c.

Fixpoint lower_string (s : string) : string :=
  match s with
  | EmptyString => EmptyString
  | String c s' => String (lower_char c) (lower_string s')
  end.

(** ** Column expressions and data-frame operations *)

Section Frames.
Context {E : Engine}.

(** The text of a cell, as a string function sees it: a string is taken
    as it is, any other value goes through the engine's cast to string. *)
Definition text_of (v : value) : string :=
  match v with
  | VStr s => s
  | other => cast_string other
  end.

Definition trim (c : cell) : cell :=
  option_map (fun v => VStr (trim_string (text_of v))) c.

Definition lower (c : cell) : cell :=
  option_map (fun v => VStr (lower_string (text_of v))) c.

(** [Column.isNull()] *)
Definition isNull (c : cell) : option bool :=
  Some (match c with None => true | Some _ => false end).

(** [Column.isin(...)]: NULL on a NULL cell, otherwise whether the value
    equals one of the literals.  A literal is compared with a value of its
    own type: the scripts apply it to a string and string literals, and to
    the class column and integer literals.  On a class column that is not an
    integer column the engine coerces before it compares, which is not
    modelled: the properties of the class count are stated for an integer
    class column. *)
Definition isin (c : cell) (literals : list value) : option bool :=
  option_map (fun v => existsb (value_eqb v) literals) c.

(** [~ predicate] *)
Definition not3 (p : option bool) : option bool := option_map negb p.

(** [a == b], [a != b]: NULL when either side is NULL. *)
Definition eq3 (a b : cell) : option bool :=
  match a, b with
  | Some x, Some y => Some (value_eqb x y)
  | _, _ => None
  end.

Definition neq3 (a b : cell) : option bool := not3 (eq3 a b).

(** [column < literal] for an integer literal. *)
Definition lt_long (c : cell) (z : Z) : option bool :=
  match c with
  | None => None
  | Some (VLong x) => Some (Z.ltb x z)
  | Some other => option_map (fun x => Z.ltb x z) (cast_long other)
  end.

(** A filter keeps the rows on which its predicate is TRUE; FALSE and
    NULL both drop the row. *)
Definition is_true (p : option bool) : bool :=
  match p with Some true => true | _ => false end.

Definition df_filter {R : Type} (p : R -> option bool) (df : list R) : list R :=
  List.filter (fun r => is_true (p r)) df.

Definition df_count {R : Type} (df : list R) : Z := Z.of_nat (List.length df).

(** [year(column)] on a timestamp column. *)
Definition year (d : option Z) : option Z := option_map year_of_timestamp d.

End Frames.

(** ** Rows *)

(** A row of the loaded table: the six attributes of a badge record, under
    the names the loader gives them. *)
Record RawRow : Type := mkRaw {
  _Id : cell;
  _UserId : cell;
  _Name : cell;
  _Date : cell;
  _Class : cell;
  _TagBased : cell
}.

Definition raw_columns : list string :=
  ["_Id"; "_UserId"; "_Name"; "_Date"; "_Class"; "_TagBased"].

(** [col(name)] on the loaded table.  The scripts only name the six
    columns above. *)
Definition col (name : string) (r : RawRow) : cell :=
  if String.eqb name "_Id" then _Id r
  else if String.eqb name "_UserId" then _UserId r
  else if String.eqb name "_Name" then _Name r
  else if String.eqb name "_Date" then _Date r
  else if String.eqb name "_Class" then _Class r
  else if String.eqb name "_TagBased" then _TagBased r
  else None.

(** The result of the projection of [clean_badges_data]. *)
Record SelectedRow : Type := mkSelected {
  sel_id : option Z;
  sel_user_id : option Z;
  sel_name : cell;
  sel_date : option Z;
  sel_badge_class : option Z;
  sel_tag_based : option bool
}.

(** A row of the cleaned table: the projection and the derived
    [badge_year]. *)
Record CleanRow : Type := mkClean {
  id : option Z;
  user_id : option Z;
  name : cell;
  date : option Z;
  badge_class : option Z;
  tag_based : option bool;
  badge_year : option Z
}.

Definition clean_columns : list string :=
  ["id"; "user_id"; "name"; "date"; "badge_class"; "tag_based"; "badge_year"].

(** [col(name)] on the cleaned table, [None] for a name it does not
    have.  The engine resolves a column name without regard to the case of
    its letters. *)
Definition clean_col (cname : string) : option (CleanRow -> cell) :=
  let cname := lower_string cname in
  if String.eqb cname "id" then Some (fun r => option_map VLong (id r))
  else if String.eqb cname "user_id" then Some (fun r => option_map VLong (user_id r))
  else if String.eqb cname "name" then Some name
  else if String.eqb cname "date" then Some (fun r => option_map VTime (date r))
  else if String.eqb cname "badge_class" then Some (fun r => option_map VLong (badge_class r))
  else if String.eqb cname "tag_based" then Some (fun r => option_map VBool (tag_based r))
  else if String.eqb cname "badge_year" then Some (fun r => option_map VLong (badge_year r))
  else None.

Definition raw_cells (r : RawRow) : list cell := map (fun c => col c r) raw_columns.

Definition clean_cells (r : CleanRow) : list cell :=
  [ option_map VLong (id r); option_map VLong (user_id r); name r;
    option_map VTime (date r); option_map VLong (badge_class r);
    option_map VBool (tag_based r); option_map VLong (badge_year r) ].

(** ** Grouping, ordering and aggregates *)

(** One more row for the group of key [k]; groups are kept in the order
    their keys are first seen. *)
Fixpoint count_key (k : cell) (groups : list (cell * Z)) : list (cell * Z) :=
  match groups with
  | [] => [(k, 1)]
  | (k', n) :: rest =>
      if cell_eqb k k' then (k', n + 1) :: rest else (k', n) :: count_key k rest
  end.

(** [groupBy(column).count()] over the cells of the column. *)
Definition group_counts (keys : list cell) : list (cell * Z) :=
  fold_left (fun groups k => count_key k groups) keys [].

(** [orderBy]: a stable sort by insertion, [lt a b] when [a] goes before
    [b]. *)
Fixpoint insert_by {A : Type} (lt : A -> A -> bool) (x : A) (l : list A) : list A :=
  match l with
  | [] => [x]
  | y :: l' => if lt y x then y :: insert_by lt x l' else x :: l
  end.

Definition order_by {A : Type} (lt : A -> A -> bool) (l : list A) : list A :=
  fold_right (insert_by lt) [] l.

Definition by_key (a b : cell * Z) : bool := cell_ltb (fst a) (fst b).
Definition by_count_desc (a b : cell * Z) : bool := Z.ltb (snd b) (snd a).

(** [select(column).distinct()] *)
Definition distinct (cells : list cell) : list cell := map fst (group_counts cells).

(** [min(column)], [max(column)]: NULL cells are skipped, the result is
    NULL when there is no value. *)
Definition min_cell (a b : cell) : cell :=
  match a, b with
  | None, x => x
  | x, None => x
  | Some x, Some y => if value_ltb y x then Some y else Some x
  end.

Definition max_cell (a b : cell) : cell :=
  match a, b with
  | None, x => x
  | x, None => x
  | Some x, Some y => if value_ltb x y then Some y else Some x
  end.

Definition df_min (cells : list cell) : cell := fold_right min_cell None cells.
Definition df_max (cells : list cell) : cell := fold_right max_cell None cells.

Definition count_row (g : cell * Z) : list cell := [fst g; Some (VLong (snd g))].

(** [df.groupBy("badge_year").count().orderBy("badge_year")] on the cleaned
    table. *)
Definition year_counts (df : list CleanRow) : list (cell * Z) :=
  order_by by_key (group_counts (map (fun r => option_map VLong (badge_year r)) df)).

(** One more row for the partition directory of key [k]. *)
Fixpoint put (k : cell) (r : CleanRow) (parts : list (cell * list CleanRow))
  : list (cell * list CleanRow) :=
  match parts with
  | [] => [(k, [r])]
  | (k', rows) :: rest =>
      if cell_eqb k k' then (k', r :: rows) :: rest
      else (k', rows) :: put k r rest
  end.

(** The rows split by the value of the partition column: one directory
    for each distinct value. *)
Definition partition_rows (key : CleanRow -> cell) (df : list CleanRow)
  : list (cell * list CleanRow) :=
  fold_right (fun r acc => put (key r) r acc) [] df.

(** ** The world of a run: files, console and engine session *)

(** A written file set: its part files, each under its partition
    directory ([None] for a file at the top of an unpartitioned set,
    [Some k] for the directory of the partition key [k]). *)
Definition dataset : Type := list (option cell * list CleanRow).

(** Reading a file set back gives the rows of all its part files. *)
Definition dataset_rows (ds : dataset) : list CleanRow := List.concat (map snd ds).

(** The figures the profiler's closing summary formats into its text. *)
Record ProfileSummary : Type := mkSummary {
  total_records : Z;
  unique_badge_names : Z;
  duplicate_ids : Z;
  invalid_class_values : Z;
  null_date_rows : Z;
  null_user_id_rows : Z;
  negative_user_ids : Z;
  names_with_whitespace_issues : Z
}.

(** What a script prints.  A literal line is kept as text; a formatted line
    keeps its label and the value formatted into it; [printSchema] keeps the
    column names and [show] the columns and rows it displays. *)
Inductive line : Type :=
| Text (s : string)
| Labelled (label : string) (n : Z)
| LabelledText (label : string) (s : string)
| NullLine (column : string) (null_count : Z) (percentage : Q)
| Schema (columns : list string)
| Show (columns : list string) (rows : list (list cell))
| CleaningSummary (input output : string) (records_processed : Z)
| ProfilingSummary (s : ProfileSummary).

(** [df.show(n)] *)
Definition show {R : Type} (columns : list string) (cells : R -> list cell)
           (n : nat) (df : list R) : line :=
  Show columns (map cells (firstn n df)).

Inductive event : Type :=
| SessionCreated (app_name : string)
| SessionStopped
| Printed (l : line).

Record World : Type := mkWorld {
  xml_files : string -> option (list RawRow);
  parquet_dirs : string -> option dataset;
  trace : list event
}.

(** The handle of the engine session. *)
Inductive SparkSession : Type := Session (app_name : string).

(** The session is active after a trace when its last session event is a
    creation. *)
Fixpoint session_active_from (active : bool) (tr : list event) : bool :=
  match tr with
  | [] => active
  | SessionCreated _ :: tr' => session_active_from true tr'
  | SessionStopped :: tr' => session_active_from false tr'
  | Printed _ :: tr' => session_active_from active tr'
  end.

Definition session_active (w : World) : bool := session_active_from false (trace w).

Definition is_stop (e : event) : bool :=
  match e with SessionStopped => true | _ => false end.

Definition is_create (e : event) : bool :=
  match e with SessionCreated _ => true | _ => false end.

(** ** Effects: a state and exception monad over the world *)

Inductive exn : Type :=
| AnalysisException (message : string)
| ZeroDivisionError
| NumberFormatException (message : string)
| DateTimeException (message : string)
| ArithmeticException (message : string)
| SparkRuntimeException (message : string).

Inductive outcome (A : Type) : Type :=
| Returned (a : A)
| Raised (e : exn).
Arguments Returned {A} a.
Arguments Raised {A} e.

Definition M (A : Type) : Type := World -> outcome A * World.

Definition ret {A : Type} (a : A) : M A := fun w => (Returned a, w).

Definition bind {A B : Type} (m : M A) (k : A -> M B) : M B :=
  fun w =>
    match m w with
    | (Returned a, w') => k a w'
    | (Raised e, w') => (Raised e, w')
    end.

Definition raise {A : Type} (e : exn) : M A := fun w => (Raised e, w).

Declare Scope run_scope.
Delimit Scope run_scope with run.
Notation "x <- m ;; k" := (bind m (fun x => k))
  (at level 100, m at next level, right associativity) : run_scope.
Notation "m ;; k" := (bind m (fun _ => k))
  (at level 100, right associativity) : run_scope.
Open Scope run_scope.

Definition emit (e : event) : M unit :=
  fun w => (Returned tt, mkWorld (xml_files w) (parquet_dirs w) (trace w ++ [e])).

Definition print (l : line) : M unit := emit (Printed l).

(** A computation lifted from a pure result that may be an exception. *)
Definition lift {A : Type} (r : outcome A) : M A := fun w => (r, w).

Definition newline : string := String (ascii_of_nat 10) EmptyString.

Fixpoint repeat_string (s : string) (n : nat) : string :=
  match n with
  | O => EmptyString
  | S n' => s ++ repeat_string s n'
  end.

Definition rule : string := repeat_string "=" 60.

(** [print_section], the same in both scripts. *)
Definition print_section (title : string) : M unit :=
  print (Text (newline ++ rule)) ;;
  print (Text (" " ++ title)) ;;
  print (Text rule).

(** [load_badges_xml], the same in both scripts: the loader reads the file
    to infer the schema and raises when the path does not exist.  The files
    of a world are tables of the six columns of a badge record. *)
Definition load_badges_xml (spark : SparkSession) (file_path : string) : M (list RawRow) :=
  fun w =>
    match xml_files w file_path with
    | Some rows => ret rows w
    | None => raise (AnalysisException ("Path does not exist: " ++ file_path)) w
    end.

(** [spark.stop()] *)
Definition stop (spark : SparkSession) : M unit := emit SessionStopped.

(** Python's true division of two integers, exact here: it raises on a
    zero divisor. *)
Definition truediv (a b : Z) : outcome Q :=
  if Z.eqb b 0 then Raised ZeroDivisionError else Returned (inject_Z a / inject_Z b)%Q.

(** ** Casts on cells *)

Section Casts.
Context {E : Engine}.

(** [column.cast(T)]: NULL stays NULL, a value goes through the engine's
    coercion. *)
Definition cast_LongType (c : cell) : option Z :=
  match c with None => None | Some v => cast_long v end.

Definition cast_IntegerType (c : cell) : option Z :=
  match c with None => None | Some v => cast_integer v end.

Definition cast_BooleanType (c : cell) : option bool :=
  match c with None => None | Some v => cast_boolean v end.

Definition cast_TimestampType (c : cell) : option Z :=
  match c with None => None | Some v => cast_timestamp v end.

End Casts.

(** ** The writer and the reader of columnar file sets *)

Inductive SaveMode : Type := Append | Overwrite | ErrorIfExists | Ignore.

Record DataFrameWriter : Type := mkWriter {
  w_df : list CleanRow;
  w_mode : SaveMode;
  w_partition : option string;
  w_options : list (string * string)
}.

(** [df.write]: the engine's default mode refuses an existing path. *)
Definition write (df : list CleanRow) : DataFrameWriter :=
  mkWriter df ErrorIfExists None [].

Definition mode (m : SaveMode) (wr : DataFrameWriter) : DataFrameWriter :=
  mkWriter (w_df wr) m (w_partition wr) (w_options wr).

Definition partitionBy (c : string) (wr : DataFrameWriter) : DataFrameWriter :=
  mkWriter (w_df wr) (w_mode wr) (Some c) (w_options wr).

Definition option_ (k v : string) (wr : DataFrameWriter) : DataFrameWriter :=
  mkWriter (w_df wr) (w_mode wr) (w_partition wr) ((k, v) :: w_options wr).

(** The part files a writer produces: one file at the top without a
    partition column, one directory for each value of the partition column
    otherwise (none at all for an empty table). *)
Definition layout (wr : DataFrameWriter) : outcome dataset :=
  match w_partition wr with
  | None => Returned [(None, w_df wr)]
  | Some c =>
      match clean_col c with
      | None => Raised (AnalysisException ("Partition column not found: " ++ c))
      | Some key =>
          Returned (map (fun p => (Some (fst p), snd p)) (partition_rows key (w_df wr)))
      end
  end.

(** The directories after the file set [ds] is put at [path]. *)
Definition written (path : string) (ds : dataset) (dirs : string -> option dataset)
  : string -> option dataset :=
  fun p => if String.eqb p path then Some ds else dirs p.

Definition store (path : string) (ds : dataset) : M unit :=
  fun w => (Returned tt, mkWorld (xml_files w) (written path ds (parquet_dirs w)) (trace w)).

(** [writer.parquet(path)]: what is at the path afterwards depends on the
    mode.  [Overwrite] replaces whatever was there. *)
Definition parquet (wr : DataFrameWriter) (path : string) : M unit :=
  ds <- lift (layout wr) ;;
  fun w =>
    match w_mode wr, parquet_dirs w path with
    | Overwrite, _ => store path ds w
    | Append, Some old => store path (old ++ ds)%list w
    | Append, None => store path ds w
    | ErrorIfExists, Some _ =>
        raise (AnalysisException ("Path already exists: " ++ path)) w
    | ErrorIfExists, None => store path ds w
    | Ignore, Some _ => ret tt w
    | Ignore, None => store path ds w
    end.

(** [spark.read.parquet(path)]: raises when the path does not exist, and
    when it holds no part file to take a schema from (what the export of an
    empty table with a partition column leaves). *)
Definition read_parquet (spark : SparkSession) (path : string) : M (list CleanRow) :=
  fun w =>
    match parquet_dirs w path with
    | None => raise (AnalysisException ("Path does not exist: " ++ path)) w
    | Some [] => raise (AnalysisException ("Unable to infer schema: " ++ path)) w
    | Some ds => ret (dataset_rows ds) w
    end.

(** ** [src/badges_cleaning.py] *)

Module Cleaning.
Section Script.
Context {E : Engine}.

Definition app_name : string := "Badges Data Cleaning".

Definition create_spark_session : M SparkSession :=
  emit (SessionCreated app_name) ;;
  ret (Session app_name).

Definition anomaly_patterns : list string :=
  ["nan"; "null"; "n/a"; "na"; "none"; "-"; ""].

(** The column is passed as its accessor, [col(column_name)]. *)
Definition validate_string_anomalies {R : Type} (df : list R) (column : R -> cell) : Z :=
  let anomaly_count :=
    df_count (df_filter (fun r => isin (lower (trim (column r))) (map VStr anomaly_patterns)) df) in
  anomaly_count.

(** The projection [df.select(...)] of one row. *)
Definition select_row (r : RawRow) : SelectedRow :=
  {| sel_id := cast_LongType (col "_Id" r);
     sel_user_id := cast_LongType (col "_UserId" r);
     sel_name := lower (trim (col "_Name" r));
     sel_date := cast_TimestampType (col "_Date" r);
     sel_badge_class := cast_IntegerType (col "_Class" r);
     sel_tag_based := cast_BooleanType (col "_TagBased" r) |}.

Definition selected_columns : list string :=
  ["id"; "user_id"; "name"; "date"; "badge_class"; "tag_based"].

(** [withColumn("badge_year", year(col("date")))] on one row. *)
Definition with_badge_year (r : SelectedRow) : CleanRow :=
  {| id := sel_id r;
     user_id := sel_user_id r;
     name := sel_name r;
     date := sel_date r;
     badge_class := sel_badge_class r;
     tag_based := sel_tag_based r;
     badge_year := year (sel_date r) |}.

Definition clean_badges_data (df : list RawRow) : M (list CleanRow) :=
  print_section "STEP 1: Schema adjustments" ;;
  let initial_count := df_count df in
  print (Labelled "Initial record count: " initial_count) ;;
  let df_cleaned := map select_row df in
  print (Text (newline ++ "New schema:")) ;;
  print (Schema selected_columns) ;;
  print_section "STEP 2: Check for anomalies" ;;
  let name_anomalies := validate_string_anomalies df (col "_Name") in
  print (Labelled "String anomalies in 'name' column (nan, null, n/a, etc.): " name_anomalies) ;;
  (if name_anomalies >? 0 then
     print (Text "WARNING: Found string anomalies - these will be kept but flagged") ;;
     print (show raw_columns raw_cells 5
              (df_filter (fun r => isin (lower (trim (col "_Name" r)))
                                        (map VStr ["nan"; "null"; "n/a"; "na"; "none"; "-"; ""]))
                         df))
   else ret tt) ;;
  print_section "STEP 3: Add derived column" ;;
  let df_cleaned := map with_badge_year df_cleaned in
  print (Text (newline ++ "Year distribution:")) ;;
  print (show ["badge_year"; "count"] count_row 20 (year_counts df_cleaned)) ;;
  print_section "STEP 4: Summary of clean-up:" ;;
  let final_count := df_count df_cleaned in
  print (Labelled "Final record count: " final_count) ;;
  print (Labelled "Records removed: " (initial_count - final_count)) ;;
  print (Text (newline ++ "Sample of cleaned data:")) ;;
  print (show clean_columns clean_cells 10 df_cleaned) ;;
  print (Text (newline ++ "Final schema:")) ;;
  print (Schema clean_columns) ;;
  print (Text (newline ++ "Special cases in data:")) ;;
  print (Text "  - System user (user_id = -1): 1 record ('Not a Robot' badge)") ;;
  ret df_cleaned.

(** [if partition_by:] is false for [None] and for the empty string. *)
Definition truthy (partition_by : option string) : bool :=
  match partition_by with
  | None => false
  | Some EmptyString => false
  | Some _ => true
  end.

Definition export_to_parquet (df : list CleanRow) (output_path : string)
           (partition_by : option string) : M string :=
  print_section "STEP 5: EXPORT TO PARQUET" ;;
  print (LabelledText "Output path: " output_path) ;;
  let writer := mode Overwrite (write df) in
  writer <- (match partition_by with
             | Some c =>
                 if truthy partition_by then
                   print (LabelledText "Partitioning by: " c) ;;
                   ret (partitionBy c writer)
                 else ret writer
             | None => ret writer
             end) ;;
  let writer := option_ "compression" "snappy" writer in
  print (Text (newline ++ "Writing Parquet files...")) ;;
  parquet writer output_path ;;
  print (Text "Export complete!") ;;
  ret output_path.

Definition validate_parquet_output (spark : SparkSession) (output_path : string) : M Z :=
  print_section "STEP 6: VALIDATION" ;;
  print (LabelledText "Reading back from: " output_path) ;;
  df_parquet <- read_parquet spark output_path ;;
  let parquet_count := df_count df_parquet in
  print (Labelled "Parquet record count: " parquet_count) ;;
  print (Text (newline ++ "Parquet schema:")) ;;
  print (Schema clean_columns) ;;
  print (Text (newline ++ "Sample from Parquet:")) ;;
  print (show clean_columns clean_cells 5 df_parquet) ;;
  print (Text (newline ++ "Partition statistics (by year):")) ;;
  print (show ["badge_year"; "count"] count_row 20 (year_counts df_parquet)) ;;
  ret parquet_count.

Definition input_path : string := "D:/Projects/Big-data-project/data/Badges.xml".
Definition output_path : string := "D:/Projects/Big-data-project/data/processed/badges".

Definition main : M unit :=
  print (Text rule) ;;
  print (Text " BADGES DATA CLEANING AND PREPARATION") ;;
  print (Text rule) ;;
  print (Text (newline ++ "Initializing Spark session...")) ;;
  spark <- create_spark_session ;;
  print (LabelledText (newline ++ "Loading data from: ") input_path) ;;
  df <- load_badges_xml spark input_path ;;
  df_cleaned <- clean_badges_data df ;;
  _ <- export_to_parquet df_cleaned output_path (Some "badge_year") ;;
  parquet_count <- validate_parquet_output spark output_path ;;
  print_section "CLEANING COMPLETE" ;;
  print (CleaningSummary input_path output_path parquet_count) ;;
  stop spark.

End Script.
End Cleaning.

(** ** [src/badges_analysis.py] *)

Module Analysis.
Section Script.
Context {E : Engine}.

Definition app_name : string := "Badges Data Profiling".

Definition create_spark_session : M SparkSession :=
  emit (SessionCreated app_name) ;;
  ret (Session app_name).

(** [df.filter(col(column).isNull()).count()] *)
Definition null_count_of (df : list RawRow) (column : string) : Z :=
  df_count (df_filter (fun r => isNull (col column r)) df).

(** [(null_count / total_rows) * 100 if total_rows > 0 else 0] *)
Definition null_percentage (null_count total_rows : Z) : M Q :=
  if total_rows >? 0 then
    ratio <- lift (truediv null_count total_rows) ;;
    ret (ratio * 100)%Q
  else ret 0%Q.

(** The loop over [df.columns] that prints the null percentages. *)
Fixpoint null_percentages (df : list RawRow) (total_rows : Z) (columns : list string)
  : M unit :=
  match columns with
  | [] => ret tt
  | column :: rest =>
      let null_count := null_count_of df column in
      percentage <- null_percentage null_count total_rows ;;
      print (NullLine column null_count percentage) ;;
      null_percentages df total_rows rest
  end.

(** [df.filter(~col("_Class").isin(1, 2, 3))] *)
Definition invalid_class_rows (df : list RawRow) : list RawRow :=
  df_filter (fun r => not3 (isin (col "_Class" r) [VLong 1; VLong 2; VLong 3])) df.

Definition select_cells (columns : list string) (r : RawRow) : list cell :=
  map (fun c => col c r) columns.

Definition column_cells (column : string) (df : list RawRow) : list cell :=
  map (col column) df.

Definition profile_badges (df : list RawRow) : M unit :=
  print_section "1. SCHEMA AND ROW COUNT" ;;
  print (Text (newline ++ "Schema:")) ;;
  print (Schema raw_columns) ;;
  let total_rows := df_count df in
  print (Labelled (newline ++ "Total Rows: ") total_rows) ;;
  print_section "2. SAMPLE DATA (First 10 rows)" ;;
  print (show raw_columns raw_cells 10 df) ;;
  print_section "3. NULL VALUE ANALYSIS" ;;
  let null_counts := map (fun c => Some (VLong (null_count_of df c))) raw_columns in
  print (Text (newline ++ "Null counts per column:")) ;;
  print (Show raw_columns [null_counts]) ;;
  print (Text (newline ++ "Null percentages:")) ;;
  null_percentages df total_rows raw_columns ;;
  print_section "4. DUPLICATE ID ANALYSIS" ;;
  let duplicate_ids :=
    List.filter (fun g => snd g >? 1) (group_counts (column_cells "_Id" df)) in
  let dup_count := df_count duplicate_ids in
  print (Labelled (newline ++ "Number of duplicate IDs: ") dup_count) ;;
  (if dup_count >? 0 then
     print (Text (newline ++ "Sample duplicate IDs:")) ;;
     print (show ["_Id"; "count"] count_row 10 duplicate_ids)
   else ret tt) ;;
  print_section "5. CLASS DISTRIBUTION" ;;
  print (Text (newline ++ "Badge Class distribution (1=Gold, 2=Silver, 3=Bronze):")) ;;
  let class_dist := order_by by_key (group_counts (column_cells "_Class" df)) in
  print (show ["_Class"; "count"] count_row 20 class_dist) ;;
  let invalid_class := invalid_class_rows df in
  let invalid_class_count := df_count invalid_class in
  print (Labelled (newline ++ "Rows with invalid class values (not 1, 2, or 3): ")
                  invalid_class_count) ;;
  (if invalid_class_count >? 0 then
     print (Text (newline ++ "Sample invalid class values:")) ;;
     print (show ["_Id"; "_Class"] (select_cells ["_Id"; "_Class"]) 10 invalid_class)
   else ret tt) ;;
  print_section "6. TAG_BASED DISTRIBUTION" ;;
  print (Text (newline ++ "TagBased distribution:")) ;;
  print (show ["_TagBased"; "count"] count_row 20 (group_counts (column_cells "_TagBased" df))) ;;
  print (Text (newline ++ "Distinct TagBased values:")) ;;
  print (show ["_TagBased"] (fun c => [c]) 20 (distinct (column_cells "_TagBased" df))) ;;
  print_section "7. DATE RANGE ANALYSIS" ;;
  let date_range := [df_min (column_cells "_Date" df); df_max (column_cells "_Date" df)] in
  print (Text (newline ++ "Date range:")) ;;
  print (Show ["min_date"; "max_date"] [date_range]) ;;
  let null_dates := df_count (df_filter (fun r => isNull (col "_Date" r)) df) in
  print (Labelled (newline ++ "Rows with null dates: ") null_dates) ;;
  print_section "8. USER ID ANALYSIS" ;;
  print (Text (newline ++ "User ID statistics:")) ;;
  let user_stats := [df_min (column_cells "_UserId" df); df_max (column_cells "_UserId" df)] in
  print (Show ["min_user_id"; "max_user_id"] [user_stats]) ;;
  let negative_users := df_filter (fun r => lt_long (col "_UserId" r) 0) df in
  let neg_count := df_count negative_users in
  print (Labelled (newline ++ "Rows with negative user IDs: ") neg_count) ;;
  (if neg_count >? 0 then
     print (Text (newline ++ "Sample negative user IDs:")) ;;
     print (show ["_Id"; "_UserId"; "_Name"] (select_cells ["_Id"; "_UserId"; "_Name"]) 10
                 negative_users)
   else ret tt) ;;
  let null_users := df_count (df_filter (fun r => isNull (col "_UserId" r)) df) in
  print (Labelled (newline ++ "Rows with null user IDs: ") null_users) ;;
  print_section "9. BADGE NAME ANALYSIS" ;;
  let unique_names := df_count (distinct (column_cells "_Name" df)) in
  print (Labelled (newline ++ "Number of unique badge names: ") unique_names) ;;
  print (Text (newline ++ "Top 20 most common badges:")) ;;
  print (show ["_Name"; "count"] count_row 20
              (order_by by_count_desc (group_counts (column_cells "_Name" df)))) ;;
  let null_names := df_count (df_filter (fun r => isNull (col "_Name" r)) df) in
  let empty_names :=
    df_count (df_filter (fun r => eq3 (trim (col "_Name" r)) (Some (VStr ""))) df) in
  print (Labelled (newline ++ "Rows with null badge names: ") null_names) ;;
  print (Labelled "Rows with empty badge names: " empty_names) ;;
  let whitespace_names :=
    df_count (df_filter (fun r => neq3 (col "_Name" r) (trim (col "_Name" r))) df) in
  print (Labelled "Rows with leading/trailing whitespace in name: " whitespace_names) ;;
  print_section "10. DATA TYPE SUMMARY" ;;
  print (Text (newline ++ "Expected vs Actual types:")) ;;
  print (Text "  _Id: Expected=Integer/Long, Actual=") ;;
  print (Text "  _UserId: Expected=Integer/Long, Actual=") ;;
  print (Text "  _Name: Expected=String, Actual=") ;;
  print (Text "  _Date: Expected=Timestamp/String, Actual=") ;;
  print (Text "  _Class: Expected=Integer, Actual=") ;;
  print (Text "  _TagBased: Expected=Boolean/String, Actual=") ;;
  print_section "PROFILING SUMMARY" ;;
  print (ProfilingSummary
           {| total_records := total_rows;
              unique_badge_names := unique_names;
              duplicate_ids := dup_count;
              invalid_class_values := invalid_class_count;
              null_date_rows := null_dates;
              null_user_id_rows := null_users;
              negative_user_ids := neg_count;
              names_with_whitespace_issues := whitespace_names |}).

Definition file_path : string := "D:/Projects/Big-data-project/data/Badges.xml".

Definition main : M unit :=
  print (Text rule) ;;
  print (Text " BADGES DATA PROFILING") ;;
  print (Text rule) ;;
  print (Text (newline ++ "Initializing Spark session...")) ;;
  spark <- create_spark_session ;;
  print (LabelledText (newline ++ "Loading data from: ") file_path) ;;
  df <- load_badges_xml spark file_path ;;
  profile_badges df ;;
  print (Text (newline ++ rule)) ;;
  print (Text " PROFILING COMPLETE") ;;
  print (Text rule) ;;
  stop spark.

End Script.
End Analysis.

(** ** The engine's evaluation and its error path

    The engine does not compute a data frame where the script defines it: an
    action ([count], [show], a write) evaluates it, and only the columns and
    the rows that the action needs.  A cast may then raise instead of
    answering.  [create_spark_session] sets no ANSI option, so the default of
    the engine decides: in ANSI mode a cast raises on a value it cannot
    coerce, otherwise it answers NULL (or wraps a number around).

    [raises_long] and the like give the exception the cast raises on a
    value, [None] where the cast answers; its answer is then the one of
    [Engine].  How many rows [show(n)] evaluates to display [n] of them, and
    what a write that raises in the middle leaves at its path, are the
    engine's as well. *)
Class ErrorPath : Type := {
  raises_long : value -> option exn;
  raises_integer : value -> option exn;
  raises_boolean : value -> option exn;
  raises_timestamp : value -> option exn;
  rows_read_by_show : nat -> nat;
  left_by_failed_write : SaveMode -> option dataset -> option dataset
}.

Section Evaluation.
Context {P : ErrorPath}.

(** The exception a cast raises on a cell: NULL is cast to NULL without
    one. *)
Definition cast_raises (raises : value -> option exn) (c : cell) : option exn :=
  match c with
  | None => None
  | Some v => raises v
  end.

Definition or_else (a b : option exn) : option exn :=
  match a with
  | Some e => Some e
  | None => b
  end.

(** What the evaluation of [year(col("date"))] raises on a row: the only
    cast under it is the timestamp cast of the date. *)
Definition date_raises (r : RawRow) : option exn :=
  cast_raises raises_timestamp (col "_Date" r).

(** What the evaluation of all the columns of the projection raises on a
    row: the casts of [df.select(...)], in the order of its columns. *)
Definition row_raises (r : RawRow) : option exn :=
  or_else (cast_raises raises_long (col "_Id" r))
    (or_else (cast_raises raises_long (col "_UserId" r))
       (or_else (cast_raises raises_timestamp (col "_Date" r))
          (or_else (cast_raises raises_integer (col "_Class" r))
                   (cast_raises raises_boolean (col "_TagBased" r))))).

(** The first exception over the rows, in their order. *)
Fixpoint first_raised (raises : RawRow -> option exn) (rows : list RawRow) : option exn :=
  match rows with
  | [] => None
  | r :: rest => or_else (raises r) (first_raised raises rest)
  end.

(** An action evaluates the columns [raises] looks at on [rows]: it raises
    the first exception, and goes on when there is none. *)
Definition evaluate (raises : RawRow -> option exn) (rows : list RawRow) : M unit :=
  match first_raised raises rows with
  | Some e => raise e
  | None => ret tt
  end.

End Evaluation.

(** ** [src/badges_cleaning.py], with the engine's evaluation and error path

    The functions of the cleaning script once more, with the cleaned table
    as the engine has it until an action evaluates it: the loaded rows and
    the projection to apply.  Every action of the source is followed by what
    it evaluates.  Where no cast raises these are the runs of [Cleaning]
    (proved below). *)

Module Deferred.
Section Script.
Context {E : Engine} {P : ErrorPath}.

(** The cleaned table before it is evaluated: the rows of the loaded
    table, to which the projection and the derived year are applied. *)
Definition Projection : Type := list RawRow.

(** The row the projection gives where its casts answer. *)
Definition values (r : RawRow) : CleanRow :=
  Cleaning.with_badge_year (Cleaning.select_row r).

Definition clean_badges_data (df : list RawRow) : M Projection :=
  print_section "STEP 1: Schema adjustments" ;;
  let initial_count := df_count df in
  print (Labelled "Initial record count: " initial_count) ;;
  let df_cleaned : Projection := df in
  print (Text (newline ++ "New schema:")) ;;
  print (Schema Cleaning.selected_columns) ;;
  print_section "STEP 2: Check for anomalies" ;;
  let name_anomalies := Cleaning.validate_string_anomalies df (col "_Name") in
  print (Labelled "String anomalies in 'name' column (nan, null, n/a, etc.): " name_anomalies) ;;
  (if name_anomalies >? 0 then
     print (Text "WARNING: Found string anomalies - these will be kept but flagged") ;;
     print (show raw_columns raw_cells 5
              (df_filter (fun r => isin (lower (trim (col "_Name" r)))
                                        (map VStr ["nan"; "null"; "n/a"; "na"; "none"; "-"; ""]))
                         df))
   else ret tt) ;;
  print_section "STEP 3: Add derived column" ;;
  print (Text (newline ++ "Year distribution:")) ;;
  (* the grouping reads [badge_year] of every row, and no other column *)
  evaluate date_raises df_cleaned ;;
  print (show ["badge_year"; "count"] count_row 20 (year_counts (map values df_cleaned))) ;;
  print_section "STEP 4: Summary of clean-up:" ;;
  (* a count reads no column *)
  let final_count := df_count df_cleaned in
  print (Labelled "Final record count: " final_count) ;;
  print (Labelled "Records removed: " (initial_count - final_count)) ;;
  print (Text (newline ++ "Sample of cleaned data:")) ;;
  (* the display reads every column of the rows it takes *)
  evaluate row_raises (firstn (rows_read_by_show 10) df_cleaned) ;;
  print (show clean_columns clean_cells 10 (map values df_cleaned)) ;;
  print (Text (newline ++ "Final schema:")) ;;
  print (Schema clean_columns) ;;
  print (Text (newline ++ "Special cases in data:")) ;;
  print (Text "  - System user (user_id = -1): 1 record ('Not a Robot' badge)") ;;
  ret df_cleaned.

(** [writer.parquet(path)] on a table to evaluate: the partition column is
    resolved and the mode is checked against the path before the job starts;
    the job reads every column of every row, and when it raises the path is
    left as the engine leaves it. *)
Definition parquet_job (source : Projection) (wr : DataFrameWriter) (path : string) : M unit :=
  _ <- lift (layout wr) ;;
  fun w =>
    match w_mode wr, parquet_dirs w path with
    | ErrorIfExists, Some _ => parquet wr path w
    | Ignore, Some _ => parquet wr path w
    | _, _ =>
        match first_raised row_raises source with
        | Some e =>
            (Raised e,
             mkWorld (xml_files w)
                     (fun p => if String.eqb p path
                               then left_by_failed_write (w_mode wr) (parquet_dirs w path)
                               else parquet_dirs w p)
                     (trace w))
        | None => parquet wr path w
        end
    end.

Definition export_to_parquet (df : Projection) (output_path : string)
           (partition_by : option string) : M string :=
  print_section "STEP 5: EXPORT TO PARQUET" ;;
  print (LabelledText "Output path: " output_path) ;;
  let writer := mode Overwrite (write (map values df)) in
  writer <- (match partition_by with
             | Some c =>
                 if Cleaning.truthy partition_by then
                   print (LabelledText "Partitioning by: " c) ;;
                   ret (partitionBy c writer)
                 else ret writer
             | None => ret writer
             end) ;;
  let writer := option_ "compression" "snappy" writer in
  print (Text (newline ++ "Writing Parquet files...")) ;;
  parquet_job df writer output_path ;;
  print (Text "Export complete!") ;;
  ret output_path.

(** The Validator reads files that hold values: it is the one of
    [Cleaning]. *)
Definition main : M unit :=
  print (Text rule) ;;
  print (Text " BADGES DATA CLEANING AND PREPARATION") ;;
  print (Text rule) ;;
  print (Text (newline ++ "Initializing Spark session...")) ;;
  spark <- Cleaning.create_spark_session ;;
  print (LabelledText (newline ++ "Loading data from: ") Cleaning.input_path) ;;
  df <- load_badges_xml spark Cleaning.input_path ;;
  df_cleaned <- clean_badges_data df ;;
  _ <- export_to_parquet df_cleaned Cleaning.output_path (Some "badge_year") ;;
  parquet_count <- Cleaning.validate_parquet_output spark Cleaning.output_path ;;
  print_section "CLEANING COMPLETE" ;;
  print (CleaningSummary Cleaning.input_path Cleaning.output_path parquet_count) ;;
  stop spark.

End Script.
End Deferred.

(** ** A reference engine

    An instance of the interface to run the scripts on: integers are read
    from decimal text, booleans from the usual words, timestamps from
    [YYYY-MM-DD] with an optional [HH:MM:SS] time, in UTC. *)

Module Reference.

Definition digit_of (c : ascii) : option Z :=
  let n := nat_of_ascii c in
  if ((48 <=? n)%nat && (n <=? 57)%nat)%bool then Some (Z.of_nat (n - 48)) else None.

(** The number written by a string of digits, [None] when a character
    is not a digit. *)
Fixpoint digits_from (acc : Z) (s : string) : option Z :=
  match s with
  | EmptyString => Some acc
  | String c s' =>
      match digit_of c with
      | Some d => digits_from (acc * 10 + d) s'
      | None => None
      end
  end.

Definition parse_digits (s : string) : option Z :=
  match s with
  | EmptyString => None
  | _ => digits_from 0 s
  end.

Definition parse_Z (s : string) : option Z :=
  match trim_string s with
  | String "-"%char s' => option_map Z.opp (parse_digits s')
  | String "+"%char s' => parse_digits s'
  | s' => parse_digits s'
  end.

Definition in_range (bits : Z) (z : Z) : bool :=
  (Z.leb (- 2 ^ (bits - 1)) z && Z.ltb z (2 ^ (bits - 1)))%bool.

Definition guard_range (bits : Z) (z : Z) : option Z :=
  if in_range bits z then Some z else None.

(** Two's-complement wrap-around of a narrowing integer cast. *)
Definition wrap (bits : Z) (z : Z) : Z :=
  (z + 2 ^ (bits - 1)) mod 2 ^ bits - 2 ^ (bits - 1).

Definition micros_per_second : Z := 1000000.
Definition micros_per_day : Z := 86400 * micros_per_second.

Definition days_from_civil (y m d : Z) : Z :=
  let y' := if Z.leb m 2 then y - 1 else y in
  let era := y' / 400 in
  let yoe := y' - era * 400 in
  let doy := (153 * (if Z.ltb 2 m then m - 3 else m + 9) + 2) / 5 + d - 1 in
  let doe := yoe * 365 + yoe / 4 - yoe / 100 + doy in
  era * 146097 + doe - 719468.

Definition year_of_days (days : Z) : Z :=
  let z := days + 719468 in
  let era := z / 146097 in
  let doe := z - era * 146097 in
  let yoe := (doe - doe / 1460 + doe / 36524 - doe / 146096) / 365 in
  let doy := doe - (365 * yoe + yoe / 4 - yoe / 100) in
  let mp := (5 * doy + 2) / 153 in
  let m := if Z.ltb mp 10 then mp + 3 else mp - 9 in
  yoe + era * 400 + (if Z.leb m 2 then 1 else 0).

Definition is_leap (y : Z) : bool :=
  ((Z.eqb (y mod 4) 0 && negb (Z.eqb (y mod 100) 0)) || Z.eqb (y mod 400) 0)%bool.

Definition days_in_month (y m : Z) : Z :=
  if Z.eqb m 2 then (if is_leap y then 29 else 28)
  else if (Z.eqb m 4 || Z.eqb m 6 || Z.eqb m 9 || Z.eqb m 11)%bool then 30
  else 31.

Definition parse_date (s : string) : option Z :=
  match parse_digits (substring 0 4 s), parse_digits (substring 5 2 s),
        parse_digits (substring 8 2 s) with
  | Some y, Some m, Some d =>
      if (String.eqb (substring 4 1 s) "-" && String.eqb (substring 7 1 s) "-"
          && Z.leb 1 m && Z.leb m 12 && Z.leb 1 d && Z.leb d (days_in_month y m))%bool
      then Some (days_from_civil y m d)
      else None
  | _, _, _ => None
  end.

Definition parse_time (s : string) : option Z :=
  match parse_digits (substring 0 2 s), parse_digits (substring 3 2 s),
        parse_digits (substring 6 2 s) with
  | Some h, Some mi, Some sec =>
      if (String.eqb (substring 2 1 s) ":" && String.eqb (substring 5 1 s) ":"
          && Z.ltb h 24 && Z.ltb mi 60 && Z.ltb sec 60
          && Nat.eqb (String.length s) 8)%bool
      then Some ((h * 3600 + mi * 60 + sec) * micros_per_second)
      else None
  | _, _, _ => None
  end.

Definition parse_timestamp (s : string) : option Z :=
  let s := trim_string s in
  match parse_date (substring 0 10 s) with
  | None => None
  | Some days =>
      if Nat.eqb (String.length s) 10 then Some (days * micros_per_day)
      else if (String.eqb (substring 10 1 s) "T" || String.eqb (substring 10 1 s) " ")%bool
      then option_map (fun t => days * micros_per_day + t)
                      (parse_time (substring 11 (String.length s - 11) s))
      else None
  end.

Definition parse_bool (s : string) : option bool :=
  let s := lower_string (trim_string s) in
  if existsb (String.eqb s) ["t"; "true"; "y"; "yes"; "1"] then Some true
  else if existsb (String.eqb s) ["f"; "false"; "n"; "no"; "0"] then Some false
  else None.

Definition Z_to_string (z : Z) : string :=
  NilZero.string_of_int (Z.to_int z).

#[export] Instance reference_engine : Engine := {
  cast_long v :=
    match v with
    | VLong z => Some z
    | VBool b => Some (if b then 1 else 0)
    | VStr s => match parse_Z s with Some z => guard_range 64 z | None => None end
    | VTime t => Some (t / micros_per_second)
    end;
  cast_integer v :=
    match v with
    | VLong z => Some (wrap 32 z)
    | VBool b => Some (if b then 1 else 0)
    | VStr s => match parse_Z s with Some z => guard_range 32 z | None => None end
    | VTime t => Some (wrap 32 (t / micros_per_second))
    end;
  cast_boolean v :=
    match v with
    | VLong z => Some (negb (Z.eqb z 0))
    | VBool b => Some b
    | VStr s => parse_bool s
    | VTime t => Some (negb (Z.eqb t 0))
    end;
  cast_timestamp v :=
    match v with
    | VLong z => Some (z * micros_per_second)
    | VBool b => Some (if b then 1 else 0)
    | VStr s => parse_timestamp s
    | VTime t => Some t
    end;
  cast_string v :=
    match v with
    | VLong z => Z_to_string z
    | VBool b => if b then "true" else "false"
    | VStr s => s
    | VTime t => Z_to_string t
    end;
  year_of_timestamp t := year_of_days (t / micros_per_day)
}.

(** The error path of the reference engine in ANSI mode: a cast raises
    where the text is not of the target type or the number does not fit it.
    A display of [n] rows takes one row more, to tell whether there are
    more; an overwriting job that raises has cleared its path. *)
Definition invalid_input (s target : string) : string :=
  "[CAST_INVALID_INPUT] The value '" ++ s ++ "' cannot be cast to " ++ target.

Definition overflow (target : string) : string :=
  "[CAST_OVERFLOW] The value cannot be cast to " ++ target.

Definition text_raises (bits : Z) (target s : string) : option exn :=
  match parse_Z s with
  | Some z =>
      if in_range bits z then None else Some (NumberFormatException (invalid_input s target))
  | None => Some (NumberFormatException (invalid_input s target))
  end.

Definition left_by_failed_job (m : SaveMode) (old : option dataset) : option dataset :=
  match m, old with
  | Overwrite, _ => Some []
  | _, Some ds => Some ds
  | _, None => Some []
  end.

Definition ansi_on : ErrorPath := {|
  raises_long v :=
    match v with
    | VStr s => text_raises 64 "BIGINT" s
    | _ => None
    end;
  raises_integer v :=
    match v with
    | VLong z => if in_range 32 z then None else Some (ArithmeticException (overflow "INT"))
    | VBool _ => None
    | VStr s => text_raises 32 "INT" s
    | VTime t =>
        if in_range 32 (t / micros_per_second) then None
        else Some (ArithmeticException (overflow "INT"))
    end;
  raises_boolean v :=
    match v with
    | VStr s =>
        match parse_bool s with
        | Some _ => None
        | None => Some (SparkRuntimeException (invalid_input s "BOOLEAN"))
        end
    | _ => None
    end;
  raises_timestamp v :=
    match v with
    | VStr s =>
        match parse_timestamp s with
        | Some _ => None
        | None => Some (DateTimeException (invalid_input s "TIMESTAMP"))
        end
    | _ => None
    end;
  rows_read_by_show n := S n;
  left_by_failed_write := left_by_failed_job
|}.

(** The error path with ANSI mode off: no cast raises. *)
Definition ansi_off : ErrorPath := {|
  raises_long _ := None;
  raises_integer _ := None;
  raises_boolean _ := None;
  raises_timestamp _ := None;
  rows_read_by_show n := S n;
  left_by_failed_write := left_by_failed_job
|}.

End Reference.

(** ** Vocabulary of the properties *)

(** The world after more events. *)
Definition extend (w : World) (tr : list event) : World :=
  mkWorld (xml_files w) (parquet_dirs w) (trace w ++ tr).

(** [m] returns [a] in every world, and all it does is to print the lines
    [ls]. *)
Definition prints {A : Type} (m : M A) (a : A) (ls : list line) : Prop :=
  forall w, m w = (Returned a, extend w (map Printed ls)).

(** The cleaned row of a raw row: the projection, then the derived year. *)
Definition clean_row {E : Engine} (r : RawRow) : CleanRow :=
  Cleaning.with_badge_year (Cleaning.select_row r).

(** A cell holds one of the sentinel strings once trimmed and lowercased;
    a NULL cell holds none. *)
Definition sentinel_match {E : Engine} (c : cell) : bool :=
  match c with
  | None => false
  | Some v =>
      existsb (String.eqb (lower_string (trim_string (text_of v))))
              ["nan"; "null"; "n/a"; "na"; "none"; "-"; ""]
  end.

Definition is_none {A : Type} (o : option A) : bool :=
  match o with None => true | Some _ => false end.

(** The percentage the profiler prints for a column: the value of the
    Python expression when the division does not raise. *)
Definition percentage_value (null_count total_rows : Z) : Q :=
  if total_rows >? 0 then (inject_Z null_count / inject_Z total_rows * 100)%Q else 0%Q.


(** The row has a class value, and it is none of 1, 2 and 3. *)
Definition class_value_outside_domain (r : RawRow) : bool :=
  match _Class r with
  | None => false
  | Some v => negb (existsb (value_eqb v) [VLong 1; VLong 2; VLong 3])
  end.

(** A printed line that announces a warning. *)
Definition mentions_warning (l : line) : bool :=
  match l with
  | Text s => String.prefix "WARNING" s
  | _ => false
  end.

Definition is_session_event (e : event) : bool := (is_create e || is_stop e)%bool.

(** The file set the exporter writes for a table partitioned by
    [badge_year]: a directory for each distinct year, and one for NULL. *)
Definition year_dataset (df : list CleanRow) : dataset :=
  map (fun p => (Some (fst p), snd p))
      (partition_rows (fun r => option_map VLong (badge_year r)) df).

(** The session events of a run of [main] by its outcome: created once and
    stopped once, by the last event, when it returns; created and left
    active when it raises. *)
Definition outcome_session (app : string) (r : outcome unit) (w' : World)
           (tr : list event) : Prop :=
  match r with
  | Returned _ =>
      List.filter is_session_event tr = [SessionCreated app; SessionStopped] /\
      (exists tr0, tr = tr0 ++ [SessionStopped])%list /\
      session_active w' = false
  | Raised _ =>
      List.filter is_session_event tr = [SessionCreated app] /\
      session_active w' = true
  end.

Definition printed_warning (e : event) : bool :=
  match e with
  | Printed l => mentions_warning l
  | _ => false
  end.

(** A printed line that begins with the text [label]. *)
Definition announces (label : string) (l : line) : bool :=
  match l with
  | Text s => String.prefix label s
  | Labelled s _ => String.prefix label s
  | LabelledText s _ => String.prefix label s
  | _ => false
  end.

Definition printed_line (label : string) (e : event) : bool :=
  match e with
  | Printed l => announces label l
  | _ => false
  end.

(** The cleaning pipeline of [main] on a loaded table: the Cleaner, then
    the export of what it returns. *)
Definition clean_then_export {E : Engine} {P : ErrorPath} (df : list RawRow) : M string :=
  df_cleaned <- Deferred.clean_badges_data df ;;
  Deferred.export_to_parquet df_cleaned Cleaning.output_path (Some "badge_year").

(** *** Sample tables and worlds *)

Definition badge (i u : Z) (n d : string) (c : Z) (t : bool) : RawRow :=
  mkRaw (Some (VLong i)) (Some (VLong u)) (Some (VStr n)) (Some (VStr d))
        (Some (VLong c)) (Some (VBool t)).

Definition classes_1_2_99 : list RawRow :=
  [ badge 1 10 "Teacher" "2008-09-15T08:55:03" 1 false;
    badge 2 11 "Student" "2008-09-15T08:55:04" 2 false;
    badge 3 12 "Editor" "2009-01-02T10:00:00" 99 false ].

Definition null_class_row : RawRow :=
  mkRaw (Some (VLong 4)) (Some (VLong 13)) (Some (VStr "Scholar"))
        (Some (VStr "2010-03-04T05:06:07")) None (Some (VBool false)).

Definition bad_id_row : RawRow :=
  mkRaw (Some (VStr "abc")) (Some (VLong 5)) (Some (VStr "Teacher"))
        (Some (VStr "2010-01-02T03:04:05")) (Some (VLong 3)) (Some (VBool false)).

Definition bad_date_row : RawRow :=
  mkRaw (Some (VLong 6)) (Some (VLong 7)) (Some (VStr "Teacher"))
        (Some (VStr "not a date")) (Some (VLong 3)) (Some (VBool false)).

Definition undated_row : RawRow :=
  mkRaw (Some (VLong 8)) (Some (VLong 9)) (Some (VStr "Editor")) None
        (Some (VLong 2)) (Some (VBool false)).

Definition two_badges : list RawRow :=
  [ badge 1 10 "Teacher" "2008-09-15T08:55:03" 1 false;
    badge 2 (-1) "  Nice Answer  " "2009-01-02T10:00:00" 3 true ].

Definition no_files : World := mkWorld (fun _ => None) (fun _ => None) [].

Definition world_with_input (path : string) (df : list RawRow) : World :=
  mkWorld (fun p => if String.eqb p path then Some df else None) (fun _ => None) [].

Definition stale_row : CleanRow :=
  mkClean (Some 9) (Some 9) (Some (VStr "old badge")) (Some 0) (Some 3) (Some false)
          (Some 1970).

Definition stale_dataset : dataset := [(Some (Some (VLong 1970)), [stale_row])].

(** A world whose output directory holds one row, left by something other
    than the export of [two_badges]. *)
Definition stale_world : World :=
  mkWorld (fun _ => None) (written Cleaning.output_path stale_dataset (fun _ => None)) [].

(** *** Vocabulary of the further properties *)

(** How many cells of a column equal [k]. *)
Definition occurrences (k : cell) (cells : list cell) : Z :=
  df_count (List.filter (cell_eqb k) cells).

(** The count a grouping holds for the key [k], 0 when it has no such
    group. *)
Fixpoint group_count_of (k : cell) (groups : list (cell * Z)) : Z :=
  match groups with
  | [] => 0
  | (k', n) :: rest => if cell_eqb k k' then n else group_count_of k rest
  end.

(** The rows a grouping accounts for. *)
Fixpoint total_count (groups : list (cell * Z)) : Z :=
  match groups with
  | [] => 0
  | (_, n) :: rest => n + total_count rest
  end.

(** A cell of an integer column: NULL or an integer. *)
Definition long_cell (c : cell) : Prop :=
  match c with
  | None => True
  | Some (VLong _) => True
  | Some _ => False
  end.

(** Group [a] goes strictly before group [b] in the order of [by_key]. *)
Definition key_before (a b : cell * Z) : Prop := by_key a b = true.

(** The key of a row's partition directory. *)
Definition year_key (r : CleanRow) : cell := option_map VLong (badge_year r).

(** The groups of ids that occur more than once, as [profile_badges]
    computes them. *)
Definition duplicate_id_groups (df : list RawRow) : list (cell * Z) :=
  List.filter (fun g => snd g >? 1) (group_counts (Analysis.column_cells "_Id" df)).

(** The class distribution of [profile_badges]. *)
Definition class_dist (df : list RawRow) : list (cell * Z) :=
  order_by by_key (group_counts (Analysis.column_cells "_Class" df)).

(** The key of a group is a class value other than 1, 2 and 3. *)
Definition invalid_class_key (g : cell * Z) : bool :=
  match fst g with
  | None => false
  | Some v => negb (existsb (value_eqb v) [VLong 1; VLong 2; VLong 3])
  end.

(** The rows [profile_badges] counts as having an empty name. *)
Definition empty_name_rows {E : Engine} (df : list RawRow) : list RawRow :=
  df_filter (fun r => eq3 (trim (col "_Name" r)) (Some (VStr ""))) df.

(** The rows [profile_badges] counts as having a negative user id. *)
Definition negative_user_rows {E : Engine} (df : list RawRow) : list RawRow :=
  df_filter (fun r => lt_long (col "_UserId" r) 0) df.

(** The user id of the row is an integer below 0. *)
Definition negative_user_id (r : RawRow) : bool :=
  match _UserId r with
  | Some (VLong z) => Z.ltb z 0
  | _ => false
  end.

(** The badge names by frequency, as [profile_badges] orders them for its
    list of the most common badges. *)
Definition top_names (df : list RawRow) : list (cell * Z) :=
  order_by by_count_desc (group_counts (Analysis.column_cells "_Name" df)).

(** Group [b] does not occur more often than group [a]. *)
Definition count_not_above (a b : cell * Z) : Prop := snd b <= snd a.

(** * Properties *)

(** ** Text: [trim] and [lower] commute, and [trim] is idempotent *)

Lemma lower_char_space (c : ascii) :
  Ascii.eqb (lower_char c) space = Ascii.eqb c space.
Proof.
  destruct c as [[] [] [] [] [] [] [] []]; reflexivity.
Qed.

Lemma ltrim_lower (s : string) : ltrim (lower_string s) = lower_string (ltrim s).
Proof.
  induction s as [|c s IH]; simpl; [reflexivity|].
  rewrite lower_char_space. destruct (Ascii.eqb c space); [exact IH | reflexivity].
Qed.

Lemma rtrim_lower (s : string) : rtrim (lower_string s) = lower_string (rtrim s).
Proof.
  induction s as [|c s IH]; simpl; [reflexivity|].
  rewrite IH. destruct (rtrim s); simpl; [|reflexivity].
  rewrite lower_char_space. destruct (Ascii.eqb c space); reflexivity.
Qed.

Lemma trim_lower (s : string) :
  trim_string (lower_string s) = lower_string (trim_string s).
Proof.
  unfold trim_string. now rewrite ltrim_lower, rtrim_lower.
Qed.

Lemma ltrim_idem (s : string) : ltrim (ltrim s) = ltrim s.
Proof.
  induction s as [|c s IH]; simpl; [reflexivity|].
  destruct (Ascii.eqb c space) eqn:Hc; [exact IH|].
  simpl. now rewrite Hc.
Qed.

Lemma rtrim_idem (s : string) : rtrim (rtrim s) = rtrim s.
Proof.
  induction s as [|c s IH]; simpl; [reflexivity|].
  destruct (rtrim s) as [|d t] eqn:Hr.
  - destruct (Ascii.eqb c space) eqn:Hc; simpl; [reflexivity | now rewrite Hc].
  - change (rtrim (String c (String d t))) with
      (match rtrim (String d t) with
       | EmptyString => if Ascii.eqb c space then EmptyString else String c EmptyString
       | u => String c u
       end).
    now rewrite IH.
Qed.

Lemma ltrim_rtrim (s : string) : ltrim (rtrim s) = rtrim (ltrim s).
Proof.
  induction s as [|c s IH]; simpl; [reflexivity|].
  destruct (Ascii.eqb c space) eqn:Hc.
  - destruct (rtrim s) as [|d t] eqn:Hr.
    + now rewrite <- IH.
    + rewrite <- IH. simpl. now rewrite Hc.
  - destruct (rtrim s) as [|d t] eqn:Hr; simpl; now rewrite Hc, ?Hr.
Qed.

Lemma trim_string_idem (s : string) : trim_string (trim_string s) = trim_string s.
Proof.
  unfold trim_string. now rewrite ltrim_rtrim, ltrim_idem, rtrim_idem.
Qed.

Lemma trim_lower_trim (s : string) :
  trim_string (lower_string (trim_string s)) = lower_string (trim_string s).
Proof.
  now rewrite trim_lower, trim_string_idem.
Qed.

(** ** Runs that only print *)

Lemma extend_nil (w : World) : extend w [] = w.
Proof.
  destruct w; unfold extend; simpl. now rewrite app_nil_r.
Qed.

Lemma extend_extend (w : World) (a b : list event) :
  extend (extend w a) b = extend w (a ++ b).
Proof.
  unfold extend; simpl. now rewrite app_assoc.
Qed.

Lemma prints_ret {A : Type} (a : A) : prints (ret a) a [].
Proof.
  intros w. unfold ret. now rewrite extend_nil.
Qed.

Lemma prints_print (l : line) : prints (print l) tt [l].
Proof.
  intros w. reflexivity.
Qed.

Lemma prints_bind {A B : Type} (m : M A) (k : A -> M B) a b ls1 ls2 :
  prints m a ls1 -> prints (k a) b ls2 -> prints (bind m k) b (ls1 ++ ls2).
Proof.
  intros Hm Hk w. unfold bind. rewrite Hm, Hk. now rewrite extend_extend, map_app.
Qed.

Lemma prints_if {A : Type} (c : bool) (m1 m2 : M A) a ls1 ls2 :
  prints m1 a ls1 -> prints m2 a ls2 ->
  prints (if c then m1 else m2) a (if c then ls1 else ls2).
Proof.
  destruct c; auto.
Qed.

Lemma prints_print_section (title : string) :
  prints (print_section title) tt
         [Text (newline ++ rule); Text (" " ++ title); Text rule].
Proof.
  unfold print_section.
  apply (prints_bind _ _ tt tt [_] [_; _]); [apply prints_print|].
  apply (prints_bind _ _ tt tt [_] [_]); apply prints_print.
Qed.

Ltac run_prints :=
  repeat (cbv beta zeta;
          lazymatch goal with
          | |- prints (bind _ _) _ _ => eapply prints_bind
          | |- prints (print_section _) _ _ => apply prints_print_section
          | |- prints (print _) _ _ => apply prints_print
          | |- prints (ret _) _ _ => apply prints_ret
          | |- prints (if _ then _ else _) _ _ => eapply prints_if
          end).

(** Finds a printed line in a trace built by [run_prints]. *)
Ltac find_event :=
  repeat match goal with
    | |- In _ (_ ++ _) => apply in_or_app
    | |- In _ _ \/ In _ _ => first [ left; solve [find_event] | right ]
    | |- In _ (_ :: _) => first [ left; reflexivity | right ]
    end.

Section CleanerRuns.
Context {E : Engine}.

Lemma clean_badges_data_prints (df : list RawRow) :
  exists ls,
    prints (Cleaning.clean_badges_data df) (map clean_row df) ls /\
    In (Labelled "Initial record count: " (df_count df)) ls /\
    In (Labelled "String anomalies in 'name' column (nan, null, n/a, etc.): "
                 (Cleaning.validate_string_anomalies df (col "_Name"))) ls /\
    (0 < Cleaning.validate_string_anomalies df (col "_Name") ->
     In (Text "WARNING: Found string anomalies - these will be kept but flagged") ls) /\
    In (Labelled "Final record count: " (df_count (map clean_row df))) ls /\
    In (Labelled "Records removed: " (df_count df - df_count (map clean_row df))) ls.
Proof.
  eexists. split.
  - unfold Cleaning.clean_badges_data. rewrite map_map.
    change (fun x => Cleaning.with_badge_year (Cleaning.select_row x)) with clean_row.
    run_prints.
  - split; [find_event|]. split; [find_event|]. split; [|split; find_event].
    intros Hpos. apply Z.gtb_lt in Hpos. rewrite Hpos. find_event.
Qed.

Lemma df_count_map {A B : Type} (f : A -> B) (l : list A) :
  df_count (map f l) = df_count l.
Proof.
  unfold df_count. now rewrite length_map.
Qed.

Lemma df_count_filter_ext {A : Type} (f g : A -> bool) (l : list A) :
  (forall a, f a = g a) -> df_count (List.filter f l) = df_count (List.filter g l).
Proof.
  intros H. now rewrite (filter_ext f g H).
Qed.

End CleanerRuns.

(** ** Equality of values and cells *)

Lemma value_eqb_eq (a b : value) : value_eqb a b = true <-> a = b.
Proof.
  destruct a, b; simpl; split; intros H; try discriminate; try congruence.
  - apply Z.eqb_eq in H. congruence.
  - injection H as ->. apply Z.eqb_refl.
  - apply Bool.eqb_prop in H. congruence.
  - injection H as ->. apply Bool.eqb_reflx.
  - apply String.eqb_eq in H. congruence.
  - injection H as ->. apply String.eqb_refl.
  - apply Z.eqb_eq in H. congruence.
  - injection H as ->. apply Z.eqb_refl.
Qed.

Lemma value_eqb_refl (a : value) : value_eqb a a = true.
Proof.
  now apply value_eqb_eq.
Qed.

Lemma cell_eqb_eq (a b : cell) : cell_eqb a b = true <-> a = b.
Proof.
  destruct a, b; simpl; split; intros H; try discriminate; try congruence.
  - apply value_eqb_eq in H. congruence.
  - injection H as ->. apply value_eqb_refl.
Qed.

(** ** The Cleaner keeps every row *)


(** ** Name normalisation *)

Lemma clean_row_name {E : Engine} (r : RawRow) :
  name (clean_row r) = lower (trim (_Name r)).
Proof.
  reflexivity.
Qed.

Lemma trim_clean_name {E : Engine} (c : cell) :
  trim (lower (trim c)) = lower (trim c).
Proof.
  destruct c as [v|]; simpl; [|reflexivity].
  now rewrite trim_lower_trim.
Qed.

Lemma neq3_same_is_false {E : Engine} (c : cell) : is_true (neq3 c c) = false.
Proof.
  destruct c as [v|]; simpl; [|reflexivity].
  now rewrite value_eqb_refl.
Qed.

(** C2.  For every row of the cleaned table, the name equals
    [lower(trim(raw_name))] of the raw row at the same position; trimming a
    cleaned name gives the name back, so the profiler's query for names that
    differ from their trimmed form selects no cleaned row. *)
Theorem cleaned_name_is_lower_trim (E : Engine) (df : list RawRow) (w : World) :
  exists out ls,
    Cleaning.clean_badges_data df w = (Returned out, extend w (map Printed ls)) /\
    Forall2 (fun raw clean => name clean = lower (trim (_Name raw))) df out /\
    Forall (fun clean => trim (name clean) = name clean) out /\
    df_filter (fun clean => neq3 (name clean) (trim (name clean))) out = [].
Proof.
  destruct (clean_badges_data_prints df) as (tr & Hrun & _).
  exists (map clean_row df), tr. split; [apply Hrun|].
  split; [|split].
  - clear Hrun. induction df as [|r df IH]; simpl; constructor.
    + apply clean_row_name.
    + exact IH.
  - apply Forall_forall. intros c Hc. apply in_map_iff in Hc as (r & <- & _).
    rewrite clean_row_name. apply trim_clean_name.
  - clear Hrun. induction df as [|r df IH]; [reflexivity|].
    unfold df_filter in *. simpl.
    rewrite trim_clean_name, neq3_same_is_false. exact IH.
Qed.

Example nice_answer :
  name (clean_row (E := Reference.reference_engine)
                  (mkRaw (Some (VLong 1)) (Some (VLong 7)) (Some (VStr "  Nice Answer  "))
                         (Some (VStr "2008-09-15T08:55:03")) (Some (VLong 3))
                         (Some (VBool false))))
  = Some (VStr "nice answer").
Proof.
  reflexivity.
Qed.

(** ** The anomaly scan *)

Lemma lower_char_idem (c : ascii) : lower_char (lower_char c) = lower_char c.
Proof.
  destruct c as [[] [] [] [] [] [] [] []]; reflexivity.
Qed.

Lemma lower_string_idem (s : string) : lower_string (lower_string s) = lower_string s.
Proof.
  induction s as [|c s IH]; simpl; [reflexivity|].
  now rewrite lower_char_idem, IH.
Qed.

Lemma scan_predicate {E : Engine} (c : cell) :
  is_true (isin (lower (trim c)) (map VStr Cleaning.anomaly_patterns)) = sentinel_match c.
Proof.
  destruct c as [v|]; [|reflexivity].
  simpl. now destruct (_ || _)%bool.
Qed.

Lemma sentinel_match_spec {E : Engine} (c : cell) :
  sentinel_match c = true <->
  exists v, c = Some v /\
            In (lower_string (trim_string (text_of v)))
               ["nan"; "null"; "n/a"; "na"; "none"; "-"; ""].
Proof.
  destruct c as [v|]; unfold sentinel_match.
  - rewrite existsb_exists. split.
    + intros (p & Hp & Heq). apply String.eqb_eq in Heq. subst p. now exists v.
    + intros (v' & [= <-] & Hin). eexists. split; [exact Hin | apply String.eqb_refl].
  - split; [discriminate | now intros (v & Hv & _)].
Qed.

Lemma sentinel_stays {E : Engine} (c : cell) :
  sentinel_match (lower (trim c)) = sentinel_match c.
Proof.
  destruct c as [v|]; [|reflexivity].
  unfold sentinel_match, lower, trim, option_map, text_of.
  now rewrite trim_lower, trim_string_idem, lower_string_idem.
Qed.

(** C5.  The anomaly scan over the name column returns the number of rows
    whose trimmed, lowercased name is one of the seven sentinel strings
    [nan], [null], [n/a], [na], [none], [-] and the empty string.  A NULL
    name matches none of them.  The rows that match are counted, the count
    is printed, with a warning when it is positive; the cleaned table still
    holds every row at its position, and the name of a matching row is still
    the sentinel, not a NULL. *)
Theorem anomaly_scan_counts_sentinels (E : Engine) (df : list RawRow) (w : World) :
  Cleaning.validate_string_anomalies df (col "_Name")
    = df_count (List.filter (fun r => sentinel_match (_Name r)) df) /\
  (forall c : cell,
      sentinel_match c = true <->
      exists v, c = Some v /\
                In (lower_string (trim_string (text_of v)))
                   ["nan"; "null"; "n/a"; "na"; "none"; "-"; ""]) /\
  sentinel_match None = false /\
  exists out ls,
    Cleaning.clean_badges_data df w = (Returned out, extend w (map Printed ls)) /\
    In (Labelled "String anomalies in 'name' column (nan, null, n/a, etc.): "
                 (df_count (List.filter (fun r => sentinel_match (_Name r)) df))) ls /\
    (0 < df_count (List.filter (fun r => sentinel_match (_Name r)) df) ->
     In (Text "WARNING: Found string anomalies - these will be kept but flagged") ls) /\
    List.length out = List.length df /\
    Forall2 (fun raw clean =>
               name clean = lower (trim (_Name raw)) /\
               sentinel_match (name clean) = sentinel_match (_Name raw)) df out.
Proof.
  assert (Hscan : Cleaning.validate_string_anomalies df (col "_Name")
                  = df_count (List.filter (fun r => sentinel_match (_Name r)) df)).
  { unfold Cleaning.validate_string_anomalies, df_filter.
    apply df_count_filter_ext. intros r. apply scan_predicate. }
  split; [exact Hscan|]. split; [apply sentinel_match_spec|]. split; [reflexivity|].
  destruct (clean_badges_data_prints df) as (tr & Hrun & _ & Hanom & Hwarn & _).
  exists (map clean_row df), tr. rewrite Hscan in Hanom, Hwarn.
  split; [apply Hrun|]. split; [exact Hanom|]. split; [exact Hwarn|].
  split; [apply length_map|].
  clear. induction df as [|r df IH]; simpl; constructor.
  - split; [reflexivity | apply sentinel_stays].
  - exact IH.
Qed.

(** ** Partition directories *)

Lemma put_in (k : cell) (r : CleanRow) (parts : list (cell * list CleanRow))
      (k' : cell) (rows : list CleanRow) (r' : CleanRow) :
  In (k', rows) (put k r parts) -> In r' rows ->
  (r' = r /\ k' = k) \/ (exists rows0, In (k', rows0) parts /\ In r' rows0).
Proof.
  induction parts as [|[k0 rows0] rest IH]; simpl.
  - intros [[= <- <-]|[]] [->|[]]. now left.
  - destruct (cell_eqb k k0) eqn:Hk.
    + apply cell_eqb_eq in Hk. subst k0.
      intros [[= <- <-]|Hin] Hr.
      * destruct Hr as [->|Hr]; [now left|]. right. exists rows0. auto.
      * right. exists rows. auto.
    + intros [[= <- <-]|Hin] Hr.
      * right. exists rows0. auto.
      * destruct (IH Hin Hr) as [?|(rows1 & ? & ?)]; [now left|].
        right. exists rows1. auto.
Qed.

Lemma put_keeps (k : cell) (r : CleanRow) (parts : list (cell * list CleanRow))
      (k' : cell) (rows : list CleanRow) (r' : CleanRow) :
  In (k', rows) parts -> In r' rows ->
  exists rows2, In (k', rows2) (put k r parts) /\ In r' rows2.
Proof.
  induction parts as [|[k0 rows0] rest IH]; simpl; [intros []|].
  destruct (cell_eqb k k0) eqn:Hk.
  - intros [[= <- <-]|Hin] Hr.
    + exists (r :: rows0). simpl. auto.
    + exists rows. simpl. auto.
  - intros [[= <- <-]|Hin] Hr.
    + exists rows0. simpl. auto.
    + destruct (IH Hin Hr) as (rows2 & ? & ?). exists rows2. simpl. auto.
Qed.

Lemma put_has (k : cell) (r : CleanRow) (parts : list (cell * list CleanRow)) :
  exists rows, In (k, rows) (put k r parts) /\ In r rows.
Proof.
  induction parts as [|[k0 rows0] rest IH]; simpl.
  - exists [r]. simpl. auto.
  - destruct (cell_eqb k k0) eqn:Hk.
    + apply cell_eqb_eq in Hk. subst k0. exists (r :: rows0). simpl. auto.
    + destruct IH as (rows & ? & ?). exists rows. simpl. auto.
Qed.

Lemma put_length (k : cell) (r : CleanRow) (parts : list (cell * list CleanRow)) :
  List.length (List.concat (map snd (put k r parts)))
  = S (List.length (List.concat (map snd parts))).
Proof.
  induction parts as [|[k0 rows0] rest IH]; simpl; [reflexivity|].
  destruct (cell_eqb k k0); simpl; [reflexivity|].
  rewrite !length_app, IH. lia.
Qed.

(** Every row of a partition directory has the key of the directory. *)
Lemma partition_rows_key (key : CleanRow -> cell) (df : list CleanRow)
      (k : cell) (rows : list CleanRow) (r : CleanRow) :
  In (k, rows) (partition_rows key df) -> In r rows -> k = key r /\ In r df.
Proof.
  revert k rows r. induction df as [|r0 df IH]; simpl; [intros ? ? ? []|].
  intros k rows r Hin Hr.
  destruct (put_in _ _ _ _ _ _ Hin Hr) as [[-> ->]|(rows0 & Hin0 & Hr0)]; [auto|].
  destruct (IH _ _ _ Hin0 Hr0). auto.
Qed.

(** Every row of the table is in the directory of its key. *)
Lemma partition_rows_complete (key : CleanRow -> cell) (df : list CleanRow) (r : CleanRow) :
  In r df -> exists rows, In (key r, rows) (partition_rows key df) /\ In r rows.
Proof.
  induction df as [|r0 df IH]; simpl; [intros []|].
  intros [->|Hin].
  - apply put_has.
  - destruct (IH Hin) as (rows & ? & ?). eapply put_keeps; eauto.
Qed.

Lemma partition_rows_length (key : CleanRow -> cell) (df : list CleanRow) :
  List.length (List.concat (map snd (partition_rows key df))) = List.length df.
Proof.
  induction df as [|r df IH]; simpl; [reflexivity|].
  now rewrite put_length, IH.
Qed.

(** The file set the exporter writes for a table partitioned by
    [badge_year]. *)
Lemma layout_by_year (df : list CleanRow) (options : list (string * string)) :
  layout (mkWriter df Overwrite (Some "badge_year") options) = Returned (year_dataset df).
Proof.
  reflexivity.
Qed.

Lemma dataset_rows_layout (parts : list (cell * list CleanRow)) :
  dataset_rows (map (fun p => (Some (fst p), snd p)) parts) = List.concat (map snd parts).
Proof.
  unfold dataset_rows. now rewrite map_map.
Qed.

(** ** The derived year *)

(** The derived year of a row follows its date where the casts answer: it
    is the year of the date, and NULL exactly when the date is. *)
Lemma year_follows_date {E : Engine} (df : list RawRow) :
  Forall2 (fun raw clean =>
             date clean = cast_TimestampType (_Date raw) /\
             badge_year clean = option_map year_of_timestamp (date clean) /\
             (badge_year clean = None <-> date clean = None)) df (map clean_row df).
Proof.
  induction df as [|r df IH]; simpl; constructor; [|exact IH].
  unfold clean_row, Cleaning.with_badge_year, Cleaning.select_row, year. simpl.
  destruct (cast_TimestampType _); simpl; repeat split; congruence.
Qed.

(** In the file set partitioned by [badge_year] every row is in the
    directory of its year; a row without a date is in the directory of the
    NULL key and in no directory of a year. *)
Lemma null_date_directory {E : Engine} (df : list RawRow) :
  (forall clean, In clean (map clean_row df) ->
     exists rows,
       In (Some (option_map VLong (badge_year clean)), rows) (year_dataset (map clean_row df)) /\
       In clean rows) /\
  (forall dir rows clean,
     In (dir, rows) (year_dataset (map clean_row df)) -> In clean rows ->
     (date clean = None <-> dir = Some None) /\
     (forall y, dir = Some (Some (VLong y)) -> date clean <> None)).
Proof.
  split.
  - intros clean Hin.
    destruct (partition_rows_complete (fun r => option_map VLong (badge_year r)) _ _ Hin)
      as (rows & Hp & Hr).
    exists rows. split; [|exact Hr].
    apply in_map_iff. exists (option_map VLong (badge_year clean), rows). auto.
  - intros dir rows clean Hin Hr.
    apply in_map_iff in Hin as ([k rows'] & [= <- <-] & Hin). simpl in *.
    destruct (partition_rows_key _ _ _ _ _ Hin Hr) as [-> Hclean].
    apply in_map_iff in Hclean as (r & <- & _).
    unfold clean_row, Cleaning.with_badge_year, Cleaning.select_row, year. simpl.
    destruct (cast_TimestampType _); simpl; repeat split; intros; congruence.
Qed.

(** ** The cast columns *)

Lemma null_count_map {A B : Type} {E : Engine} (f : A -> B) (g : B -> cell) (l : list A) :
  df_count (df_filter (fun b => isNull (g b)) (map f l))
  = df_count (List.filter (fun a => is_none (g (f a))) l).
Proof.
  unfold df_count, df_filter. f_equal.
  induction l as [|a l IH]; simpl; [reflexivity|].
  destruct (g (f a)); simpl; first [exact IH | f_equal; exact IH].
Qed.

Lemma scan_skips_nulls {R : Type} {E : Engine} (df : list R) (column : R -> cell) :
  Cleaning.validate_string_anomalies (List.filter (fun r => negb (is_none (column r))) df) column
  = Cleaning.validate_string_anomalies df column.
Proof.
  unfold Cleaning.validate_string_anomalies, df_count, df_filter. f_equal.
  induction df as [|r df IH]; simpl; [reflexivity|].
  destruct (column r) as [v|] eqn:Hc; simpl.
  - rewrite Hc. simpl. destruct (_ || _)%bool; simpl; first [exact IH | f_equal; exact IH].
  - exact IH.
Qed.

(** Where the casts answer, each cast column of a cleaned row holds the
    answer of the engine's cast on the raw cell. *)
Lemma cast_columns {E : Engine} (df : list RawRow) :
  Forall2 (fun raw clean =>
             id clean = cast_LongType (_Id raw) /\
             user_id clean = cast_LongType (_UserId raw) /\
             date clean = cast_TimestampType (_Date raw) /\
             badge_class clean = cast_IntegerType (_Class raw) /\
             tag_based clean = cast_BooleanType (_TagBased raw)) df (map clean_row df).
Proof.
  induction df as [|r df IH]; simpl; constructor; [|exact IH].
  repeat split; reflexivity.
Qed.

(** A null count on a cast column counts the rows on which the cast
    answered NULL. *)
Lemma cast_null_counts {E : Engine} (df : list RawRow) :
  df_count (df_filter (fun c => isNull (option_map VLong (id c))) (map clean_row df))
    = df_count (List.filter (fun r => is_none (cast_LongType (_Id r))) df) /\
  df_count (df_filter (fun c => isNull (option_map VLong (user_id c))) (map clean_row df))
    = df_count (List.filter (fun r => is_none (cast_LongType (_UserId r))) df) /\
  df_count (df_filter (fun c => isNull (option_map VTime (date c))) (map clean_row df))
    = df_count (List.filter (fun r => is_none (cast_TimestampType (_Date r))) df) /\
  df_count (df_filter (fun c => isNull (option_map VLong (badge_class c))) (map clean_row df))
    = df_count (List.filter (fun r => is_none (cast_IntegerType (_Class r))) df) /\
  df_count (df_filter (fun c => isNull (option_map VBool (tag_based c))) (map clean_row df))
    = df_count (List.filter (fun r => is_none (cast_BooleanType (_TagBased r))) df).
Proof.
  repeat split.
  - rewrite null_count_map. apply df_count_filter_ext. intros r.
    unfold clean_row; simpl. now destruct (cast_LongType _).
  - rewrite null_count_map. apply df_count_filter_ext. intros r.
    unfold clean_row; simpl. now destruct (cast_LongType _).
  - rewrite null_count_map. apply df_count_filter_ext. intros r.
    unfold clean_row; simpl. now destruct (cast_TimestampType _).
  - rewrite null_count_map. apply df_count_filter_ext. intros r.
    unfold clean_row; simpl. now destruct (cast_IntegerType _).
  - rewrite null_count_map. apply df_count_filter_ext. intros r.
    unfold clean_row; simpl. now destruct (cast_BooleanType _).
Qed.

(** ** The profiler *)

Lemma prints_eq {A : Type} (m : M A) (a : A) (ls ls' : list line) :
  prints m a ls -> ls = ls' -> prints m a ls'.
Proof.
  now intros H <-.
Qed.

Section ProfilerRuns.
Context {E : Engine}.

Lemma null_percentage_prints (null_count total_rows : Z) :
  prints (Analysis.null_percentage null_count total_rows)
         (percentage_value null_count total_rows) [].
Proof.
  intros w. unfold Analysis.null_percentage, percentage_value.
  destruct (total_rows >? 0) eqn:Hpos.
  - unfold bind, lift, truediv.
    destruct (Z.eqb_spec total_rows 0) as [->|_]; [discriminate|].
    unfold ret. now rewrite extend_nil.
  - apply prints_ret.
Qed.

Lemma null_percentages_prints (df : list RawRow) (total_rows : Z) (columns : list string) :
  prints (Analysis.null_percentages df total_rows columns) tt
         (map (fun c => NullLine c (Analysis.null_count_of df c)
                                 (percentage_value (Analysis.null_count_of df c) total_rows))
              columns).
Proof.
  induction columns as [|c columns IH]; simpl; [apply prints_ret|].
  eapply prints_eq.
  - eapply prints_bind; [apply null_percentage_prints|].
    eapply prints_bind; [apply prints_print | apply IH].
  - reflexivity.
Qed.

Lemma null_count_le (df : list RawRow) (column : string) :
  0 <= Analysis.null_count_of df column <= df_count df.
Proof.
  unfold Analysis.null_count_of, df_count, df_filter.
  pose proof (filter_length_le (fun r => is_true (isNull (col column r))) df). lia.
Qed.

Lemma null_count_spec (df : list RawRow) (column : string) :
  Analysis.null_count_of df column
  = df_count (List.filter (fun r => is_none (col column r)) df).
Proof.
  unfold Analysis.null_count_of, df_filter. apply df_count_filter_ext.
  intros r. now destruct (col column r).
Qed.

Ltac run_profile :=
  repeat (cbv beta zeta;
          lazymatch goal with
          | |- prints (bind _ _) _ _ => eapply prints_bind
          | |- prints (print_section _) _ _ => apply prints_print_section
          | |- prints (print _) _ _ => apply prints_print
          | |- prints (ret _) _ _ => apply prints_ret
          | |- prints (Analysis.null_percentages _ _ _) _ _ => apply null_percentages_prints
          | |- prints (if _ then _ else _) _ _ => eapply prints_if
          end).

Lemma profile_badges_prints (df : list RawRow) :
  exists ls,
    prints (Analysis.profile_badges df) tt ls /\
    (forall column, In column raw_columns ->
       In (NullLine column (Analysis.null_count_of df column)
                    (percentage_value (Analysis.null_count_of df column) (df_count df))) ls) /\
    In (Labelled (newline ++ "Rows with invalid class values (not 1, 2, or 3): ")
                 (df_count (Analysis.invalid_class_rows df))) ls.
Proof.
  eexists. split; [|split].
  - unfold Analysis.profile_badges. run_profile.
  - intros column Hin.
    do 10 (apply in_or_app; right). apply in_or_app; left.
    apply in_map_iff. now exists column.
  - find_event.
Qed.

End ProfilerRuns.

Lemma percentage_value_bounds (null_count total_rows : Z) :
  0 <= null_count <= total_rows ->
  (0 <= percentage_value null_count total_rows /\
   percentage_value null_count total_rows <= 100)%Q.
Proof.
  intros H. unfold percentage_value.
  destruct (total_rows >? 0) eqn:Hpos; [|split; discriminate].
  destruct total_rows as [|p|p]; try discriminate.
  unfold Qle, Qdiv, Qmult, Qinv, inject_Z; simpl.
  split; nia.
Qed.

Lemma percentage_value_zero (total_rows : Z) :
  (percentage_value 0 total_rows == 0)%Q.
Proof.
  unfold percentage_value. destruct (total_rows >? 0); [|reflexivity].
  unfold Qeq, Qdiv, Qmult, Qinv, inject_Z; simpl.
  destruct total_rows; reflexivity.
Qed.

(** C3.  For every loaded table and every column, the null percentage the
    profiler computes is [null_count / total_count * 100] when the table has
    rows and 0 when it has none; the computation never raises a division
    error, the percentage lies between 0 and 100, and it is 0 when the
    column has no NULL.  (The arithmetic is exact, on rationals.)  The whole
    profile returns for every table, the empty one included, and prints this
    percentage for each column of the table. *)
Theorem null_percentage_sound (E : Engine) (df : list RawRow) (column : string) (w : World) :
  exists q : Q,
    Analysis.null_percentage (Analysis.null_count_of df column) (df_count df) w
      = (Returned q, w) /\
    Analysis.null_count_of df column
      = df_count (List.filter (fun r => is_none (col column r)) df) /\
    (0 < df_count df ->
     (q == inject_Z (Analysis.null_count_of df column) / inject_Z (df_count df) * 100)%Q) /\
    (df_count df = 0 -> (q == 0)%Q) /\
    (0 <= q)%Q /\ (q <= 100)%Q /\
    (Analysis.null_count_of df column = 0 -> (q == 0)%Q) /\
    exists ls,
      Analysis.profile_badges df w = (Returned tt, extend w (map Printed ls)) /\
      (In column raw_columns ->
       In (NullLine column (Analysis.null_count_of df column) q) ls).
Proof.
  exists (percentage_value (Analysis.null_count_of df column) (df_count df)).
  split.
  { rewrite (null_percentage_prints _ _ w). simpl. now rewrite extend_nil. }
  split; [apply null_count_spec|].
  split.
  { intros Hpos. unfold percentage_value.
    apply Z.gtb_lt in Hpos. rewrite Hpos. reflexivity. }
  split.
  { intros Hzero. unfold percentage_value. rewrite Hzero. reflexivity. }
  destruct (percentage_value_bounds _ _ (null_count_le df column)) as [Hlo Hhi].
  split; [exact Hlo|]. split; [exact Hhi|].
  split.
  { intros ->. apply percentage_value_zero. }
  destruct (profile_badges_prints df) as (ls & Hrun & Hnull & _).
  exists ls. split; [apply Hrun | apply Hnull].
Qed.

Lemma invalid_class_predicate {E : Engine} (r : RawRow) :
  is_true (not3 (isin (col "_Class" r) [VLong 1; VLong 2; VLong 3]))
  = class_value_outside_domain r.
Proof.
  unfold class_value_outside_domain. change (col "_Class" r) with (_Class r).
  destruct (_Class r) as [v|]; simpl; [|reflexivity].
  now destruct (_ || _)%bool.
Qed.




(** ** Runs of the scripts *)

Lemma bind_prints {A B : Type} (m : M A) (k : A -> M B) (a : A) (ls : list line) (w : World) :
  prints m a ls -> bind m k w = k a (extend w (map Printed ls)).
Proof.
  intros H. unfold bind. now rewrite H.
Qed.


Lemma bind_returned {A B : Type} (m : M A) (k : A -> M B) (a : A) (w w' : World) :
  m w = (Returned a, w') -> bind m k w = k a w'.
Proof.
  intros H. unfold bind. now rewrite H.
Qed.

Lemma bind_raised {A B : Type} (m : M A) (k : A -> M B) (e : exn) (w w' : World) :
  m w = (Raised e, w') -> bind m k w = (Raised e, w').
Proof.
  intros H. unfold bind. now rewrite H.
Qed.

Ltac finish_run :=
  unfold extend; cbn [xml_files parquet_dirs trace];
  rewrite <- ?app_assoc, <- ?map_app; reflexivity.

Ltac step_prints := erewrite bind_prints by run_prints.

Lemma parquet_overwrite_by_year (df : list CleanRow) (options : list (string * string))
      (path : string) (w : World) :
  parquet (mkWriter df Overwrite (Some "badge_year") options) path w
  = (Returned tt,
     mkWorld (xml_files w) (written path (year_dataset df) (parquet_dirs w)) (trace w)).
Proof.
  reflexivity.
Qed.

Section PipelineRuns.
Context {E : Engine}.

Lemma export_runs (df : list CleanRow) (path : string) :
  exists ls, forall w,
    Cleaning.export_to_parquet df path (Some "badge_year") w
    = (Returned path,
       mkWorld (xml_files w) (written path (year_dataset df) (parquet_dirs w))
               (trace w ++ map Printed ls)).
Proof.
  eexists. intros w. unfold Cleaning.export_to_parquet.
  do 2 step_prints. cbv zeta. cbn [Cleaning.truthy]. do 2 step_prints.
  erewrite bind_returned by apply parquet_overwrite_by_year.
  step_prints.
  unfold ret.
  finish_run.
Qed.

Lemma year_dataset_nonempty (r : CleanRow) (df : list CleanRow) :
  year_dataset (r :: df) <> [].
Proof.
  unfold year_dataset, partition_rows. simpl.
  destruct (fold_right _ _ _) as [|[k rows] rest]; simpl; [discriminate|].
  destruct (cell_eqb _ _); discriminate.
Qed.

Lemma validate_runs (spark : SparkSession) (path : string) (ds : dataset) :
  ds <> [] ->
  exists ls,
    (forall w, parquet_dirs w path = Some ds ->
       Cleaning.validate_parquet_output spark path w
       = (Returned (df_count (dataset_rows ds)), extend w (map Printed ls))) /\
    In (Labelled "Parquet record count: " (df_count (dataset_rows ds))) ls /\
    In (show ["badge_year"; "count"] count_row 20 (year_counts (dataset_rows ds))) ls /\
    existsb mentions_warning ls = false.
Proof.
  intros Hne. eexists. split; [|split; [|split]].
  - intros w Hdir. unfold Cleaning.validate_parquet_output.
    do 2 step_prints.
    erewrite bind_returned.
    2:{ unfold read_parquet, extend. cbn [parquet_dirs]. rewrite Hdir.
        destruct ds; [contradiction|]. reflexivity. }
    cbv zeta. repeat step_prints.
    unfold ret.
    finish_run.
  - find_event.
  - find_event.
  - reflexivity.
Qed.

Lemma create_cleaning_session (w : World) :
  Cleaning.create_spark_session w
  = (Returned (Session Cleaning.app_name), extend w [SessionCreated Cleaning.app_name]).
Proof.
  reflexivity.
Qed.

Lemma stop_runs (spark : SparkSession) (w : World) :
  stop spark w = (Returned tt, extend w [SessionStopped]).
Proof.
  reflexivity.
Qed.

Lemma filter_session_printed (ls : list line) :
  List.filter is_session_event (map Printed ls) = [].
Proof.
  induction ls; simpl; auto.
Qed.

Lemma session_active_from_app (b : bool) (t1 t2 : list event) :
  session_active_from b (t1 ++ t2) = session_active_from (session_active_from b t1) t2.
Proof.
  revert b. induction t1 as [|[a| |l] t1 IH]; intros b; simpl; auto.
Qed.

Lemma session_active_from_printed (b : bool) (ls : list line) :
  session_active_from b (map Printed ls) = b.
Proof.
  induction ls; simpl; auto.
Qed.

Ltac find_printed :=
  repeat match goal with
    | |- In _ (_ ++ _) => apply in_or_app
    | |- In _ _ \/ In _ _ => first [ left; solve [find_printed] | right ]
    | |- In (Printed _) (map Printed _) => apply in_map
    | |- In _ (_ :: _) => first [ left; reflexivity | right ]
    | |- In _ _ => assumption
    end.

Ltac session_events :=
  rewrite ?filter_app, ?filter_session_printed; reflexivity.

Lemma cleaning_main_missing_input :
  exists tr,
    (forall w, xml_files w Cleaning.input_path = None ->
       Cleaning.main w
       = (Raised (AnalysisException ("Path does not exist: " ++ Cleaning.input_path)),
          extend w tr)) /\
    List.filter is_session_event tr = [SessionCreated Cleaning.app_name].
Proof.
  eexists. split.
  - intros w Hfile. unfold Cleaning.main.
    repeat step_prints.
    erewrite bind_returned by apply create_cleaning_session.
    repeat step_prints.
    erewrite bind_raised.
    2:{ unfold load_badges_xml, extend. cbn [xml_files]. rewrite Hfile. reflexivity. }
    finish_run.
  - session_events.
Qed.

Lemma cleaning_main_empty_input :
  exists tr e,
    (forall w, xml_files w Cleaning.input_path = Some [] ->
       Cleaning.main w
       = (Raised e,
          mkWorld (xml_files w) (written Cleaning.output_path [] (parquet_dirs w))
                  (trace w ++ tr))) /\
    List.filter is_session_event tr = [SessionCreated Cleaning.app_name].
Proof.
  destruct (clean_badges_data_prints []) as (lc & Hclean & _).
  destruct (export_runs [] Cleaning.output_path) as (le & Hexport).
  eexists. eexists. split.
  - intros w Hfile. unfold Cleaning.main.
    repeat step_prints.
    erewrite bind_returned by apply create_cleaning_session.
    repeat step_prints.
    erewrite bind_returned.
    2:{ unfold load_badges_xml, extend. cbn [xml_files]. rewrite Hfile. reflexivity. }
    erewrite bind_prints by apply Hclean.
    erewrite bind_returned by apply Hexport.
    erewrite bind_raised.
    2:{ unfold Cleaning.validate_parquet_output. repeat step_prints.
        erewrite bind_raised; [reflexivity|].
        reflexivity. }
    finish_run.
  - session_events.
Qed.

Lemma cleaning_main_returns (r0 : RawRow) (df0 : list RawRow) :
  exists tr,
    (forall w, xml_files w Cleaning.input_path = Some (r0 :: df0) ->
       Cleaning.main w
       = (Returned tt,
          mkWorld (xml_files w)
                  (written Cleaning.output_path (year_dataset (map clean_row (r0 :: df0)))
                           (parquet_dirs w))
                  (trace w ++ tr))) /\
    List.filter is_session_event tr = [SessionCreated Cleaning.app_name; SessionStopped] /\
    (exists tr0, tr = tr0 ++ [SessionStopped])%list /\
    In (Printed (Labelled "Records removed: " 0)) tr /\
    In (Printed (Labelled "Parquet record count: " (df_count (r0 :: df0)))) tr /\
    In (Printed (show ["badge_year"; "count"] count_row 20
                      (year_counts (dataset_rows (year_dataset (map clean_row (r0 :: df0))))))) tr /\
    In (Printed (CleaningSummary Cleaning.input_path Cleaning.output_path
                                 (df_count (r0 :: df0)))) tr.
Proof.
  set (df := r0 :: df0).
  destruct (clean_badges_data_prints df) as (lc & Hclean & _ & _ & _ & _ & Hdelta).
  rewrite df_count_map, Z.sub_diag in Hdelta.
  destruct (export_runs (map clean_row df) Cleaning.output_path) as (le & Hexport).
  destruct (validate_runs (Session Cleaning.app_name) Cleaning.output_path
                          (year_dataset (map clean_row df)))
    as (lv & Hvalidate & Hcount & Hparts & _).
  { apply year_dataset_nonempty. }
  assert (Hrows : df_count (dataset_rows (year_dataset (map clean_row df))) = df_count df).
  { unfold year_dataset. rewrite dataset_rows_layout. unfold df_count.
    now rewrite partition_rows_length, length_map. }
  rewrite Hrows in Hcount.
  eexists. split; [|split; [|split; [|split; [|split; [|split]]]]].
  - intros w Hfile. unfold Cleaning.main.
    repeat step_prints.
    erewrite bind_returned by apply create_cleaning_session.
    repeat step_prints.
    erewrite bind_returned.
    2:{ unfold load_badges_xml, extend. cbn [xml_files]. rewrite Hfile. reflexivity. }
    erewrite bind_prints by apply Hclean.
    erewrite bind_returned by apply Hexport.
    erewrite bind_returned.
    2:{ apply Hvalidate. reflexivity. }
    repeat step_prints.
    rewrite stop_runs, Hrows.
    finish_run.
  - session_events.
  - rewrite !app_assoc. eexists. reflexivity.
  - find_printed.
  - find_printed.
  - find_printed.
  - find_printed.
Qed.

Lemma create_analysis_session (w : World) :
  Analysis.create_spark_session w
  = (Returned (Session Analysis.app_name), extend w [SessionCreated Analysis.app_name]).
Proof.
  reflexivity.
Qed.

Lemma analysis_main_missing_input :
  exists tr,
    (forall w, xml_files w Analysis.file_path = None ->
       Analysis.main w
       = (Raised (AnalysisException ("Path does not exist: " ++ Analysis.file_path)),
          extend w tr)) /\
    List.filter is_session_event tr = [SessionCreated Analysis.app_name].
Proof.
  eexists. split.
  - intros w Hfile. unfold Analysis.main.
    repeat step_prints.
    erewrite bind_returned by apply create_analysis_session.
    repeat step_prints.
    erewrite bind_raised.
    2:{ unfold load_badges_xml, extend. cbn [xml_files]. rewrite Hfile. reflexivity. }
    finish_run.
  - session_events.
Qed.

Lemma analysis_main_returns (df : list RawRow) :
  exists tr,
    (forall w, xml_files w Analysis.file_path = Some df ->
       Analysis.main w = (Returned tt, extend w tr)) /\
    List.filter is_session_event tr = [SessionCreated Analysis.app_name; SessionStopped] /\
    (exists tr0, tr = tr0 ++ [SessionStopped])%list.
Proof.
  destruct (profile_badges_prints df) as (lp & Hprofile & _).
  eexists. split.
  - intros w Hfile. unfold Analysis.main.
    repeat step_prints.
    erewrite bind_returned by apply create_analysis_session.
    repeat step_prints.
    erewrite bind_returned.
    2:{ unfold load_badges_xml, extend. cbn [xml_files]. rewrite Hfile. reflexivity. }
    erewrite bind_prints by apply Hprofile.
    repeat step_prints.
    rewrite stop_runs.
    finish_run.
  - split; [session_events|]. rewrite !app_assoc. eexists. reflexivity.
Qed.

Lemma session_active_filter (b : bool) (tr : list event) :
  session_active_from b tr = session_active_from b (List.filter is_session_event tr).
Proof.
  revert b. induction tr as [|[a| |l] tr IH]; intros b; simpl; auto.
Qed.

Lemma session_after (w : World) (tr : list event) (b : bool) (evs : list event) :
  List.filter is_session_event tr = evs ->
  session_active_from (session_active_from false (trace w)) evs = b ->
  session_active_from false (trace w ++ tr) = b.
Proof.
  intros <- <-. now rewrite session_active_from_app, (session_active_filter _ tr).
Qed.

End PipelineRuns.

(** ** The engine session *)

(** C7, as the code has it.  In every run of each script's [main] the
    session is created once.  When the run returns, the session was stopped
    once, as the last thing [main] does, and is not active afterwards.  When
    a step raises, the exception leaves [main] before the stop: no stop was
    issued and the session is still active. *)
Theorem session_released_when_main_returns (E : Engine) (w : World) :
  (exists r w' tr,
     Cleaning.main w = (r, w') /\ trace w' = (trace w ++ tr)%list /\
     outcome_session Cleaning.app_name r w' tr) /\
  (exists r w' tr,
     Analysis.main w = (r, w') /\ trace w' = (trace w ++ tr)%list /\
     outcome_session Analysis.app_name r w' tr).
Proof.
  split.
  - destruct (xml_files w Cleaning.input_path) as [[|r0 df0]|] eqn:Hfile.
    + destruct cleaning_main_empty_input as (tr & e & Hrun & Hev).
      eexists _, _, tr. split; [apply (Hrun w Hfile)|]. split; [reflexivity|].
      split; [exact Hev|]. apply (session_after w tr _ _ Hev). reflexivity.
    + destruct (cleaning_main_returns r0 df0) as (tr & Hrun & Hev & Hlast & _).
      eexists _, _, tr. split; [apply (Hrun w Hfile)|]. split; [reflexivity|].
      split; [exact Hev|]. split; [exact Hlast|].
      apply (session_after w tr _ _ Hev). reflexivity.
    + destruct cleaning_main_missing_input as (tr & Hrun & Hev).
      eexists _, _, tr. split; [apply (Hrun w Hfile)|]. split; [reflexivity|].
      split; [exact Hev|]. apply (session_after w tr _ _ Hev). reflexivity.
  - destruct (xml_files w Analysis.file_path) as [df|] eqn:Hfile.
    + destruct (analysis_main_returns df) as (tr & Hrun & Hev & Hlast).
      eexists _, _, tr. split; [apply (Hrun w Hfile)|]. split; [reflexivity|].
      split; [exact Hev|]. split; [exact Hlast|].
      apply (session_after w tr _ _ Hev). reflexivity.
    + destruct analysis_main_missing_input as (tr & Hrun & Hev).
      eexists _, _, tr. split; [apply (Hrun w Hfile)|]. split; [reflexivity|].
      split; [exact Hev|]. apply (session_after w tr _ _ Hev). reflexivity.
Qed.


(** ** Export and validation *)

Lemma year_dataset_count (df : list CleanRow) :
  df_count (dataset_rows (year_dataset df)) = df_count df.
Proof.
  unfold year_dataset. rewrite dataset_rows_layout. unfold df_count.
  now rewrite partition_rows_length.
Qed.

Lemma written_twice (path : string) (ds : dataset) (dirs : string -> option dataset)
      (p : string) :
  written path ds (written path ds dirs) p = written path ds dirs p.
Proof.
  unfold written. now destruct (String.eqb p path).
Qed.

Lemma written_at (path : string) (ds : dataset) (dirs : string -> option dataset) :
  written path ds dirs path = Some ds.
Proof.
  unfold written. now rewrite String.eqb_refl.
Qed.

Lemma written_elsewhere (path : string) (ds : dataset) (dirs : string -> option dataset)
      (p : string) :
  p <> path -> written path ds dirs p = dirs p.
Proof.
  intros Hp. unfold written. apply String.eqb_neq in Hp. now rewrite Hp.
Qed.

(** C9.  An export replaces what is at the destination path: after one
    export the path holds the file set of the exported table and nothing
    else, whatever it held before; a second export of the same table leaves
    the same content and prints the same lines, and other paths are
    untouched.  A second run of the whole cleaning script on the same input
    ends with the same outcome, prints the same lines (the row count and the
    counts by partition among them) and leaves the same directories as the
    first. *)
Theorem export_overwrites (E : Engine) (w : World) :
  (forall (df : list CleanRow) (path : string),
      exists ls w1 w2,
        Cleaning.export_to_parquet df path (Some "badge_year") w = (Returned path, w1) /\
        Cleaning.export_to_parquet df path (Some "badge_year") w1 = (Returned path, w2) /\
        parquet_dirs w1 path = Some (year_dataset df) /\
        (forall p, parquet_dirs w2 p = parquet_dirs w1 p) /\
        (forall p, p <> path -> parquet_dirs w1 p = parquet_dirs w p) /\
        df_count (dataset_rows (year_dataset df)) = df_count df /\
        trace w1 = (trace w ++ map Printed ls)%list /\
        trace w2 = (trace w1 ++ map Printed ls)%list) /\
  exists r tr dirs,
    Cleaning.main w = (r, mkWorld (xml_files w) dirs (trace w ++ tr)) /\
    (exists dirs',
        Cleaning.main (mkWorld (xml_files w) dirs (trace w ++ tr))
        = (r, mkWorld (xml_files w) dirs' ((trace w ++ tr) ++ tr)) /\
        forall p, dirs' p = dirs p) /\
    (forall df, xml_files w Cleaning.input_path = Some df ->
       dirs Cleaning.output_path = Some (year_dataset (map clean_row df)) /\
       df_count (dataset_rows (year_dataset (map clean_row df))) = df_count df /\
       forall p, p <> Cleaning.output_path -> dirs p = parquet_dirs w p) /\
    (forall df, xml_files w Cleaning.input_path = Some df -> df <> [] ->
       r = Returned tt /\
       In (Printed (Labelled "Parquet record count: " (df_count df))) tr /\
       In (Printed (show ["badge_year"; "count"] count_row 20
                         (year_counts (dataset_rows (year_dataset (map clean_row df)))))) tr).
Proof.
  split.
  { intros df path. destruct (export_runs df path) as (ls & Hrun).
    eexists ls, _, _. split; [apply Hrun|]. split; [apply Hrun|].
    cbn [parquet_dirs trace].
    split; [apply written_at|]. split; [intros p; apply written_twice|].
    split; [intros p; apply written_elsewhere|].
    split; [apply year_dataset_count|]. split; reflexivity. }
  destruct (xml_files w Cleaning.input_path) as [[|r0 df0]|] eqn:Hfile.
  - destruct cleaning_main_empty_input as (tr & e & Hrun & _).
    eexists _, tr, _. split; [apply (Hrun w Hfile)|]. split; [|split].
    + eexists. split; [apply (Hrun (mkWorld _ _ _) Hfile)|].
      intros p. apply written_twice.
    + intros df [= <-]. split; [apply written_at|].
      split; [reflexivity|]. intros p. apply written_elsewhere.
    + intros df [= <-] Hne. contradiction.
  - destruct (cleaning_main_returns r0 df0) as (tr & Hrun & _ & _ & _ & Hcount & Hparts & _).
    eexists _, tr, _. split; [apply (Hrun w Hfile)|]. split; [|split].
    + eexists. split; [apply (Hrun (mkWorld _ _ _) Hfile)|].
      intros p. apply written_twice.
    + intros df [= <-]. split; [apply written_at|].
      split; [rewrite year_dataset_count; apply df_count_map|].
      intros p. apply written_elsewhere.
    + intros df [= <-] _. auto.
  - destruct cleaning_main_missing_input as (tr & Hrun & _).
    eexists _, tr, _. split; [apply (Hrun w Hfile)|]. split; [|split].
    + eexists. split; [apply (Hrun (mkWorld _ _ _) Hfile)|]. reflexivity.
    + intros df [=].
    + intros df [=].
Qed.

(** C6, as the code has it.  The Validator reads the file set at the path
    back, counts its rows, prints that count and the counts by partition,
    and returns the count.  It is not given the count before the export and
    compares nothing: it returns normally and prints no warning, whatever
    the count.  [main] prints the count read back as the records processed;
    in a run of [main] on a table with rows that count is the row count of
    the input. *)
Theorem validator_reports_read_back_count
        (E : Engine) (spark : SparkSession) (path : string) (ds : dataset) (w : World) :
  parquet_dirs w path = Some ds -> ds <> [] ->
  (exists ls,
     Cleaning.validate_parquet_output spark path w
     = (Returned (df_count (dataset_rows ds)), extend w (map Printed ls)) /\
     In (Labelled "Parquet record count: " (df_count (dataset_rows ds))) ls /\
     In (show ["badge_year"; "count"] count_row 20 (year_counts (dataset_rows ds))) ls /\
     existsb mentions_warning ls = false) /\
  (forall (df : list RawRow) (w0 : World),
      df <> [] -> xml_files w0 Cleaning.input_path = Some df ->
      exists w1 tr,
        Cleaning.main w0 = (Returned tt, w1) /\
        trace w1 = (trace w0 ++ tr)%list /\
        In (Printed (Labelled "Parquet record count: " (df_count df))) tr /\
        In (Printed (CleaningSummary Cleaning.input_path Cleaning.output_path
                                     (df_count df))) tr).
Proof.
  intros Hdir Hne. split.
  - destruct (validate_runs spark path ds Hne) as (ls & Hrun & Hcount & Hparts & Hwarn).
    exists ls. split; [apply (Hrun w Hdir)|]. auto.
  - intros [|r0 df0] w0 Hdf Hfile; [contradiction|].
    destruct (cleaning_main_returns r0 df0) as (tr & Hrun & _ & _ & _ & Hcount & _ & Hsummary).
    eexists _, tr. split; [apply (Hrun w0 Hfile)|]. split; [reflexivity|]. auto.
Qed.


(** * The error path *)

(** ** Evaluation *)

Section DeferredRuns.
Context {E : Engine} {P : ErrorPath}.

Lemma or_else_none (a b : option exn) : or_else a b = None <-> a = None /\ b = None.
Proof.
  destruct a; simpl; split; intros H.
  - discriminate.
  - destruct H; discriminate.
  - auto.
  - tauto.
Qed.

Lemma first_raised_none (f : RawRow -> option exn) (rows : list RawRow) :
  first_raised f rows = None <-> Forall (fun r => f r = None) rows.
Proof.
  induction rows as [|r rows IH]; simpl.
  - split; auto.
  - rewrite or_else_none, IH. split.
    + intros [? ?]. now constructor.
    + intros H. inversion H. auto.
Qed.

Lemma first_raised_in (f : RawRow -> option exn) (rows : list RawRow) (e : exn) :
  first_raised f rows = Some e -> exists r, In r rows /\ f r = Some e.
Proof.
  induction rows as [|r rows IH]; simpl; [discriminate|].
  destruct (f r) as [e'|] eqn:Hr; simpl.
  - intros [= <-]. exists r. auto.
  - intros H. destruct (IH H) as (r' & ? & ?). exists r'. auto.
Qed.

Lemma row_raises_date (r : RawRow) : row_raises r = None -> date_raises r = None.
Proof.
  unfold row_raises. rewrite !or_else_none. unfold date_raises. tauto.
Qed.

Lemma first_raised_dates (df : list RawRow) :
  first_raised row_raises df = None -> first_raised date_raises df = None.
Proof.
  rewrite !first_raised_none. intros H.
  eapply Forall_impl; [|exact H]. apply row_raises_date.
Qed.

Lemma first_raised_firstn (f : RawRow -> option exn) (n : nat) (df : list RawRow) :
  first_raised f df = None -> first_raised f (firstn n df) = None.
Proof.
  revert df. induction n as [|n IH]; intros [|r df]; simpl; auto.
  rewrite !or_else_none. intros [Hr Hrest]. auto.
Qed.

Lemma prints_evaluate (f : RawRow -> option exn) (rows : list RawRow) :
  first_raised f rows = None -> prints (evaluate f rows) tt [].
Proof.
  intros H. unfold evaluate. rewrite H. apply prints_ret.
Qed.

Lemma evaluate_raises (f : RawRow -> option exn) (rows : list RawRow) (e : exn) (w : World) :
  first_raised f rows = Some e -> evaluate f rows w = (Raised e, w).
Proof.
  intros H. unfold evaluate. now rewrite H.
Qed.

Ltac run_deferred :=
  repeat (cbv beta zeta;
          lazymatch goal with
          | |- prints (bind _ _) _ _ => eapply prints_bind
          | |- prints (print_section _) _ _ => apply prints_print_section
          | |- prints (print _) _ _ => apply prints_print
          | |- prints (ret _) _ _ => apply prints_ret
          | |- prints (evaluate _ _) _ _ => apply prints_evaluate; assumption
          | |- prints (if _ then _ else _) _ _ => eapply prints_if
          end).

Ltac step_deferred := erewrite bind_prints by run_deferred.

Ltac finish_prints :=
  rewrite ?extend_extend, <- ?app_assoc, <- ?map_app; reflexivity.

(** Where no cast raises in what its actions evaluate, the Cleaner prints
    what it prints without an error path. *)
Lemma deferred_clean_returns (df : list RawRow) :
  first_raised date_raises df = None ->
  first_raised row_raises (firstn (rows_read_by_show 10) df) = None ->
  exists ls,
    prints (Deferred.clean_badges_data df) df ls /\
    prints (Cleaning.clean_badges_data df) (map clean_row df) ls /\
    existsb (announces "Export complete") ls = false.
Proof.
  intros Hdate Hshow. eexists. split; [|split].
  - unfold Deferred.clean_badges_data. run_deferred.
  - eapply prints_eq.
    + unfold Cleaning.clean_badges_data. rewrite map_map.
      change (fun x => Cleaning.with_badge_year (Cleaning.select_row x)) with clean_row.
      run_prints.
    + rewrite !df_count_map. reflexivity.
  - destruct (Cleaning.validate_string_anomalies df (col "_Name") >? 0); reflexivity.
Qed.

Lemma deferred_clean_date_raises (df : list RawRow) (e : exn) :
  first_raised date_raises df = Some e ->
  exists ls,
    (forall w, Deferred.clean_badges_data df w = (Raised e, extend w (map Printed ls))) /\
    In (Labelled "Initial record count: " (df_count df)) ls /\
    (exists ls0, ls = (ls0 ++ [Text (newline ++ "Year distribution:")])%list) /\
    existsb (announces "Final record count") ls = false /\
    existsb (announces "Export complete") ls = false.
Proof.
  intros Hdate. eexists. split; [|split; [|split; [|split]]].
  - intros w. unfold Deferred.clean_badges_data.
    repeat first [step_deferred | progress cbv zeta].
    erewrite bind_raised by (apply evaluate_raises; exact Hdate).
    finish_prints.
  - find_event.
  - rewrite ?app_nil_r, !app_assoc. eexists. reflexivity.
  - destruct (Cleaning.validate_string_anomalies df (col "_Name") >? 0); reflexivity.
  - destruct (Cleaning.validate_string_anomalies df (col "_Name") >? 0); reflexivity.
Qed.

Lemma deferred_clean_show_raises (df : list RawRow) (e : exn) :
  first_raised date_raises df = None ->
  first_raised row_raises (firstn (rows_read_by_show 10) df) = Some e ->
  exists ls,
    (forall w, Deferred.clean_badges_data df w = (Raised e, extend w (map Printed ls))) /\
    In (Labelled "Final record count: " (df_count df)) ls /\
    In (Labelled "Records removed: " 0) ls /\
    (exists ls0, ls = (ls0 ++ [Text (newline ++ "Sample of cleaned data:")])%list) /\
    existsb (announces "Export complete") ls = false.
Proof.
  intros Hdate Hshow. eexists. split; [|split; [|split; [|split]]].
  - intros w. unfold Deferred.clean_badges_data.
    repeat first [step_deferred | progress cbv zeta].
    erewrite bind_raised by (apply evaluate_raises; exact Hshow).
    rewrite Z.sub_diag.
    finish_prints.
  - find_event.
  - find_event.
  - rewrite ?app_nil_r, !app_assoc. eexists. reflexivity.
  - destruct (Cleaning.validate_string_anomalies df (col "_Name") >? 0); reflexivity.
Qed.

(** ** The export *)

Lemma parquet_job_overwrite (df : list RawRow) (rows : list CleanRow)
      (options : list (string * string)) (path : string) (w : World) :
  first_raised row_raises df = None ->
  Deferred.parquet_job df (mkWriter rows Overwrite (Some "badge_year") options) path w
  = parquet (mkWriter rows Overwrite (Some "badge_year") options) path w.
Proof.
  intros Hnone. unfold Deferred.parquet_job, bind, lift. rewrite layout_by_year.
  cbn [w_mode]. now rewrite Hnone.
Qed.

Lemma parquet_job_raises (df : list RawRow) (rows : list CleanRow)
      (options : list (string * string)) (path : string) (w : World) (e : exn) :
  first_raised row_raises df = Some e ->
  Deferred.parquet_job df (mkWriter rows Overwrite (Some "badge_year") options) path w
  = (Raised e,
     mkWorld (xml_files w)
             (fun p => if String.eqb p path
                       then left_by_failed_write Overwrite (parquet_dirs w path)
                       else parquet_dirs w p)
             (trace w)).
Proof.
  intros Hsome. unfold Deferred.parquet_job, bind, lift. rewrite layout_by_year.
  cbn [w_mode]. now rewrite Hsome.
Qed.

(** Where no cast raises, the export is the export of the values. *)
Lemma deferred_export_runs (df : list RawRow) (path : string) (w : World) :
  first_raised row_raises df = None ->
  Deferred.export_to_parquet df path (Some "badge_year") w
  = Cleaning.export_to_parquet (map clean_row df) path (Some "badge_year") w.
Proof.
  intros Hnone. etransitivity; [|symmetry].
  - unfold Deferred.export_to_parquet.
    change (map Deferred.values df) with (map clean_row df).
    repeat first [step_prints | progress cbv zeta | progress cbn [Cleaning.truthy]].
    erewrite bind_returned.
    2:{ etransitivity; [apply parquet_job_overwrite; exact Hnone|].
        apply parquet_overwrite_by_year. }
    reflexivity.
  - unfold Cleaning.export_to_parquet.
    repeat first [step_prints | progress cbv zeta | progress cbn [Cleaning.truthy]].
    erewrite bind_returned by apply parquet_overwrite_by_year.
    reflexivity.
Qed.

Lemma deferred_export_raises (df : list RawRow) (path : string) (e : exn) :
  first_raised row_raises df = Some e ->
  exists ls,
    (forall w,
        Deferred.export_to_parquet df path (Some "badge_year") w
        = (Raised e,
           mkWorld (xml_files w)
                   (fun p => if String.eqb p path
                             then left_by_failed_write Overwrite (parquet_dirs w path)
                             else parquet_dirs w p)
                   (trace w ++ map Printed ls))) /\
    (exists ls0, ls = (ls0 ++ [Text (newline ++ "Writing Parquet files...")])%list) /\
    existsb (announces "Export complete") ls = false.
Proof.
  intros Hsome. eexists. split; [|split].
  - intros w. unfold Deferred.export_to_parquet.
    repeat first [step_prints | progress cbv zeta | progress cbn [Cleaning.truthy]].
    erewrite bind_raised by (apply parquet_job_raises; exact Hsome).
    rewrite ?extend_extend. unfold extend. cbn [xml_files parquet_dirs trace].
    rewrite <- ?app_assoc, <- ?map_app. reflexivity.
  - rewrite ?app_nil_r, !app_assoc. eexists. reflexivity.
  - reflexivity.
Qed.

(** ** The pipeline and [main] *)

Lemma bind_through {A B C : Type} (m : M A) (f : A -> M B) (g : B -> M C)
      (e : exn) (w w' : World) :
  bind m f w = (Raised e, w') -> bind m (fun a => bind (f a) g) w = (Raised e, w').
Proof.
  unfold bind. destruct (m w) as [[a|e0] w0]; intros H.
  - now rewrite H.
  - now injection H as -> ->.
Qed.

Lemma in_firstn {A : Type} (n : nat) (l : list A) (a : A) : In a (firstn n l) -> In a l.
Proof.
  revert l. induction n as [|n IH]; intros [|b l]; simpl; try tauto.
  intros [->|H]; auto.
Qed.

Lemma existsb_app_false {A : Type} (f : A -> bool) (l1 l2 : list A) :
  existsb f l1 = false -> existsb f l2 = false -> existsb f (l1 ++ l2) = false.
Proof.
  intros H1 H2. now rewrite existsb_app, H1, H2.
Qed.

(** When a cast raises on a row of the table, the Cleaner or the export
    raises: at the year distribution for a date, at the display of the
    sample for a row it reads, in the job of the export otherwise. *)
Lemma pipeline_raises (df : list RawRow) :
  first_raised row_raises df <> None ->
  exists e ls,
    (forall w, exists dirs,
        clean_then_export df w
        = (Raised e, mkWorld (xml_files w) dirs (trace w ++ map Printed ls)) /\
        forall p, p <> Cleaning.output_path -> dirs p = parquet_dirs w p) /\
    existsb (announces "Export complete") ls = false /\
    (exists r, In r df /\ (date_raises r = Some e \/ row_raises r = Some e)) /\
    ((first_raised date_raises df = Some e /\
      existsb (announces "Final record count") ls = false /\
      exists ls0, ls = (ls0 ++ [Text (newline ++ "Year distribution:")])%list)
     \/
     (first_raised date_raises df = None /\
      first_raised row_raises (firstn (rows_read_by_show 10) df) = Some e /\
      In (Labelled "Final record count: " (df_count df)) ls /\
      In (Labelled "Records removed: " 0) ls /\
      exists ls0, ls = (ls0 ++ [Text (newline ++ "Sample of cleaned data:")])%list)
     \/
     (first_raised row_raises (firstn (rows_read_by_show 10) df) = None /\
      first_raised row_raises df = Some e /\
      In (Labelled "Final record count: " (df_count df)) ls /\
      In (Labelled "Records removed: " 0) ls /\
      exists ls0, ls = (ls0 ++ [Text (newline ++ "Writing Parquet files...")])%list)).
Proof.
  intros Hsome.
  destruct (first_raised date_raises df) as [e|] eqn:Hdate.
  { destruct (deferred_clean_date_raises df e Hdate) as (ls & Hrun & _ & Hlast & Hfinal & Hdone).
    exists e, ls. split; [|split; [exact Hdone|split]].
    - intros w. exists (parquet_dirs w). split; [|reflexivity].
      unfold clean_then_export. erewrite bind_raised by apply Hrun. reflexivity.
    - destruct (first_raised_in _ _ _ Hdate) as (r & Hr & He). exists r. auto.
    - left. auto. }
  destruct (first_raised row_raises (firstn (rows_read_by_show 10) df)) as [e|] eqn:Hshow.
  { destruct (deferred_clean_show_raises df e Hdate Hshow)
      as (ls & Hrun & Hcount & Hdelta & Hlast & Hdone).
    exists e, ls. split; [|split; [exact Hdone|split]].
    - intros w. exists (parquet_dirs w). split; [|reflexivity].
      unfold clean_then_export. erewrite bind_raised by apply Hrun. reflexivity.
    - destruct (first_raised_in _ _ _ Hshow) as (r & Hr & He). exists r.
      split; [eapply in_firstn; exact Hr | auto].
    - right. left. auto. }
  destruct (first_raised row_raises df) as [e|] eqn:Hrows; [|contradiction].
  destruct (deferred_clean_returns df Hdate Hshow) as (lc & Hclean & Hsame & Hdone).
  destruct (deferred_export_raises df Cleaning.output_path e Hrows)
    as (le & Hexport & (le0 & Hlast) & Hdone').
  destruct (clean_badges_data_prints df) as (lc' & Hsame' & _ & _ & _ & Hcount & Hdelta).
  assert (lc' = lc) as ->.
  { pose proof (Hsame no_files) as H1. pose proof (Hsame' no_files) as H2.
    rewrite H1 in H2. injection H2 as H2. unfold extend in H2. simpl in H2.
    clear - H2. revert lc' H2. induction lc as [|l lc IH]; intros [|l' lc']; simpl;
      intros H; try discriminate; [reflexivity|].
    injection H as -> H. f_equal. auto. }
  rewrite df_count_map in Hcount. rewrite df_count_map, Z.sub_diag in Hdelta.
  exists e, (lc ++ le)%list. split; [|split; [|split]].
  - intros w. eexists. split.
    + unfold clean_then_export. erewrite bind_prints by apply Hclean.
      rewrite Hexport. unfold extend. cbn [xml_files parquet_dirs trace].
      rewrite <- app_assoc, <- map_app. reflexivity.
    + intros p Hp. cbn beta. apply String.eqb_neq in Hp. now rewrite Hp.
  - now apply existsb_app_false.
  - destruct (first_raised_in _ _ _ Hrows) as (r & Hr & He). exists r. auto.
  - right. right. split; [reflexivity|]. split; [reflexivity|].
    split; [apply in_or_app; left; assumption|].
    split; [apply in_or_app; left; assumption|].
    exists (lc ++ le0)%list. rewrite Hlast. apply app_assoc.
Qed.

Lemma existsb_printed (label : string) (ls : list line) :
  existsb (printed_line label) (map Printed ls) = existsb (announces label) ls.
Proof.
  induction ls as [|l ls IH]; simpl; [reflexivity|]. now rewrite IH.
Qed.

Lemma bind_same {A B : Type} (m m' : M A) (k : A -> M B) (w : World) :
  m w = m' w -> bind m k w = bind m' k w.
Proof.
  intros H. unfold bind. now rewrite H.
Qed.

(** Where no cast raises on the table of the input file, the script runs
    as it does without an error path. *)
Lemma deferred_main_same (w : World) :
  (forall df, xml_files w Cleaning.input_path = Some df ->
              first_raised row_raises df = None) ->
  Deferred.main w = Cleaning.main w.
Proof.
  intros Hnone. destruct (xml_files w Cleaning.input_path) as [df|] eqn:Hfile.
  - specialize (Hnone df eq_refl).
    destruct (deferred_clean_returns df (first_raised_dates df Hnone)
                                     (first_raised_firstn _ _ df Hnone))
      as (ls & Hd & Hc & _).
    etransitivity; [|symmetry].
    + unfold Deferred.main.
      repeat step_prints.
      erewrite bind_returned by apply create_cleaning_session.
      repeat step_prints.
      erewrite bind_returned.
      2:{ unfold load_badges_xml, extend. cbn [xml_files]. rewrite Hfile. reflexivity. }
      erewrite bind_prints by apply Hd.
      erewrite bind_same by (apply deferred_export_runs; exact Hnone).
      reflexivity.
    + unfold Cleaning.main.
      repeat step_prints.
      erewrite bind_returned by apply create_cleaning_session.
      repeat step_prints.
      erewrite bind_returned.
      2:{ unfold load_badges_xml, extend. cbn [xml_files]. rewrite Hfile. reflexivity. }
      erewrite bind_prints by apply Hc.
      reflexivity.
  - etransitivity; [|symmetry].
    + unfold Deferred.main.
      repeat step_prints.
      erewrite bind_returned by apply create_cleaning_session.
      repeat step_prints.
      erewrite bind_raised.
      2:{ unfold load_badges_xml, extend. cbn [xml_files]. rewrite Hfile. reflexivity. }
      reflexivity.
    + unfold Cleaning.main.
      repeat step_prints.
      erewrite bind_returned by apply create_cleaning_session.
      repeat step_prints.
      erewrite bind_raised.
      2:{ unfold load_badges_xml, extend. cbn [xml_files]. rewrite Hfile. reflexivity. }
      reflexivity.
Qed.

(** When a cast raises on a row of the input table, the exception leaves
    [main]: the session was created and is not stopped. *)
Lemma deferred_main_raises (df : list RawRow) :
  first_raised row_raises df <> None ->
  exists e tr,
    (forall w, xml_files w Cleaning.input_path = Some df ->
       exists dirs,
         Deferred.main w = (Raised e, mkWorld (xml_files w) dirs (trace w ++ tr)) /\
         forall p, p <> Cleaning.output_path -> dirs p = parquet_dirs w p) /\
    List.filter is_session_event tr = [SessionCreated Cleaning.app_name] /\
    existsb (printed_line "Export complete") tr = false /\
    (exists r, In r df /\ (date_raises r = Some e \/ row_raises r = Some e)).
Proof.
  intros Hsome.
  destruct (pipeline_raises df Hsome) as (e & ls & Hpipe & Hdone & Hrow & _).
  exists e. eexists. split; [|split; [|split; [|exact Hrow]]].
  - intros w Hfile.
    destruct (Deferred.main w) as [r w2] eqn:Hmain. revert Hmain.
    unfold Deferred.main.
    repeat step_prints.
    erewrite bind_returned by apply create_cleaning_session.
    repeat step_prints.
    erewrite bind_returned.
    2:{ unfold load_badges_xml, extend. cbn [xml_files]. rewrite Hfile. reflexivity. }
    rewrite ?extend_extend.
    match goal with
    | |- bind _ _ ?w1 = _ -> _ => destruct (Hpipe w1) as (dirs & Hrun & Hdirs)
    end.
    unfold clean_then_export in Hrun.
    erewrite bind_through by exact Hrun.
    intros [= <- <-]. exists dirs. split.
    + unfold extend. cbn [xml_files parquet_dirs trace].
      rewrite <- ?app_assoc. reflexivity.
    + intros p Hp. now rewrite (Hdirs p Hp).
  - rewrite ?filter_app, ?filter_session_printed. reflexivity.
  - rewrite !existsb_app, !existsb_printed, Hdone. reflexivity.
Qed.

End DeferredRuns.

(** ** Casts that cannot coerce *)

(** C8, as the code has it.  The Cleaner has no handling of its own for a
    value that cannot be coerced: it applies the engine's cast, and its
    session sets no ANSI option, so what happens is what the engine's cast
    does.  Where no cast raises, the Cleaner and the export run as they do
    without an error path: every row is kept and written, each cast column
    holds the answer of the cast, a NULL where the cast answered NULL; a null
    count on the column counts these rows, and the anomaly scan, which
    matches sentinel strings, skips them.  Where a cast raises on some row,
    nothing catches the exception.  It leaves the Cleaner at the first
    action that evaluates the cast: at the year distribution for a date,
    before a final count is printed; at the display of the sample for a row
    the display reads, after the final count and a count of removed records
    of zero are printed; otherwise the Cleaner returns and the exception
    leaves the export, when it writes.  The export never reports completion,
    and [main] ends with the exception, its session still active. *)
Theorem failed_cast_is_null_or_aborts
        (E : Engine) (P : ErrorPath) (df : list RawRow) (w : World) :
  (first_raised row_raises df = None ->
   (exists ls,
      Deferred.clean_badges_data df w = (Returned df, extend w (map Printed ls)) /\
      Cleaning.clean_badges_data df w
      = (Returned (map clean_row df), extend w (map Printed ls))) /\
   (exists w1,
      clean_then_export df w = (Returned Cleaning.output_path, w1) /\
      parquet_dirs w1 Cleaning.output_path = Some (year_dataset (map clean_row df)) /\
      df_count (dataset_rows (year_dataset (map clean_row df))) = df_count df) /\
   (xml_files w Cleaning.input_path = Some df -> Deferred.main w = Cleaning.main w)) /\
  Forall2 (fun raw clean =>
             id clean = cast_LongType (_Id raw) /\
             user_id clean = cast_LongType (_UserId raw) /\
             date clean = cast_TimestampType (_Date raw) /\
             badge_class clean = cast_IntegerType (_Class raw) /\
             tag_based clean = cast_BooleanType (_TagBased raw)) df (map clean_row df) /\
  (df_count (df_filter (fun c => isNull (option_map VLong (id c))) (map clean_row df))
     = df_count (List.filter (fun r => is_none (cast_LongType (_Id r))) df) /\
   df_count (df_filter (fun c => isNull (option_map VLong (user_id c))) (map clean_row df))
     = df_count (List.filter (fun r => is_none (cast_LongType (_UserId r))) df) /\
   df_count (df_filter (fun c => isNull (option_map VTime (date c))) (map clean_row df))
     = df_count (List.filter (fun r => is_none (cast_TimestampType (_Date r))) df) /\
   df_count (df_filter (fun c => isNull (option_map VLong (badge_class c))) (map clean_row df))
     = df_count (List.filter (fun r => is_none (cast_IntegerType (_Class r))) df) /\
   df_count (df_filter (fun c => isNull (option_map VBool (tag_based c))) (map clean_row df))
     = df_count (List.filter (fun r => is_none (cast_BooleanType (_TagBased r))) df)) /\
  (forall column : CleanRow -> cell,
      Cleaning.validate_string_anomalies
        (List.filter (fun c => negb (is_none (column c))) (map clean_row df)) column
      = Cleaning.validate_string_anomalies (map clean_row df) column) /\
  (first_raised row_raises df <> None ->
   (exists e ls dirs,
      clean_then_export df w
      = (Raised e, mkWorld (xml_files w) dirs (trace w ++ map Printed ls)) /\
      existsb (announces "Export complete") ls = false /\
      (exists r, In r df /\ (date_raises r = Some e \/ row_raises r = Some e)) /\
      ((first_raised date_raises df = Some e /\
        existsb (announces "Final record count") ls = false /\
        exists ls0, ls = (ls0 ++ [Text (newline ++ "Year distribution:")])%list)
       \/
       (first_raised date_raises df = None /\
        first_raised row_raises (firstn (rows_read_by_show 10) df) = Some e /\
        In (Labelled "Final record count: " (df_count df)) ls /\
        In (Labelled "Records removed: " 0) ls /\
        exists ls0, ls = (ls0 ++ [Text (newline ++ "Sample of cleaned data:")])%list)
       \/
       (first_raised row_raises (firstn (rows_read_by_show 10) df) = None /\
        first_raised row_raises df = Some e /\
        In (Labelled "Final record count: " (df_count df)) ls /\
        In (Labelled "Records removed: " 0) ls /\
        exists ls0, ls = (ls0 ++ [Text (newline ++ "Writing Parquet files...")])%list))) /\
   (xml_files w Cleaning.input_path = Some df ->
    exists e w1 tr,
      Deferred.main w = (Raised e, w1) /\
      trace w1 = (trace w ++ tr)%list /\
      List.filter is_session_event tr = [SessionCreated Cleaning.app_name] /\
      session_active w1 = true /\
      existsb (printed_line "Export complete") tr = false /\
      forall p, p <> Cleaning.output_path -> parquet_dirs w1 p = parquet_dirs w p)).
Proof.
  split; [|split; [apply cast_columns|split; [apply cast_null_counts|split]]].
  - intros Hnone.
    destruct (deferred_clean_returns df (first_raised_dates df Hnone)
                                     (first_raised_firstn _ _ df Hnone))
      as (ls & Hd & Hc & _).
    split; [exists ls; split; [apply Hd | apply Hc]|]. split.
    + destruct (export_runs (map clean_row df) Cleaning.output_path) as (le & Hexport).
      eexists. split; [|split].
      * unfold clean_then_export. erewrite bind_prints by apply Hd.
        rewrite deferred_export_runs by exact Hnone. apply Hexport.
      * cbn [parquet_dirs]. apply written_at.
      * rewrite year_dataset_count. apply df_count_map.
    + intros Hfile. apply deferred_main_same. intros df' Hfile'.
      rewrite Hfile in Hfile'. now injection Hfile' as <-.
  - intros column. apply scan_skips_nulls.
  - intros Hsome. split.
    + destruct (pipeline_raises df Hsome) as (e & ls & Hpipe & Hdone & Hrow & Hwhere).
      destruct (Hpipe w) as (dirs & Hrun & _).
      exists e, ls, dirs. auto.
    + intros Hfile.
      destruct (deferred_main_raises df Hsome) as (e & tr & Hmain & Hev & Hdone & _).
      destruct (Hmain w Hfile) as (dirs & Hrun & Hdirs).
      exists e, (mkWorld (xml_files w) dirs (trace w ++ tr)), tr.
      split; [exact Hrun|]. split; [reflexivity|]. split; [exact Hev|].
      split; [|split; [exact Hdone | exact Hdirs]].
      apply (session_after w tr _ _ Hev). reflexivity.
Qed.

(** ** Dates that cannot be read *)

(** C10, as the code has it.  The derived year of a row is the year of its
    date, with no default: it is NULL exactly when the date is NULL, and in
    the file set partitioned by [badge_year] a row without a date is in the
    directory of the NULL key and in no directory of a year.  A raw date that
    the timestamp cast cannot read is such a NULL date only where the
    engine's cast answers NULL.  Where the cast raises, the row reaches no
    cleaned table: the Cleaner raises at its year distribution, before it
    prints a final count, and it returns only when the cast raised on no
    date. *)
Theorem unreadable_date_is_null_or_aborts
        (E : Engine) (P : ErrorPath) (df : list RawRow) (w : World) :
  Forall2 (fun raw clean =>
             date clean = cast_TimestampType (_Date raw) /\
             badge_year clean = option_map year_of_timestamp (date clean) /\
             (badge_year clean = None <-> date clean = None)) df (map clean_row df) /\
  (forall clean, In clean (map clean_row df) ->
     exists rows,
       In (Some (option_map VLong (badge_year clean)), rows) (year_dataset (map clean_row df)) /\
       In clean rows) /\
  (forall dir rows clean,
     In (dir, rows) (year_dataset (map clean_row df)) -> In clean rows ->
     (date clean = None <-> dir = Some None) /\
     (forall y, dir = Some (Some (VLong y)) -> date clean <> None)) /\
  (first_raised row_raises df = None ->
   exists w1,
     clean_then_export df w = (Returned Cleaning.output_path, w1) /\
     parquet_dirs w1 Cleaning.output_path = Some (year_dataset (map clean_row df))) /\
  (forall e, first_raised date_raises df = Some e ->
     exists ls,
       Deferred.clean_badges_data df w = (Raised e, extend w (map Printed ls)) /\
       (exists ls0, ls = (ls0 ++ [Text (newline ++ "Year distribution:")])%list) /\
       existsb (announces "Final record count") ls = false /\
       exists r, In r df /\ date_raises r = Some e) /\
  (forall out w1,
     Deferred.clean_badges_data df w = (Returned out, w1) ->
     out = df /\ Forall (fun r => date_raises r = None) df).
Proof.
  split; [apply year_follows_date|].
  destruct (null_date_directory df) as [Hin Hdir].
  split; [exact Hin|]. split; [exact Hdir|]. split; [|split].
  - intros Hnone.
    destruct (deferred_clean_returns df (first_raised_dates df Hnone)
                                     (first_raised_firstn _ _ df Hnone))
      as (ls & Hd & _).
    destruct (export_runs (map clean_row df) Cleaning.output_path) as (le & Hexport).
    eexists. split.
    + unfold clean_then_export. erewrite bind_prints by apply Hd.
      rewrite deferred_export_runs by exact Hnone. apply Hexport.
    + cbn [parquet_dirs]. apply written_at.
  - intros e Hdate.
    destruct (deferred_clean_date_raises df e Hdate) as (ls & Hrun & _ & Hlast & Hfinal & _).
    exists ls. split; [apply Hrun|]. split; [exact Hlast|]. split; [exact Hfinal|].
    apply first_raised_in. exact Hdate.
  - intros out w1 Hrun.
    destruct (first_raised date_raises df) as [e|] eqn:Hdate.
    { destruct (deferred_clean_date_raises df e Hdate) as (ls & Hraise & _).
      rewrite Hraise in Hrun. discriminate. }
    destruct (first_raised row_raises (firstn (rows_read_by_show 10) df)) as [e|] eqn:Hshow.
    { destruct (deferred_clean_show_raises df e Hdate Hshow) as (ls & Hraise & _).
      rewrite Hraise in Hrun. discriminate. }
    destruct (deferred_clean_returns df Hdate Hshow) as (ls & Hd & _).
    rewrite Hd in Hrun. injection Hrun as <- _.
    split; [reflexivity|]. now apply first_raised_none.
Qed.


(** * Further properties *)

(** ** Groupings *)

Lemma cell_eqb_refl (c : cell) : cell_eqb c c = true.
Proof.
  now apply cell_eqb_eq.
Qed.

Lemma cell_eqb_neq (a b : cell) : cell_eqb a b = false <-> a <> b.
Proof.
  split.
  - intros H Heq. apply cell_eqb_eq in Heq. congruence.
  - intros H. destruct (cell_eqb a b) eqn:Hab; [|reflexivity].
    apply cell_eqb_eq in Hab. contradiction.
Qed.

Lemma occurrences_cons (k a : cell) (cells : list cell) :
  occurrences k (a :: cells) = occurrences k cells + (if cell_eqb k a then 1 else 0).
Proof.
  unfold occurrences, df_count. simpl.
  destruct (cell_eqb k a); simpl; lia.
Qed.

Lemma occurrences_nonneg (k : cell) (cells : list cell) : 0 <= occurrences k cells.
Proof.
  unfold occurrences, df_count. lia.
Qed.

Lemma occurrences_pos (k : cell) (cells : list cell) :
  0 < occurrences k cells <-> In k cells.
Proof.
  induction cells as [|a cells IH].
  - simpl. unfold occurrences, df_count. simpl. split; [lia | intros []].
  - rewrite occurrences_cons. simpl.
    pose proof (occurrences_nonneg k cells).
    destruct (cell_eqb k a) eqn:Hka.
    + apply cell_eqb_eq in Hka. subst a. split; [auto | lia].
    + apply cell_eqb_neq in Hka. rewrite Z.add_0_r, IH.
      split; [auto | intros [->|]; [contradiction | auto]].
Qed.

Lemma group_count_of_count_key (k k0 : cell) (groups : list (cell * Z)) :
  group_count_of k (count_key k0 groups)
  = group_count_of k groups + (if cell_eqb k k0 then 1 else 0).
Proof.
  induction groups as [|[k' n] rest IH]; simpl.
  - destruct (cell_eqb k k0); reflexivity.
  - destruct (cell_eqb k0 k') eqn:H0; simpl.
    + apply cell_eqb_eq in H0. subst k'.
      destruct (cell_eqb k k0); lia.
    + destruct (cell_eqb k k') eqn:Hk; [|exact IH].
      apply cell_eqb_eq in Hk. subst k'.
      apply cell_eqb_neq in H0.
      assert (Hne : cell_eqb k k0 = false) by (apply cell_eqb_neq; congruence).
      rewrite Hne. lia.
Qed.

Lemma keys_count_key (k0 : cell) (groups : list (cell * Z)) (k : cell) :
  In k (map fst (count_key k0 groups)) <-> k = k0 \/ In k (map fst groups).
Proof.
  induction groups as [|[k' n] rest IH]; simpl.
  - intuition congruence.
  - destruct (cell_eqb k0 k') eqn:H0; simpl.
    + apply cell_eqb_eq in H0. subst k'. intuition congruence.
    + rewrite IH. intuition congruence.
Qed.

Lemma NoDup_count_key (k0 : cell) (groups : list (cell * Z)) :
  NoDup (map fst groups) -> NoDup (map fst (count_key k0 groups)).
Proof.
  induction groups as [|[k' n] rest IH]; simpl; intros Hnd.
  - constructor; [intros [] | constructor].
  - inversion Hnd as [|? ? Hnotin Hrest]; subst.
    destruct (cell_eqb k0 k') eqn:H0; simpl.
    + constructor; assumption.
    + constructor; [|auto].
      rewrite keys_count_key. intros [->|Hin]; [|contradiction].
      rewrite cell_eqb_refl in H0. discriminate.
Qed.

Lemma positive_count_key (k0 : cell) (groups : list (cell * Z)) :
  Forall (fun g => 0 < snd g) groups -> Forall (fun g => 0 < snd g) (count_key k0 groups).
Proof.
  induction groups as [|[k' n] rest IH]; simpl; intros Hpos.
  - constructor; [simpl; lia | constructor].
  - inversion Hpos as [|? ? Hn Hrest]; subst. simpl in Hn.
    destruct (cell_eqb k0 k'); constructor; simpl; auto; lia.
Qed.

Lemma total_count_count_key (k0 : cell) (groups : list (cell * Z)) :
  total_count (count_key k0 groups) = total_count groups + 1.
Proof.
  induction groups as [|[k' n] rest IH]; simpl; [reflexivity|].
  destruct (cell_eqb k0 k'); simpl; lia.
Qed.

(** The invariants of the loop of [group_counts]. *)
Lemma fold_count_key (cells : list cell) (acc : list (cell * Z)) :
  NoDup (map fst acc) -> Forall (fun g => 0 < snd g) acc ->
  let groups := fold_left (fun groups k => count_key k groups) cells acc in
  NoDup (map fst groups) /\
  Forall (fun g => 0 < snd g) groups /\
  (forall k, group_count_of k groups = group_count_of k acc + occurrences k cells) /\
  (forall k, In k (map fst groups) <-> In k (map fst acc) \/ In k cells) /\
  total_count groups = total_count acc + df_count cells.
Proof.
  revert acc. induction cells as [|a cells IH]; intros acc Hnd Hpos; simpl.
  - repeat split; auto.
    + intros k. unfold occurrences, df_count. simpl. lia.
    + intuition.
    + unfold df_count. simpl. lia.
  - destruct (IH (count_key a acc) (NoDup_count_key a acc Hnd) (positive_count_key a acc Hpos))
      as (H1 & H2 & H3 & H4 & H5).
    repeat split; auto.
    + intros k. rewrite H3, group_count_of_count_key, occurrences_cons. lia.
    + rewrite H4, keys_count_key. intuition.
    + rewrite H4, keys_count_key. intuition.
    + rewrite H5, total_count_count_key. unfold df_count. cbn [Datatypes.length]. lia.
Qed.

Lemma group_count_of_in (groups : list (cell * Z)) (k : cell) (n : Z) :
  NoDup (map fst groups) ->
  (In (k, n) groups <-> In k (map fst groups) /\ n = group_count_of k groups).
Proof.
  induction groups as [|[k' m] rest IH]; simpl; intros Hnd.
  - intuition.
  - inversion Hnd as [|? ? Hnotin Hrest]; subst.
    destruct (cell_eqb k k') eqn:Hk.
    + apply cell_eqb_eq in Hk. subst k'. split.
      * intros [[= <-]|Hin]; [auto|].
        exfalso. apply Hnotin. apply in_map_iff. now exists (k, n).
      * intros [_ ->]. auto.
    + apply cell_eqb_neq in Hk. rewrite (IH Hrest). split.
      * intros [[= <- <-]|[Hin Hn]]; [contradiction | auto].
      * intros [[<-|Hin] Hn]; [contradiction | auto].
Qed.

(** What [groupBy(column).count()] holds: one group for each distinct cell
    of the column, with the number of its occurrences. *)
Lemma group_counts_spec (cells : list cell) :
  NoDup (map fst (group_counts cells)) /\
  (forall k n, In (k, n) (group_counts cells) <-> In k cells /\ n = occurrences k cells) /\
  (forall k, In k (map fst (group_counts cells)) <-> In k cells) /\
  total_count (group_counts cells) = df_count cells.
Proof.
  destruct (fold_count_key cells [] (NoDup_nil _) (Forall_nil _)) as (H1 & H2 & H3 & H4 & H5).
  fold (group_counts cells) in *.
  assert (Hkeys : forall k, In k (map fst (group_counts cells)) <-> In k cells).
  { intros k. rewrite H4. simpl. intuition. }
  split; [exact H1|]. split; [|split; [exact Hkeys|]].
  - intros k n. rewrite (group_count_of_in _ k n H1), Hkeys, H3. simpl.
    split; intros [Hin ->]; split; auto; lia.
  - rewrite H5. simpl. lia.
Qed.

(** ** Ordering *)

Lemma insert_by_perm {A : Type} (lt : A -> A -> bool) (x : A) (l : list A) :
  Permutation (insert_by lt x l) (x :: l).
Proof.
  induction l as [|y l IH]; simpl; [reflexivity|].
  destruct (lt y x); [|reflexivity].
  rewrite IH. apply perm_swap.
Qed.

(** [orderBy] keeps the rows: it only moves them. *)
Lemma order_by_perm {A : Type} (lt : A -> A -> bool) (l : list A) :
  Permutation (order_by lt l) l.
Proof.
  induction l as [|x l IH]; simpl; [reflexivity|].
  rewrite insert_by_perm. now constructor.
Qed.

Lemma total_count_perm (g1 g2 : list (cell * Z)) :
  Permutation g1 g2 -> total_count g1 = total_count g2.
Proof.
  induction 1 as [|[k n] ? ? ? IH|[k n] [k' n'] ?|]; simpl; lia.
Qed.

Lemma filter_perm {A : Type} (f : A -> bool) (l1 l2 : list A) :
  Permutation l1 l2 -> Permutation (List.filter f l1) (List.filter f l2).
Proof.
  induction 1 as [|x ? ? ? IH|x y ?|]; simpl.
  - reflexivity.
  - destruct (f x); [now constructor | assumption].
  - destruct (f x), (f y); try reflexivity. apply perm_swap.
  - etransitivity; eassumption.
Qed.

Lemma long_cell_irrefl (c : cell) : long_cell c -> cell_ltb c c = false.
Proof.
  destruct c as [[]|]; simpl; try contradiction; intros _; [apply Z.ltb_irrefl | reflexivity].
Qed.

Lemma long_cell_trans (a b c : cell) :
  long_cell a -> long_cell b -> long_cell c ->
  cell_ltb a b = true -> cell_ltb b c = true -> cell_ltb a c = true.
Proof.
  destruct a as [[]|], b as [[]|], c as [[]|]; simpl; try contradiction; try discriminate;
    intros _ _ _ H1 H2; auto.
  apply Z.ltb_lt in H1, H2. apply Z.ltb_lt. lia.
Qed.

Lemma long_cell_total (a b : cell) :
  long_cell a -> long_cell b -> a <> b -> cell_ltb a b = true \/ cell_ltb b a = true.
Proof.
  destruct a as [[x| | |]|], b as [[y| | |]|]; simpl; try contradiction; intros _ _ Hne; auto.
  destruct (Z.ltb_spec x y); [auto|]. right. apply Z.ltb_lt.
  assert (x <> y) by congruence. lia.
Qed.

Lemma insert_by_key_sorted (x : cell * Z) (l : list (cell * Z)) :
  long_cell (fst x) -> Forall (fun y => long_cell (fst y)) l ->
  Forall (fun y => fst y <> fst x) l ->
  StronglySorted key_before l -> StronglySorted key_before (insert_by by_key x l).
Proof.
  intros Hx. induction l as [|y l IH]; simpl; intros Hlong Hne Hsorted.
  - constructor; constructor.
  - inversion Hlong as [|? ? Hy Hlong']; subst.
    inversion Hne as [|? ? Hyx Hne']; subst.
    inversion Hsorted as [|? ? Hsorted' Hall]; subst.
    destruct (by_key y x) eqn:Hlt.
    + constructor; [now apply IH|].
      apply Forall_forall. intros z Hz.
      apply (Permutation_in _ (insert_by_perm by_key x l)) in Hz.
      destruct Hz as [<-|Hz]; [exact Hlt|].
      rewrite Forall_forall in Hall. now apply Hall.
    + assert (Hxy : by_key x y = true).
      { destruct (long_cell_total (fst x) (fst y) Hx Hy) as [H|H]; auto.
        unfold by_key in Hlt. congruence. }
      constructor; [now constructor|].
      constructor; [exact Hxy|].
      apply Forall_forall. intros z Hz.
      rewrite Forall_forall in Hall, Hlong'.
      unfold key_before, by_key in *.
      eapply (long_cell_trans _ (fst y)); eauto.
Qed.

(** [orderBy] on the key of a grouping of an integer column: the groups
    come out in strictly ascending key order, NULL first. *)
Lemma order_by_key_sorted (l : list (cell * Z)) :
  Forall (fun y => long_cell (fst y)) l -> NoDup (map fst l) ->
  StronglySorted key_before (order_by by_key l).
Proof.
  induction l as [|x l IH]; simpl; intros Hlong Hnd; [constructor|].
  inversion Hlong as [|? ? Hx Hlong']; subst.
  inversion Hnd as [|? ? Hnotin Hnd']; subst.
  apply insert_by_key_sorted; auto.
  - apply Forall_forall. intros y Hy.
    apply (Permutation_in _ (order_by_perm by_key l)) in Hy.
    rewrite Forall_forall in Hlong'. auto.
  - apply Forall_forall. intros y Hy Heq.
    apply (Permutation_in _ (order_by_perm by_key l)) in Hy.
    apply Hnotin. rewrite <- Heq. now apply in_map.
Qed.

(** Two groupings in strictly ascending key order with the same groups
    are the same list. *)
Lemma sorted_groups_unique (l1 l2 : list (cell * Z)) :
  Forall (fun y => long_cell (fst y)) l1 ->
  StronglySorted key_before l1 -> StronglySorted key_before l2 ->
  (forall g, In g l1 <-> In g l2) -> l1 = l2.
Proof.
  revert l2. induction l1 as [|a l1 IH]; intros l2 Hlong H1 H2 Hsame.
  - destruct l2 as [|b l2]; [reflexivity|].
    exfalso. apply (Hsame b). now left.
  - destruct l2 as [|b l2]; [exfalso; apply (Hsame a); now left|].
    inversion Hlong as [|? ? Ha Hlong']; subst.
    inversion H1 as [|? ? H1' Hall1]; subst.
    inversion H2 as [|? ? H2' Hall2]; subst.
    rewrite Forall_forall in Hall1, Hall2, Hlong'.
    assert (Hirr : forall g, In g (a :: l1) -> key_before g g -> False).
    { intros g Hg Hgg. unfold key_before, by_key in Hgg.
      rewrite long_cell_irrefl in Hgg; [discriminate|].
      destruct Hg as [<-|Hg]; auto. }
    assert (Hab : a = b).
    { destruct (proj1 (Hsame a) (or_introl eq_refl)) as [Heq|Hin]; [auto|].
      destruct (proj2 (Hsame b) (or_introl eq_refl)) as [Heq|Hin']; [auto|].
      exfalso. apply (Hirr a (or_introl eq_refl)).
      unfold key_before, by_key in *.
      apply (long_cell_trans _ (fst b)); auto. }
    subst b. f_equal. apply IH; auto.
    + apply Forall_forall. auto.
    + intros g. split; intros Hg.
      * destruct (proj1 (Hsame g) (or_intror Hg)) as [<-|Hin]; [|exact Hin].
        exfalso. apply (Hirr a (or_introl eq_refl)). auto.
      * destruct (proj2 (Hsame g) (or_intror Hg)) as [<-|Hin]; [|exact Hin].
        exfalso. apply (Hirr a (or_introl eq_refl)). auto.
Qed.

Lemma occurrences_perm (k : cell) (c1 c2 : list cell) :
  Permutation c1 c2 -> occurrences k c1 = occurrences k c2.
Proof.
  intros H. unfold occurrences, df_count.
  now rewrite (Permutation_length (filter_perm (cell_eqb k) _ _ H)).
Qed.

(** The ordered grouping of an integer column does not depend on the order
    of the rows. *)
Lemma ordered_groups_perm (c1 c2 : list cell) :
  Forall long_cell c1 -> Permutation c1 c2 ->
  order_by by_key (group_counts c1) = order_by by_key (group_counts c2).
Proof.
  intros Hlong Hperm.
  destruct (group_counts_spec c1) as (Hnd1 & Hin1 & Hkeys1 & _).
  destruct (group_counts_spec c2) as (Hnd2 & Hin2 & Hkeys2 & _).
  assert (Hlong2 : Forall long_cell c2).
  { rewrite Forall_forall in *. intros c Hc. apply Hlong.
    apply (Permutation_in _ (Permutation_sym Hperm)), Hc. }
  assert (Hg1 : Forall (fun y => long_cell (fst y)) (group_counts c1)).
  { rewrite Forall_forall in *. intros g Hg. apply Hlong, Hkeys1. now apply in_map. }
  assert (Hg2 : Forall (fun y => long_cell (fst y)) (group_counts c2)).
  { rewrite Forall_forall in *. intros g Hg. apply Hlong2, Hkeys2. now apply in_map. }
  apply sorted_groups_unique.
  - rewrite Forall_forall in *. intros g Hg. apply Hg1.
    apply (Permutation_in _ (order_by_perm by_key _)), Hg.
  - now apply order_by_key_sorted.
  - now apply order_by_key_sorted.
  - intros [k n]. split; intros Hg.
    + apply (Permutation_in _ (order_by_perm by_key _)) in Hg.
      apply (Permutation_in _ (Permutation_sym (order_by_perm by_key _))).
      apply Hin1 in Hg. apply Hin2. destruct Hg as [Hk ->]. split.
      * apply (Permutation_in _ Hperm), Hk.
      * apply occurrences_perm, Hperm.
    + apply (Permutation_in _ (order_by_perm by_key _)) in Hg.
      apply (Permutation_in _ (Permutation_sym (order_by_perm by_key _))).
      apply Hin2 in Hg. apply Hin1. destruct Hg as [Hk ->]. split.
      * apply (Permutation_in _ (Permutation_sym Hperm)), Hk.
      * symmetry. apply occurrences_perm, Hperm.
Qed.

(** ** Partitioned export, read back *)

Lemma put_perm (k : cell) (r : CleanRow) (parts : list (cell * list CleanRow)) :
  Permutation (List.concat (map snd (put k r parts))) (r :: List.concat (map snd parts)).
Proof.
  induction parts as [|[k' rows] rest IH]; simpl; [reflexivity|].
  destruct (cell_eqb k k'); simpl; [reflexivity|].
  rewrite IH. symmetry. apply Permutation_middle.
Qed.

Lemma partition_rows_perm (key : CleanRow -> cell) (df : list CleanRow) :
  Permutation (List.concat (map snd (partition_rows key df))) df.
Proof.
  induction df as [|r df IH]; simpl; [reflexivity|].
  rewrite put_perm. now constructor.
Qed.

Lemma year_dataset_perm (df : list CleanRow) :
  Permutation (dataset_rows (year_dataset df)) df.
Proof.
  unfold year_dataset. rewrite dataset_rows_layout. apply partition_rows_perm.
Qed.

Lemma keys_put (k : cell) (r : CleanRow) (parts : list (cell * list CleanRow)) (k' : cell) :
  In k' (map fst (put k r parts)) <-> k' = k \/ In k' (map fst parts).
Proof.
  induction parts as [|[k0 rows] rest IH]; simpl.
  - intuition congruence.
  - destruct (cell_eqb k k0) eqn:Hk; simpl.
    + apply cell_eqb_eq in Hk. subst k0. intuition congruence.
    + rewrite IH. intuition congruence.
Qed.

Lemma NoDup_put (k : cell) (r : CleanRow) (parts : list (cell * list CleanRow)) :
  NoDup (map fst parts) -> NoDup (map fst (put k r parts)).
Proof.
  induction parts as [|[k0 rows] rest IH]; simpl; intros Hnd.
  - constructor; [intros [] | constructor].
  - inversion Hnd as [|? ? Hnotin Hrest]; subst.
    destruct (cell_eqb k k0) eqn:Hk; simpl.
    + constructor; assumption.
    + constructor; [|auto].
      rewrite keys_put. intros [->|Hin]; [|contradiction].
      rewrite cell_eqb_refl in Hk. discriminate.
Qed.

Lemma nonempty_put (k : cell) (r : CleanRow) (parts : list (cell * list CleanRow)) :
  Forall (fun p => snd p <> []) parts -> Forall (fun p => snd p <> []) (put k r parts).
Proof.
  induction parts as [|[k0 rows] rest IH]; simpl; intros Hne.
  - constructor; [discriminate | constructor].
  - inversion Hne; subst.
    destruct (cell_eqb k k0); constructor; simpl; auto. discriminate.
Qed.

Lemma partition_rows_dirs (key : CleanRow -> cell) (df : list CleanRow) :
  NoDup (map fst (partition_rows key df)) /\
  Forall (fun p => snd p <> []) (partition_rows key df).
Proof.
  induction df as [|r df [IH1 IH2]]; simpl.
  - split; constructor.
  - split; [now apply NoDup_put | now apply nonempty_put].
Qed.

Lemma NoDup_keys_functional {A B : Type} (l : list (A * B)) (k : A) (a b : B) :
  NoDup (map fst l) -> In (k, a) l -> In (k, b) l -> a = b.
Proof.
  induction l as [|[k0 c] l IH]; simpl; intros Hnd Ha Hb; [contradiction|].
  inversion Hnd as [|? ? Hnotin Hrest]; subst.
  destruct Ha as [Ha|Ha], Hb as [Hb|Hb].
  - congruence.
  - inversion Ha; subst. exfalso. apply Hnotin. apply in_map_iff. now exists (k, b).
  - inversion Hb; subst. exfalso. apply Hnotin. apply in_map_iff. now exists (k, a).
  - now apply IH.
Qed.

Lemma occurrences_map {A : Type} (f : A -> cell) (k : cell) (l : list A) :
  occurrences k (map f l) = df_count (List.filter (fun a => cell_eqb k (f a)) l).
Proof.
  unfold occurrences, df_count. f_equal.
  induction l as [|a l IH]; simpl; [reflexivity|].
  destruct (cell_eqb k (f a)); simpl; now rewrite IH.
Qed.

Lemma year_keys_long (df : list CleanRow) : Forall long_cell (map year_key df).
Proof.
  apply Forall_forall. intros c Hc. apply in_map_iff in Hc as (r & <- & _).
  unfold year_key. now destruct (badge_year r).
Qed.

Lemma year_counts_perm (t1 t2 : list CleanRow) :
  Permutation t1 t2 -> year_counts t1 = year_counts t2.
Proof.
  intros H. unfold year_counts. apply ordered_groups_perm.
  - apply (year_keys_long t1).
  - now apply Permutation_map.
Qed.

Section ExportRuns.
Context {E : Engine}.

Lemma clean_badges_data_year_line (df : list RawRow) :
  exists ls,
    prints (Cleaning.clean_badges_data df) (map clean_row df) ls /\
    In (show ["badge_year"; "count"] count_row 20 (year_counts (map clean_row df))) ls.
Proof.
  eexists. split.
  - unfold Cleaning.clean_badges_data. rewrite map_map.
    change (fun x => Cleaning.with_badge_year (Cleaning.select_row x)) with clean_row.
    run_prints.
  - find_event.
Qed.

Lemma read_back_by_year (spark : SparkSession) (df : list CleanRow) (path : string)
      (w : World) :
  df <> [] -> parquet_dirs w path = Some (year_dataset df) ->
  read_parquet spark path w = (Returned (dataset_rows (year_dataset df)), w).
Proof.
  intros Hne Hdir. unfold read_parquet. rewrite Hdir.
  destruct df as [|r df]; [contradiction|].
  pose proof (year_dataset_nonempty r df) as Hds.
  destruct (year_dataset (r :: df)); [contradiction | reflexivity].
Qed.

End ExportRuns.

(** X1.  A table with rows, exported with the partition column
    [badge_year] and read back from the same path, comes back with the same
    rows, in another order at most: no row is lost, added or changed, and
    the Validator returns the row count of the table. *)
Theorem export_read_back_permutation
        (E : Engine) (spark : SparkSession) (df : list CleanRow) (path : string) (w : World) :
  df <> [] ->
  exists w1 w2 rows,
    Cleaning.export_to_parquet df path (Some "badge_year") w = (Returned path, w1) /\
    read_parquet spark path w1 = (Returned rows, w1) /\
    Permutation rows df /\
    Cleaning.validate_parquet_output spark path w1 = (Returned (df_count df), w2).
Proof.
  intros Hne.
  destruct (export_runs df path) as (le & Hexport).
  assert (Hds : year_dataset df <> []).
  { destruct df as [|r df]; [contradiction | apply year_dataset_nonempty]. }
  destruct (validate_runs spark path (year_dataset df) Hds) as (lv & Hvalidate & _).
  eexists _, _, _. split; [apply Hexport|].
  split; [apply read_back_by_year; [exact Hne | apply written_at]|].
  split; [apply year_dataset_perm|].
  rewrite <- (year_dataset_count df). apply Hvalidate. apply written_at.
Qed.

(** X2.  The partition statistics the Validator prints after the export
    are the year distribution the Cleaner printed before it: grouping the
    rows read back by [badge_year] gives the same counts, in the same order,
    as grouping the cleaned table. *)
Theorem partition_statistics_are_year_distribution
        (E : Engine) (spark : SparkSession) (df : list RawRow) (path : string) (w : World) :
  df <> [] ->
  year_counts (dataset_rows (year_dataset (map clean_row df)))
    = year_counts (map clean_row df) /\
  (exists lc,
      Cleaning.clean_badges_data df w
        = (Returned (map clean_row df), extend w (map Printed lc)) /\
      In (show ["badge_year"; "count"] count_row 20 (year_counts (map clean_row df))) lc) /\
  (exists w1 lv n,
      Cleaning.export_to_parquet (map clean_row df) path (Some "badge_year") w
        = (Returned path, w1) /\
      Cleaning.validate_parquet_output spark path w1
        = (Returned n, extend w1 (map Printed lv)) /\
      In (show ["badge_year"; "count"] count_row 20 (year_counts (map clean_row df))) lv).
Proof.
  intros Hne.
  assert (Heq : year_counts (dataset_rows (year_dataset (map clean_row df)))
                = year_counts (map clean_row df))
    by apply year_counts_perm, year_dataset_perm.
  split; [exact Heq|]. split.
  - destruct (clean_badges_data_year_line df) as (lc & Hrun & Hline).
    exists lc. split; [apply Hrun | exact Hline].
  - destruct (export_runs (map clean_row df) path) as (le & Hexport).
    assert (Hds : year_dataset (map clean_row df) <> []).
    { destruct df as [|r df]; [contradiction | apply year_dataset_nonempty]. }
    destruct (validate_runs spark path _ Hds) as (lv & Hvalidate & _ & Hline & _).
    rewrite Heq in Hline.
    eexists _, lv, _. split; [apply Hexport|].
    split; [apply Hvalidate; apply written_at | exact Hline].
Qed.

(** X3.  The year distribution of a cleaned table has one group for each
    [badge_year] value that occurs, in strictly ascending order with the
    NULL group first; the count of a group is the number of rows with that
    year, and the counts add up to the row count of the table. *)
Theorem year_distribution_accounts_for_rows (t : list CleanRow) :
  StronglySorted key_before (year_counts t) /\
  (forall k n,
      In (k, n) (year_counts t) <->
      (exists r, In r t /\ year_key r = k) /\
      n = df_count (List.filter (fun r => cell_eqb k (year_key r)) t)) /\
  total_count (year_counts t) = df_count t.
Proof.
  destruct (group_counts_spec (map year_key t)) as (Hnd & Hin & Hkeys & Htotal).
  split; [|split].
  - apply order_by_key_sorted; [|exact Hnd].
    apply Forall_forall. intros g Hg. pose proof (year_keys_long t) as Hlong.
    rewrite Forall_forall in Hlong. apply Hlong, Hkeys. now apply in_map.
  - intros k n. unfold year_counts. fold year_key.
    change (fun r : CleanRow => option_map VLong (badge_year r)) with year_key.
    rewrite <- (occurrences_map year_key k t). split.
    + intros Hg. apply (Permutation_in _ (order_by_perm by_key _)) in Hg.
      apply Hin in Hg. destruct Hg as [Hk ->]. split; [|reflexivity].
      apply in_map_iff in Hk as (r & <- & Hr). now exists r.
    + intros [(r & Hr & <-) ->].
      apply (Permutation_in _ (Permutation_sym (order_by_perm by_key _))).
      apply Hin. split; [now apply in_map | reflexivity].
  - unfold year_counts.
    change (fun r : CleanRow => option_map VLong (badge_year r)) with year_key.
    rewrite (total_count_perm _ _ (order_by_perm by_key _)).
    rewrite df_count_map in Htotal. exact Htotal.
Qed.

Lemma NoDup_map_Some {A : Type} (l : list A) : NoDup l -> NoDup (map Some l).
Proof.
  induction 1 as [|a l Hnotin Hnd IH]; simpl; constructor; [|exact IH].
  rewrite in_map_iff. intros (b & [= ->] & Hb). contradiction.
Qed.

(** X4.  The export partitioned by [badge_year] writes one directory for
    each [badge_year] value of the table, NULL included, and no other: the
    directory keys are distinct, no directory is empty, and a directory
    holds exactly the rows of the table with its key. *)
Theorem one_directory_per_year (E : Engine) (t : list CleanRow) (path : string) (w : World) :
  (exists w1,
      Cleaning.export_to_parquet t path (Some "badge_year") w = (Returned path, w1) /\
      parquet_dirs w1 path = Some (year_dataset t)) /\
  NoDup (map fst (year_dataset t)) /\
  (forall dir, In dir (map fst (year_dataset t)) <->
               exists r, In r t /\ dir = Some (year_key r)) /\
  (forall dir rows,
      In (dir, rows) (year_dataset t) ->
      rows <> [] /\
      forall r, In r rows <-> In r t /\ dir = Some (year_key r)).
Proof.
  destruct (partition_rows_dirs year_key t) as [Hnd Hne].
  assert (Hin : forall dir rows,
             In (dir, rows) (year_dataset t) <->
             exists k, dir = Some k /\ In (k, rows) (partition_rows year_key t)).
  { intros dir rows. unfold year_dataset. rewrite in_map_iff.
    change (fun r : CleanRow => option_map VLong (badge_year r)) with year_key.
    split.
    - intros ([k rows'] & [= <- <-] & Hp). now exists k.
    - intros (k & -> & Hp). now exists (k, rows). }
  split; [|split; [|split]].
  - destruct (export_runs t path) as (le & Hexport).
    eexists. split; [apply Hexport | apply written_at].
  - unfold year_dataset. rewrite map_map. simpl.
    change (fun r : CleanRow => option_map VLong (badge_year r)) with year_key.
    rewrite <- (map_map fst Some). apply NoDup_map_Some, Hnd.
  - intros dir. rewrite in_map_iff. split.
    + intros ([dir' rows] & <- & Hd). apply Hin in Hd as (k & -> & Hp). simpl.
      rewrite Forall_forall in Hne. specialize (Hne _ Hp). simpl in Hne.
      destruct rows as [|r rows]; [contradiction|].
      destruct (partition_rows_key year_key t k (r :: rows) r Hp (or_introl eq_refl))
        as [-> Hr].
      now exists r.
    + intros (r & Hr & ->).
      destruct (partition_rows_complete year_key t r Hr) as (rows & Hp & _).
      exists (Some (year_key r), rows). split; [reflexivity|].
      apply Hin. now exists (year_key r).
  - intros dir rows Hd. apply Hin in Hd as (k & -> & Hp).
    rewrite Forall_forall in Hne. split; [apply (Hne _ Hp)|].
    intros r. split.
    + intros Hr. destruct (partition_rows_key year_key t k rows r Hp Hr) as [-> Ht].
      auto.
    + intros [Hr [= ->]].
      destruct (partition_rows_complete year_key t r Hr) as (rows' & Hp' & Hr').
      now rewrite (NoDup_keys_functional _ _ _ _ Hnd Hp Hp').
Qed.

(** ** Export without a partition column, and failing paths *)

Lemma parquet_overwrite_flat (df : list CleanRow) (options : list (string * string))
      (path : string) (w : World) :
  parquet (mkWriter df Overwrite None options) path w
  = (Returned tt, mkWorld (xml_files w) (written path [(None, df)] (parquet_dirs w)) (trace w)).
Proof.
  reflexivity.
Qed.

Section FlatExport.
Context {E : Engine}.

Lemma export_flat_runs (df : list CleanRow) (path : string) (partition_by : option string) :
  Cleaning.truthy partition_by = false ->
  exists ls, forall w,
    Cleaning.export_to_parquet df path partition_by w
    = (Returned path,
       mkWorld (xml_files w) (written path [(None, df)] (parquet_dirs w))
               (trace w ++ map Printed ls)).
Proof.
  intros Hfalsy.
  assert (Hwriter : (match partition_by with
                     | Some c =>
                         if Cleaning.truthy partition_by
                         then (print (LabelledText "Partitioning by: " c) ;;
                               ret (partitionBy c (mode Overwrite (write df))))
                         else ret (mode Overwrite (write df))
                     | None => ret (mode Overwrite (write df))
                     end) = ret (mode Overwrite (write df))).
  { destruct partition_by as [c|]; [now rewrite Hfalsy | reflexivity]. }
  eexists. intros w. unfold Cleaning.export_to_parquet.
  do 2 step_prints. cbv zeta. rewrite Hwriter.
  do 2 step_prints.
  erewrite bind_returned by apply parquet_overwrite_flat.
  step_prints. unfold ret.
  finish_run.
Qed.

Lemma validate_missing_path (spark : SparkSession) (path : string) (w : World) :
  parquet_dirs w path = None ->
  Cleaning.validate_parquet_output spark path w
  = (Raised (AnalysisException ("Path does not exist: " ++ path)),
     extend w (map Printed [ Text (newline ++ rule); Text (" " ++ "STEP 6: VALIDATION");
                             Text rule; LabelledText "Reading back from: " path ])).
Proof.
  intros Hdir. unfold Cleaning.validate_parquet_output.
  do 2 step_prints.
  erewrite bind_raised.
  2:{ unfold read_parquet, extend, raise. cbn [parquet_dirs]. rewrite Hdir. reflexivity. }
  finish_run.
Qed.

Lemma validate_empty_directory (spark : SparkSession) (path : string) (w : World) :
  parquet_dirs w path = Some [] ->
  exists e ls, Cleaning.validate_parquet_output spark path w
               = (Raised e, extend w (map Printed ls)).
Proof.
  intros Hdir. unfold Cleaning.validate_parquet_output.
  eexists _, _. do 2 step_prints.
  erewrite bind_raised.
  2:{ unfold read_parquet, extend, raise. cbn [parquet_dirs]. rewrite Hdir. reflexivity. }
  finish_run.
Qed.

End FlatExport.

(** X5.  Without a partition column, that is with [partition_by] absent or
    the empty string, the export writes one flat file set with no partition
    directory, and reading the path back returns the rows of the exported
    table; this holds for the empty table as well, for which the Validator
    returns the count 0. *)
Theorem flat_export_round_trip
        (E : Engine) (spark : SparkSession) (df : list CleanRow) (path : string)
        (partition_by : option string) (w : World) :
  Cleaning.truthy partition_by = false ->
  exists w1 w2 rows,
    Cleaning.export_to_parquet df path partition_by w = (Returned path, w1) /\
    parquet_dirs w1 path = Some [(None, df)] /\
    read_parquet spark path w1 = (Returned rows, w1) /\
    Permutation rows df /\
    Cleaning.validate_parquet_output spark path w1 = (Returned (df_count df), w2).
Proof.
  intros Hfalsy.
  destruct (export_flat_runs df path partition_by Hfalsy) as (le & Hexport).
  assert (Hrows : dataset_rows [(None, df)] = df).
  { unfold dataset_rows. simpl. apply app_nil_r. }
  destruct (validate_runs spark path [(None, df)]) as (lv & Hvalidate & _);
    [discriminate|].
  eexists _, _, df. split; [apply Hexport|]. cbn [parquet_dirs].
  split; [apply written_at|]. split; [|split; [reflexivity|]].
  - unfold read_parquet. cbn [parquet_dirs]. rewrite written_at. unfold ret.
    now rewrite Hrows.
  - rewrite Hrows in Hvalidate. apply Hvalidate. apply written_at.
Qed.


(** X7.  The Validator only reads: whatever is at the path, it leaves
    every file and every directory as it found them.  When nothing is at the
    path it raises after its header and prints no count. *)
Theorem validator_only_reads
        (E : Engine) (spark : SparkSession) (path : string) (w : World) :
  xml_files (snd (Cleaning.validate_parquet_output spark path w)) = xml_files w /\
  parquet_dirs (snd (Cleaning.validate_parquet_output spark path w)) = parquet_dirs w /\
  (parquet_dirs w path = None ->
   Cleaning.validate_parquet_output spark path w
   = (Raised (AnalysisException ("Path does not exist: " ++ path)),
      extend w (map Printed [ Text (newline ++ rule); Text (" " ++ "STEP 6: VALIDATION");
                              Text rule; LabelledText "Reading back from: " path ]))).
Proof.
  assert (Hsame : exists r tr, Cleaning.validate_parquet_output spark path w = (r, extend w tr)).
  { destruct (parquet_dirs w path) as [[|p ds]|] eqn:Hdir.
    - destruct (validate_empty_directory spark path w Hdir) as (e & ls & ->). eauto.
    - destruct (validate_runs spark path (p :: ds)) as (ls & Hrun & _); [discriminate|].
      rewrite (Hrun w Hdir). eauto.
    - rewrite (validate_missing_path spark path w Hdir). eauto. }
  destruct Hsame as (r & tr & Hrun).
  split; [now rewrite Hrun|]. split; [now rewrite Hrun|].
  apply validate_missing_path.
Qed.


(** ** The profiler's figures *)

Lemma filter_length_le_impl {A : Type} (f g : A -> bool) (l : list A) :
  (forall a, f a = true -> g a = true) ->
  (List.length (List.filter f l) <= List.length (List.filter g l))%nat.
Proof.
  intros Himpl. induction l as [|a l IH]; simpl; [lia|].
  destruct (f a) eqn:Hf.
  - rewrite (Himpl a Hf). simpl. lia.
  - destruct (g a); simpl; lia.
Qed.

Lemma filter_length_disjoint {A : Type} (f g : A -> bool) (l : list A) :
  (forall a, f a = true -> g a = false) ->
  (List.length (List.filter f l) + List.length (List.filter g l) <= List.length l)%nat.
Proof.
  intros Hdis. induction l as [|a l IH]; simpl; [lia|].
  destruct (f a) eqn:Hf.
  - rewrite (Hdis a Hf). simpl. lia.
  - destruct (g a); simpl; lia.
Qed.

Lemma df_count_zero {A : Type} (l : list A) : df_count l = 0 <-> l = [].
Proof.
  unfold df_count. destruct l; simpl; split; intros H; try reflexivity; try discriminate; lia.
Qed.

Lemma NoDup_occurrences (cells : list cell) :
  NoDup cells <-> forall k, occurrences k cells <= 1.
Proof.
  induction cells as [|a cells IH].
  - split; [|constructor]. intros _ k. unfold occurrences, df_count. simpl. lia.
  - split.
    + intros Hnd k. inversion Hnd as [|? ? Hnotin Hnd']; subst.
      rewrite occurrences_cons. pose proof (proj1 IH Hnd' k) as Hk.
      destruct (cell_eqb k a) eqn:Hka; [|lia].
      apply cell_eqb_eq in Hka. subst a.
      pose proof (occurrences_nonneg k cells) as H0.
      destruct (Z.eq_dec (occurrences k cells) 0) as [->|Hne]; [lia|].
      exfalso. apply Hnotin. apply occurrences_pos. lia.
    + intros Hocc. constructor.
      * intros Hin. apply occurrences_pos in Hin.
        specialize (Hocc a). rewrite occurrences_cons, cell_eqb_refl in Hocc. lia.
      * apply IH. intros k. specialize (Hocc k). rewrite occurrences_cons in Hocc.
        destruct (cell_eqb k a); lia.
Qed.

Lemma total_count_filter_count_key (p : cell -> bool) (k : cell) (groups : list (cell * Z)) :
  total_count (List.filter (fun g => p (fst g)) (count_key k groups))
  = total_count (List.filter (fun g => p (fst g)) groups) + (if p k then 1 else 0).
Proof.
  induction groups as [|[k' n] rest IH]; simpl.
  - destruct (p k); simpl; lia.
  - destruct (cell_eqb k k') eqn:Hk; simpl.
    + apply cell_eqb_eq in Hk. subst k'. destruct (p k); simpl; lia.
    + destruct (p k'); simpl; rewrite IH; lia.
Qed.

Lemma total_count_filter_fold (p : cell -> bool) (cells : list cell) (acc : list (cell * Z)) :
  total_count (List.filter (fun g => p (fst g))
                           (fold_left (fun groups k => count_key k groups) cells acc))
  = total_count (List.filter (fun g => p (fst g)) acc) + df_count (List.filter p cells).
Proof.
  revert acc. induction cells as [|a cells IH]; intros acc; simpl.
  - unfold df_count. simpl. lia.
  - rewrite IH, total_count_filter_count_key. unfold df_count.
    destruct (p a); cbn [Datatypes.length]; lia.
Qed.

(** The groups of a grouping whose key satisfies a test account for the
    cells that satisfy it. *)
Lemma total_count_filter_groups (p : cell -> bool) (cells : list cell) :
  total_count (List.filter (fun g => p (fst g)) (group_counts cells))
  = df_count (List.filter p cells).
Proof.
  unfold group_counts. rewrite total_count_filter_fold. simpl. lia.
Qed.

Lemma df_count_filter_map {A B : Type} (f : A -> B) (p : B -> bool) (l : list A) :
  df_count (List.filter p (map f l)) = df_count (List.filter (fun a => p (f a)) l).
Proof.
  unfold df_count. f_equal.
  induction l as [|a l IH]; simpl; [reflexivity|].
  destruct (p (f a)); simpl; now rewrite IH.
Qed.

Lemma df_min_long (cells : list cell) :
  Forall long_cell cells ->
  match df_min cells with
  | None => Forall (eq None) cells
  | Some v =>
      exists lo, v = VLong lo /\ In (Some (VLong lo)) cells /\
                 forall z, In (Some (VLong z)) cells -> lo <= z
  end.
Proof.
  induction 1 as [|c cells Hc Hlong IH]; simpl; [constructor|].
  fold (df_min cells). destruct c as [[x| | |]|]; simpl in Hc; try contradiction.
  - destruct (df_min cells) as [v|]; simpl.
    + destruct IH as (lo & -> & Hin & Hle). simpl.
      destruct (Z.ltb_spec lo x).
      * exists lo. split; [reflexivity|]. split; [auto|].
        intros z [[= <-]|Hz]; [lia | auto].
      * exists x. split; [reflexivity|]. split; [auto|].
        intros z [[= <-]|Hz]; [lia | specialize (Hle z Hz); lia].
    + exists x. split; [reflexivity|]. split; [auto|].
      intros z [[= <-]|Hz]; [lia|].
      rewrite Forall_forall in IH. specialize (IH _ Hz). discriminate.
  - destruct (df_min cells) as [v|]; simpl.
    + destruct IH as (lo & -> & Hin & Hle). exists lo. split; [reflexivity|].
      split; [auto|]. intros z [[=]|Hz]. auto.
    + constructor; auto.
Qed.

Lemma df_max_long (cells : list cell) :
  Forall long_cell cells ->
  match df_max cells with
  | None => Forall (eq None) cells
  | Some v =>
      exists hi, v = VLong hi /\ In (Some (VLong hi)) cells /\
                 forall z, In (Some (VLong z)) cells -> z <= hi
  end.
Proof.
  induction 1 as [|c cells Hc Hlong IH]; simpl; [constructor|].
  fold (df_max cells). destruct c as [[x| | |]|]; simpl in Hc; try contradiction.
  - destruct (df_max cells) as [v|]; simpl.
    + destruct IH as (hi & -> & Hin & Hle). simpl.
      destruct (Z.ltb_spec x hi).
      * exists hi. split; [reflexivity|]. split; [auto|].
        intros z [[= <-]|Hz]; [lia | auto].
      * exists x. split; [reflexivity|]. split; [auto|].
        intros z [[= <-]|Hz]; [lia | specialize (Hle z Hz); lia].
    + exists x. split; [reflexivity|]. split; [auto|].
      intros z [[= <-]|Hz]; [lia|].
      rewrite Forall_forall in IH. specialize (IH _ Hz). discriminate.
  - destruct (df_max cells) as [v|]; simpl.
    + destruct IH as (hi & -> & Hin & Hle). exists hi. split; [reflexivity|].
      split; [auto|]. intros z [[=]|Hz]. auto.
    + constructor; auto.
Qed.

Ltac run_report :=
  repeat (cbv beta zeta;
          lazymatch goal with
          | |- prints (bind _ _) _ _ => eapply prints_bind
          | |- prints (print_section _) _ _ => apply prints_print_section
          | |- prints (print _) _ _ => apply prints_print
          | |- prints (ret _) _ _ => apply prints_ret
          | |- prints (Analysis.null_percentages _ _ _) _ _ => apply null_percentages_prints
          | |- prints (if _ then _ else _) _ _ => eapply prints_if
          end).

Section ProfilerReport.
Context {E : Engine}.

(** The lines of the profile that carry its figures. *)
Lemma profile_badges_report (df : list RawRow) :
  exists ls,
    prints (Analysis.profile_badges df) tt ls /\
    In (Labelled (newline ++ "Number of duplicate IDs: ") (df_count (duplicate_id_groups df))) ls /\
    In (show ["_Class"; "count"] count_row 20 (class_dist df)) ls /\
    In (Show ["min_date"; "max_date"]
             [[df_min (map _Date df); df_max (map _Date df)]]) ls /\
    In (Show ["min_user_id"; "max_user_id"]
             [[df_min (map _UserId df); df_max (map _UserId df)]]) ls /\
    In (Labelled (newline ++ "Number of unique badge names: ")
                 (df_count (distinct (map _Name df)))) ls /\
    In (Labelled "Rows with empty badge names: " (df_count (empty_name_rows df))) ls.
Proof.
  eexists. split.
  - unfold Analysis.profile_badges. run_report.
  - repeat split; find_event.
Qed.

Lemma empty_name_is_sentinel (c : cell) :
  is_true (eq3 (trim c) (Some (VStr ""))) = true -> sentinel_match c = true.
Proof.
  destruct c as [v|]; simpl; [|discriminate].
  destruct (String.eqb_spec (trim_string (text_of v)) "") as [->|]; [|discriminate].
  reflexivity.
Qed.

End ProfilerReport.

(** X9.  The profiler's duplicate-id count is the number of id values that
    occur in more than one row, a NULL id counting as a value: each group it
    keeps holds an id and the number of rows with it, more than 1.  The
    count is 0 exactly when no two rows have the same id. *)
Theorem duplicate_ids_found (E : Engine) (df : list RawRow) (w : World) :
  (forall k n, In (k, n) (duplicate_id_groups df) <->
               1 < n /\ n = occurrences k (map _Id df)) /\
  (df_count (duplicate_id_groups df) = 0 <-> NoDup (map _Id df)) /\
  exists ls,
    Analysis.profile_badges df w = (Returned tt, extend w (map Printed ls)) /\
    In (Labelled (newline ++ "Number of duplicate IDs: ") (df_count (duplicate_id_groups df))) ls.
Proof.
  destruct (group_counts_spec (map _Id df)) as (Hnd & Hin & Hkeys & _).
  assert (Hdup : forall k n, In (k, n) (duplicate_id_groups df) <->
                             1 < n /\ n = occurrences k (map _Id df)).
  { intros k n. unfold duplicate_id_groups, Analysis.column_cells.
    change (col "_Id") with _Id. rewrite filter_In, Hin. simpl.
    rewrite Z.gtb_lt. split.
    - intros [[_ ->] Hn]. auto.
    - intros [Hn ->]. split; [|exact Hn]. split; [|reflexivity].
      apply occurrences_pos. lia. }
  split; [exact Hdup|]. split.
  - rewrite df_count_zero, NoDup_occurrences. split.
    + intros Hempty k.
      destruct (Z_le_gt_dec (occurrences k (map _Id df)) 1) as [|Hgt]; [assumption|].
      exfalso. assert (Hk : In (k, occurrences k (map _Id df)) (duplicate_id_groups df)).
      { apply Hdup. split; [lia | reflexivity]. }
      rewrite Hempty in Hk. contradiction.
    + intros Hocc. destruct (duplicate_id_groups df) as [|[k n] rest]; [reflexivity|].
      exfalso. destruct (proj1 (Hdup k n) (or_introl eq_refl)) as [Hn ->].
      specialize (Hocc k). lia.
  - destruct (profile_badges_report df) as (ls & Hrun & Hline & _).
    exists ls. split; [apply Hrun | exact Hline].
Qed.

(** X10.  The profiler's number of unique badge names is the number of
    distinct cells of the name column, NULL counting as one name: each name
    is counted once, so the number is at most the row count, and equal to it
    exactly when all names differ. *)
Theorem unique_names_counted (E : Engine) (df : list RawRow) (w : World) :
  NoDup (distinct (map _Name df)) /\
  (forall c, In c (distinct (map _Name df)) <-> exists r, In r df /\ _Name r = c) /\
  df_count (distinct (map _Name df)) <= df_count df /\
  (df_count (distinct (map _Name df)) = df_count df <-> NoDup (map _Name df)) /\
  exists ls,
    Analysis.profile_badges df w = (Returned tt, extend w (map Printed ls)) /\
    In (Labelled (newline ++ "Number of unique badge names: ")
                 (df_count (distinct (map _Name df)))) ls.
Proof.
  destruct (group_counts_spec (map _Name df)) as (Hnd & _ & Hkeys & _).
  fold (distinct (map _Name df)) in Hnd, Hkeys.
  assert (Hincl : incl (distinct (map _Name df)) (map _Name df)).
  { intros c Hc. now apply Hkeys. }
  assert (Hle : (List.length (distinct (map _Name df)) <= List.length (map _Name df))%nat).
  { apply NoDup_incl_length; assumption. }
  rewrite length_map in Hle.
  split; [exact Hnd|]. split; [|split; [|split]].
  - intros c. rewrite Hkeys, in_map_iff. split; intros (r & H1 & H2); exists r; auto.
  - unfold df_count. lia.
  - unfold df_count. split.
    + intros Heq. apply (NoDup_incl_NoDup Hnd).
      * rewrite length_map. lia.
      * exact Hincl.
    + intros Hall. f_equal. rewrite <- (length_map _Name df).
      apply Permutation_length. apply NoDup_Permutation; auto.
  - destruct (profile_badges_report df) as (ls & Hrun & _ & _ & _ & _ & Hline & _).
    exists ls. split; [apply Hrun | exact Hline].
Qed.

(** X11.  Every row the profiler counts as having an empty name (a name of
    spaces only) is a row the Cleaner's anomaly scan counts, so the
    profiler's count of empty names is at most the Cleaner's anomaly count;
    and no row is both a NULL name and an anomaly, so the anomaly count and
    the count of NULL names together are at most the row count. *)
Theorem empty_names_are_anomalies (E : Engine) (df : list RawRow) (w : World) :
  df_count (empty_name_rows df) <= Cleaning.validate_string_anomalies df (col "_Name") /\
  Cleaning.validate_string_anomalies df (col "_Name") + Analysis.null_count_of df "_Name"
    <= df_count df /\
  (exists ls,
      Analysis.profile_badges df w = (Returned tt, extend w (map Printed ls)) /\
      In (Labelled "Rows with empty badge names: " (df_count (empty_name_rows df))) ls) /\
  (exists out ls,
      Cleaning.clean_badges_data df w = (Returned out, extend w (map Printed ls)) /\
      In (Labelled "String anomalies in 'name' column (nan, null, n/a, etc.): "
                   (Cleaning.validate_string_anomalies df (col "_Name"))) ls).
Proof.
  assert (Hscan : Cleaning.validate_string_anomalies df (col "_Name")
                  = df_count (List.filter (fun r => sentinel_match (_Name r)) df)).
  { unfold Cleaning.validate_string_anomalies, df_filter.
    apply df_count_filter_ext. intros r. apply scan_predicate. }
  split; [|split; [|split]].
  - rewrite Hscan. unfold empty_name_rows, df_filter, df_count.
    apply inj_le. apply filter_length_le_impl. intros r. apply empty_name_is_sentinel.
  - rewrite Hscan, null_count_spec. unfold df_count.
    pose proof (filter_length_disjoint (fun r => sentinel_match (_Name r))
                                       (fun r => is_none (col "_Name" r)) df) as Hdis.
    assert (Hle : (List.length (List.filter (fun r => sentinel_match (_Name r)) df)
                   + List.length (List.filter (fun r => is_none (col "_Name" r)) df)
                   <= List.length df)%nat).
    { apply Hdis. intros r. change (col "_Name" r) with (_Name r).
      destruct (_Name r); [reflexivity | discriminate]. }
    lia.
  - destruct (profile_badges_report df) as (ls & Hrun & _ & _ & _ & _ & _ & Hline).
    exists ls. split; [apply Hrun | exact Hline].
  - destruct (clean_badges_data_prints df) as (ls & Hrun & _ & Hline & _).
    exists (map clean_row df), ls. split; [apply Hrun | exact Hline].
Qed.

(** X12.  The range the profiler prints for a column is NULL on both ends
    exactly when the column has no value (as in an empty table).  For a
    column of integers, such as the user ids, the two ends are values of the
    column and every value of the column lies between them. *)
Theorem user_id_range_bounds (E : Engine) (df : list RawRow) (w : World) :
  Forall long_cell (map _UserId df) ->
  (df_min (map _UserId df) = None <-> forall r, In r df -> _UserId r = None) /\
  (df_max (map _UserId df) = None <-> forall r, In r df -> _UserId r = None) /\
  (forall r z, In r df -> _UserId r = Some (VLong z) ->
     exists lo hi,
       df_min (map _UserId df) = Some (VLong lo) /\
       df_max (map _UserId df) = Some (VLong hi) /\
       lo <= z <= hi /\
       In (Some (VLong lo)) (map _UserId df) /\ In (Some (VLong hi)) (map _UserId df)) /\
  exists ls,
    Analysis.profile_badges df w = (Returned tt, extend w (map Printed ls)) /\
    In (Show ["min_user_id"; "max_user_id"]
             [[df_min (map _UserId df); df_max (map _UserId df)]]) ls.
Proof.
  intros Hlong.
  pose proof (df_min_long _ Hlong) as Hmin. pose proof (df_max_long _ Hlong) as Hmax.
  assert (Hnone : Forall (eq None) (map _UserId df) <-> forall r, In r df -> _UserId r = None).
  { rewrite Forall_forall. split.
    - intros H r Hr. symmetry. apply H. now apply in_map.
    - intros H c Hc. apply in_map_iff in Hc as (r & <- & Hr). symmetry. auto. }
  split; [|split; [|split]].
  - rewrite <- Hnone. destruct (df_min (map _UserId df)) as [v|]; [|tauto].
    split; [discriminate|]. intros Hall.
    destruct Hmin as (lo & _ & Hin & _). rewrite Forall_forall in Hall.
    specialize (Hall _ Hin). discriminate.
  - rewrite <- Hnone. destruct (df_max (map _UserId df)) as [v|]; [|tauto].
    split; [discriminate|]. intros Hall.
    destruct Hmax as (hi & _ & Hin & _). rewrite Forall_forall in Hall.
    specialize (Hall _ Hin). discriminate.
  - intros r z Hr Hz.
    assert (Hin : In (Some (VLong z)) (map _UserId df)).
    { rewrite <- Hz. now apply in_map. }
    destruct (df_min (map _UserId df)) as [v|].
    2:{ rewrite Forall_forall in Hmin. specialize (Hmin _ Hin). discriminate. }
    destruct (df_max (map _UserId df)) as [v'|].
    2:{ rewrite Forall_forall in Hmax. specialize (Hmax _ Hin). discriminate. }
    destruct Hmin as (lo & -> & Hlo & Hle). destruct Hmax as (hi & -> & Hhi & Hge).
    exists lo, hi. specialize (Hle z Hin). specialize (Hge z Hin). auto.
  - destruct (profile_badges_report df) as (ls & Hrun & _ & _ & _ & Hline & _).
    exists ls. split; [apply Hrun | exact Hline].
Qed.

(** X13.  On a table whose class column is an integer column, the class
    distribution the profiler prints accounts for every row once: it has one
    group for each class value that occurs, NULL included, with the number
    of rows of that class, the counts add up to the row count, and the
    groups whose class is a value other than 1, 2 and 3 add up to the
    invalid-class count. *)
Theorem class_distribution_accounts_for_rows (E : Engine) (df : list RawRow) (w : World) :
  Forall long_cell (map _Class df) ->
  (forall k n, In (k, n) (class_dist df) <->
               (exists r, In r df /\ _Class r = k) /\ n = occurrences k (map _Class df)) /\
  total_count (class_dist df) = df_count df /\
  total_count (List.filter invalid_class_key (class_dist df))
    = df_count (Analysis.invalid_class_rows df) /\
  exists ls,
    Analysis.profile_badges df w = (Returned tt, extend w (map Printed ls)) /\
    In (show ["_Class"; "count"] count_row 20 (class_dist df)) ls.
Proof.
  intros _.
  destruct (group_counts_spec (map _Class df)) as (_ & Hin & _ & Htotal).
  assert (Hperm : Permutation (class_dist df) (group_counts (map _Class df))).
  { apply order_by_perm. }
  split; [|split; [|split]].
  - intros k n. split.
    + intros Hg. apply (Permutation_in _ Hperm) in Hg. apply Hin in Hg.
      destruct Hg as [Hk ->]. split; [|reflexivity].
      apply in_map_iff in Hk as (r & <- & Hr). now exists r.
    + intros [(r & Hr & <-) ->]. apply (Permutation_in _ (Permutation_sym Hperm)).
      apply Hin. split; [now apply in_map | reflexivity].
  - rewrite (total_count_perm _ _ Hperm), Htotal. apply df_count_map.
  - rewrite (total_count_perm _ _ (filter_perm invalid_class_key _ _ Hperm)).
    change invalid_class_key
      with (fun g : cell * Z =>
              (fun c : cell =>
                 match c with
                 | None => false
                 | Some v => negb (existsb (value_eqb v) [VLong 1; VLong 2; VLong 3])
                 end) (fst g)).
    rewrite total_count_filter_groups, df_count_filter_map.
    unfold Analysis.invalid_class_rows, df_filter. apply df_count_filter_ext.
    intros r. symmetry. apply invalid_class_predicate.
  - destruct (profile_badges_report df) as (ls & Hrun & _ & Hline & _).
    exists ls. split; [apply Hrun | exact Hline].
Qed.

(** ** More on the Cleaner *)

Section CleanerReport.
Context {E : Engine}.

Lemma clean_badges_data_warning (df : list RawRow) :
  exists ls,
    prints (Cleaning.clean_badges_data df) (map clean_row df) ls /\
    existsb mentions_warning ls = (Cleaning.validate_string_anomalies df (col "_Name") >? 0).
Proof.
  eexists. split.
  - unfold Cleaning.clean_badges_data. rewrite map_map.
    change (fun x => Cleaning.with_badge_year (Cleaning.select_row x)) with clean_row.
    run_prints.
  - destruct (Cleaning.validate_string_anomalies df (col "_Name") >? 0); reflexivity.
Qed.

Lemma normal_name_fixed (c : cell) : lower (trim (lower (trim c))) = lower (trim c).
Proof.
  destruct c as [v|]; [|reflexivity].
  unfold lower, trim, option_map, text_of.
  now rewrite trim_lower, trim_string_idem, lower_string_idem.
Qed.

Lemma null_year_key (r : RawRow) :
  cell_eqb None (year_key (clean_row r)) = is_none (cast_TimestampType (_Date r)).
Proof.
  unfold year_key, clean_row, Cleaning.with_badge_year, Cleaning.select_row, year. simpl.
  now destruct (cast_TimestampType _).
Qed.


End CleanerReport.

(** X14.  On a table in which the timestamp cast reads every date that is
    not NULL, the NULL group of the Cleaner's year distribution is there
    exactly when a raw date is NULL, and its count is the number of NULL
    dates the profiler reports; a cleaned row has no year exactly when its
    raw date is NULL. *)
Theorem null_year_group_counts_null_dates (E : Engine) (df : list RawRow) :
  Forall (fun r => _Date r <> None -> cast_TimestampType (_Date r) <> None) df ->
  (forall n,
      In (None, n) (year_counts (map clean_row df)) <->
      0 < n /\ n = Analysis.null_count_of df "_Date") /\
  (forall r, In r df -> (badge_year (clean_row r) = None <-> _Date r = None)).
Proof.
  intros Hread. rewrite Forall_forall in Hread.
  assert (Hnull : forall r, In r df ->
                    is_none (cast_TimestampType (_Date r)) = is_none (_Date r)).
  { intros r Hr. specialize (Hread r Hr).
    destruct (_Date r) as [v|]; [|reflexivity].
    destruct (cast_TimestampType (Some v)); [reflexivity|].
    exfalso. apply Hread; [discriminate | reflexivity]. }
  assert (Hcount : df_count (List.filter
                               (fun r => is_none (cast_TimestampType (_Date r))) df)
                   = Analysis.null_count_of df "_Date").
  { rewrite null_count_spec. change (col "_Date") with _Date.
    unfold df_count. f_equal. f_equal. clear Hread.
    induction df as [|r df IH]; [reflexivity|].
    cbn [List.filter]. rewrite (Hnull r (or_introl eq_refl)).
    rewrite IH; [reflexivity|]. intros r' Hr'. apply Hnull. now right. }
  split.
  - intros n.
    destruct (group_counts_spec (map year_key (map clean_row df))) as (_ & Hin & _).
    assert (Hocc : occurrences None (map year_key (map clean_row df))
                   = Analysis.null_count_of df "_Date").
    { rewrite <- Hcount, map_map, occurrences_map. apply df_count_filter_ext.
      intros r. apply null_year_key. }
    unfold year_counts.
    change (fun r : CleanRow => option_map VLong (badge_year r)) with year_key.
    split.
    + intros Hg. apply (Permutation_in _ (order_by_perm by_key _)) in Hg.
      apply Hin in Hg. destruct Hg as [Hk ->].
      apply occurrences_pos in Hk. rewrite Hocc in *. auto.
    + intros [Hpos ->]. apply (Permutation_in _ (Permutation_sym (order_by_perm by_key _))).
      apply Hin. rewrite <- Hocc in *. split; [|reflexivity].
      now apply occurrences_pos.
  - intros r Hr. specialize (Hnull r Hr).
    unfold clean_row, Cleaning.with_badge_year, Cleaning.select_row, year. simpl.
    change (col "_Date" r) with (_Date r).
    destruct (cast_TimestampType (_Date r)), (_Date r); simpl in *;
      split; intros; congruence.
Qed.

(** X15.  A cleaned name is a fixed point of the normalisation: lowering
    and trimming it again gives the same name.  So the anomaly scan gives
    the same count on the name column of the cleaned table as on the raw
    name column. *)
Theorem cleaned_names_are_normal (E : Engine) (df : list RawRow) (w : World) :
  exists out ls,
    Cleaning.clean_badges_data df w = (Returned out, extend w (map Printed ls)) /\
    Forall (fun clean => lower (trim (name clean)) = name clean) out /\
    Cleaning.validate_string_anomalies out name
    = Cleaning.validate_string_anomalies df (col "_Name").
Proof.
  destruct (clean_badges_data_prints df) as (ls & Hrun & _).
  exists (map clean_row df), ls. split; [apply Hrun|]. split.
  - apply Forall_forall. intros c Hc. apply in_map_iff in Hc as (r & <- & _).
    rewrite clean_row_name. apply normal_name_fixed.
  - unfold Cleaning.validate_string_anomalies, df_filter.
    rewrite df_count_filter_map. apply df_count_filter_ext. intros r.
    rewrite !scan_predicate, clean_row_name. apply sentinel_stays.
Qed.

(** X16.  The Cleaner prints its warning exactly when the anomaly scan
    finds a row, that is when the name of some row is a sentinel; with no
    such row it prints no warning at all. *)
Theorem cleaner_warns_iff_anomalies (E : Engine) (df : list RawRow) (w : World) :
  exists out ls,
    Cleaning.clean_badges_data df w = (Returned out, extend w (map Printed ls)) /\
    (existsb mentions_warning ls = true <->
     0 < Cleaning.validate_string_anomalies df (col "_Name")) /\
    (existsb mentions_warning ls = true <->
     exists r, In r df /\ sentinel_match (_Name r) = true).
Proof.
  destruct (clean_badges_data_warning df) as (ls & Hrun & Hwarn).
  exists (map clean_row df), ls. split; [apply Hrun|].
  assert (Hpos : existsb mentions_warning ls = true <->
                 0 < Cleaning.validate_string_anomalies df (col "_Name")).
  { rewrite Hwarn. apply Z.gtb_lt. }
  split; [exact Hpos|]. rewrite Hpos.
  assert (Hscan : Cleaning.validate_string_anomalies df (col "_Name")
                  = df_count (List.filter (fun r => sentinel_match (_Name r)) df)).
  { unfold Cleaning.validate_string_anomalies, df_filter.
    apply df_count_filter_ext. intros r. apply scan_predicate. }
  rewrite Hscan. unfold df_count. split.
  - intros Hlen. destruct (List.filter _ df) as [|r rest] eqn:Hf; [simpl in Hlen; lia|].
    assert (Hr : In r (List.filter (fun r => sentinel_match (_Name r)) df))
      by (rewrite Hf; now left).
    apply filter_In in Hr. now exists r.
  - intros (r & Hr & Hs).
    assert (Hin : In r (List.filter (fun r => sentinel_match (_Name r)) df))
      by (apply filter_In; auto).
    destruct (List.filter _ df); [contradiction | simpl; lia].
Qed.

(** ** Negative user ids and the most common names *)

Lemma insert_by_count_sorted (x : cell * Z) (l : list (cell * Z)) :
  StronglySorted count_not_above l ->
  StronglySorted count_not_above (insert_by by_count_desc x l).
Proof.
  induction l as [|y l IH]; simpl; intros Hsorted.
  - constructor; constructor.
  - inversion Hsorted as [|? ? Hsorted' Hall]; subst.
    rewrite Forall_forall in Hall.
    unfold by_count_desc at 1. destruct (Z.ltb_spec (snd x) (snd y)) as [Hlt|Hge].
    + constructor; [now apply IH|].
      apply Forall_forall. intros z Hz.
      apply (Permutation_in _ (insert_by_perm by_count_desc x l)) in Hz.
      destruct Hz as [<-|Hz]; [unfold count_not_above; lia | now apply Hall].
    + constructor; [exact Hsorted|].
      apply Forall_forall. intros z [<-|Hz]; unfold count_not_above in *; [lia|].
      specialize (Hall z Hz). lia.
Qed.

Lemma order_by_count_sorted (l : list (cell * Z)) :
  StronglySorted count_not_above (order_by by_count_desc l).
Proof.
  induction l as [|x l IH]; simpl; [constructor|].
  now apply insert_by_count_sorted.
Qed.

Lemma sorted_app_before {A : Type} (R : A -> A -> Prop) (l1 l2 : list A) :
  StronglySorted R (l1 ++ l2) -> forall a b, In a l1 -> In b l2 -> R a b.
Proof.
  induction l1 as [|x l1 IH]; simpl; intros Hsorted a b Ha Hb; [contradiction|].
  inversion Hsorted as [|? ? Hsorted' Hall]; subst.
  destruct Ha as [<-|Ha]; [|now apply IH].
  rewrite Forall_forall in Hall. apply Hall. apply in_or_app. now right.
Qed.

Section ProfilerReportMore.
Context {E : Engine}.

Lemma profile_badges_report_more (df : list RawRow) :
  exists ls,
    prints (Analysis.profile_badges df) tt ls /\
    In (Labelled (newline ++ "Rows with negative user IDs: ")
                 (df_count (negative_user_rows df))) ls /\
    In (show ["_Name"; "count"] count_row 20 (top_names df)) ls.
Proof.
  eexists. split.
  - unfold Analysis.profile_badges. run_report.
  - split; find_event.
Qed.

Lemma negative_user_rows_long (df : list RawRow) :
  Forall long_cell (map _UserId df) ->
  negative_user_rows df = List.filter negative_user_id df.
Proof.
  intros Hlong. unfold negative_user_rows, df_filter. apply filter_ext_in.
  intros r Hr. rewrite Forall_forall in Hlong.
  specialize (Hlong (_UserId r) (in_map _UserId df r Hr)).
  unfold negative_user_id. change (col "_UserId" r) with (_UserId r).
  destruct (_UserId r) as [[z| | |]|]; simpl in *; try contradiction; try reflexivity.
  now destruct (Z.ltb z 0).
Qed.

End ProfilerReportMore.

(** X17.  For an integer user-id column the profiler's count of negative
    user ids is the number of rows whose user id is an integer below 0 (a
    row with user id -1 is counted, a NULL user id is not); it is positive
    exactly when the printed minimum user id is negative, and together with
    the count of NULL user ids it is at most the row count. *)
Theorem negative_user_ids_counted (E : Engine) (df : list RawRow) (w : World) :
  Forall long_cell (map _UserId df) ->
  df_count (negative_user_rows df) = df_count (List.filter negative_user_id df) /\
  (0 < df_count (negative_user_rows df) <->
   exists lo, df_min (map _UserId df) = Some (VLong lo) /\ lo < 0) /\
  df_count (negative_user_rows df) + Analysis.null_count_of df "_UserId" <= df_count df /\
  exists ls,
    Analysis.profile_badges df w = (Returned tt, extend w (map Printed ls)) /\
    In (Labelled (newline ++ "Rows with negative user IDs: ")
                 (df_count (negative_user_rows df))) ls.
Proof.
  intros Hlong. rewrite (negative_user_rows_long df Hlong).
  pose proof (df_min_long _ Hlong) as Hmin.
  split; [reflexivity|]. split; [|split].
  - split.
    + intros Hpos.
      destruct (List.filter negative_user_id df) as [|r rest] eqn:Hf;
        [unfold df_count in Hpos; simpl in Hpos; lia|].
      assert (Hr : In r (List.filter negative_user_id df)) by (rewrite Hf; now left).
      apply filter_In in Hr. destruct Hr as [Hr Hneg].
      unfold negative_user_id in Hneg.
      destruct (_UserId r) as [[z| | |]|] eqn:Hz; try discriminate.
      apply Z.ltb_lt in Hneg.
      assert (Hin : In (Some (VLong z)) (map _UserId df)).
      { rewrite <- Hz. now apply in_map. }
      destruct (df_min (map _UserId df)) as [v|].
      * destruct Hmin as (lo & -> & _ & Hle). exists lo. split; [reflexivity|].
        specialize (Hle z Hin). lia.
      * rewrite Forall_forall in Hmin. specialize (Hmin _ Hin). discriminate.
    + intros (lo & Hlo & Hneg). rewrite Hlo in Hmin.
      destruct Hmin as (lo' & [= <-] & Hin & _).
      apply in_map_iff in Hin as (r & Hz & Hr).
      assert (Hf : In r (List.filter negative_user_id df)).
      { apply filter_In. split; [exact Hr|]. unfold negative_user_id. rewrite Hz.
        now apply Z.ltb_lt. }
      destruct (List.filter negative_user_id df); [contradiction|].
      unfold df_count. simpl. lia.
  - rewrite null_count_spec. unfold df_count.
    pose proof (filter_length_disjoint negative_user_id
                                       (fun r => is_none (col "_UserId" r)) df) as Hdis.
    assert (Hle : (List.length (List.filter negative_user_id df)
                   + List.length (List.filter (fun r => is_none (col "_UserId" r)) df)
                   <= List.length df)%nat).
    { apply Hdis. intros r. unfold negative_user_id.
      change (col "_UserId" r) with (_UserId r).
      destruct (_UserId r) as [[]|]; try discriminate; reflexivity. }
    lia.
  - destruct (profile_badges_report_more df) as (ls & Hrun & Hline & _).
    exists ls. rewrite (negative_user_rows_long df Hlong) in Hline.
    split; [apply Hrun | exact Hline].
Qed.

(** X18.  The list of the most common badges is in non-increasing order of
    count, holds each badge name once with the number of its rows, and shows
    at most 20 names; no name left out of the list occurs more often than a
    name in it. *)
Theorem top_names_are_most_common (E : Engine) (df : list RawRow) (w : World) :
  StronglySorted count_not_above (top_names df) /\
  (forall k n, In (k, n) (top_names df) <->
               (exists r, In r df /\ _Name r = k) /\ n = occurrences k (map _Name df)) /\
  (List.length (firstn 20 (top_names df)) <= 20)%nat /\
  (forall a b, In a (firstn 20 (top_names df)) -> In b (skipn 20 (top_names df)) ->
               snd b <= snd a) /\
  exists ls,
    Analysis.profile_badges df w = (Returned tt, extend w (map Printed ls)) /\
    In (show ["_Name"; "count"] count_row 20 (top_names df)) ls.
Proof.
  destruct (group_counts_spec (map _Name df)) as (_ & Hin & _).
  assert (Hperm : Permutation (top_names df) (group_counts (map _Name df))).
  { apply order_by_perm. }
  assert (Hsorted : StronglySorted count_not_above (top_names df)).
  { apply order_by_count_sorted. }
  split; [exact Hsorted|]. split; [|split; [|split]].
  - intros k n. split.
    + intros Hg. apply (Permutation_in _ Hperm) in Hg. apply Hin in Hg.
      destruct Hg as [Hk ->]. split; [|reflexivity].
      apply in_map_iff in Hk as (r & <- & Hr). now exists r.
    + intros [(r & Hr & <-) ->]. apply (Permutation_in _ (Permutation_sym Hperm)).
      apply Hin. split; [now apply in_map | reflexivity].
  - apply firstn_le_length.
  - intros a b Ha Hb. rewrite <- (firstn_skipn 20 (top_names df)) in Hsorted.
    apply (sorted_app_before _ _ _ Hsorted a b Ha Hb).
  - destruct (profile_badges_report_more df) as (ls & Hrun & _ & Hline).
    exists ls. split; [apply Hrun | exact Hline].
Qed.

(** ** Runs on the reference engine *)

Import Reference.

Example two_badges_cleaned :
  map clean_row two_badges
  = [ mkClean (Some 1) (Some 10) (Some (VStr "teacher")) (Some 1221468903000000)
              (Some 1) (Some false) (Some 2008);
      mkClean (Some 2) (Some (-1)) (Some (VStr "nice answer")) (Some 1230890400000000)
              (Some 3) (Some true) (Some 2009) ].
Proof.
  reflexivity.
Qed.

Example two_badges_pipeline :
  fst (Cleaning.main (world_with_input Cleaning.input_path two_badges)) = Returned tt /\
  parquet_dirs (snd (Cleaning.main (world_with_input Cleaning.input_path two_badges)))
               Cleaning.output_path
  = Some [ (Some (Some (VLong 2009)), [clean_row (nth 1 two_badges bad_id_row)]);
           (Some (Some (VLong 2008)), [clean_row (nth 0 two_badges bad_id_row)]) ] /\
  In (Printed (CleaningSummary Cleaning.input_path Cleaning.output_path 2))
     (trace (snd (Cleaning.main (world_with_input Cleaning.input_path two_badges)))).
Proof.
  vm_compute. repeat split. repeat (first [left; reflexivity | right]).
Qed.

Example empty_table_profile :
  fst (Analysis.main (world_with_input Analysis.file_path [])) = Returned tt /\
  In (Printed (NullLine "_Name" 0 0))
     (trace (snd (Analysis.main (world_with_input Analysis.file_path [])))).
Proof.
  vm_compute. split; [reflexivity|]. repeat (first [left; reflexivity | right]).
Qed.


(** C6, where it fails: the cleaned table has two rows, the file set at the
    output path has one; the Validator returns the count 1 normally and
    prints no warning. *)
Lemma validator_ignores_pre_export_count :
  df_count (map clean_row two_badges) = 2 /\
  fst (Cleaning.validate_parquet_output (Session Cleaning.app_name) Cleaning.output_path
                                        stale_world) = Returned 1 /\
  existsb printed_warning
          (trace (snd (Cleaning.validate_parquet_output (Session Cleaning.app_name)
                                                        Cleaning.output_path stale_world)))
  = false.
Proof.
  vm_compute. repeat split.
Qed.

(** The Validator on a directory that holds one row. *)
Lemma validator_reports_read_back_count_witness :
  exists ls,
    Cleaning.validate_parquet_output (Session Cleaning.app_name) Cleaning.output_path
                                     stale_world
    = (Returned 1, extend stale_world (map Printed ls)).
Proof.
  destruct (validator_reports_read_back_count
              reference_engine (Session Cleaning.app_name) Cleaning.output_path
              stale_dataset stale_world) as [(ls & Hrun & _) _].
  - reflexivity.
  - discriminate.
  - exists ls. exact Hrun.
Defined.

(** C7, where it fails: with no input file the loader raises, [main] ends
    with the exception, and the session it created is still active: no
    stop was issued.  The same in both scripts. *)
Lemma session_left_open_on_failure :
  fst (Cleaning.main no_files)
  = Raised (AnalysisException ("Path does not exist: " ++ Cleaning.input_path)) /\
  session_active (snd (Cleaning.main no_files)) = true /\
  existsb is_stop (trace (snd (Cleaning.main no_files))) = false /\
  fst (Analysis.main no_files)
  = Raised (AnalysisException ("Path does not exist: " ++ Analysis.file_path)) /\
  session_active (snd (Analysis.main no_files)) = true /\
  existsb is_stop (trace (snd (Analysis.main no_files))) = false.
Proof.
  vm_compute. repeat split.
Qed.

(** On the reference engine, whose cast answers NULL for an id that is not
    a number: the row is kept and a null count sees it, but no anomaly scan
    does, neither the one the Cleaner runs on the raw names nor one run on
    the cleaned id column. *)
Example null_id_unseen_by_anomaly_scan :
  _Id bad_id_row = Some (VStr "abc") /\
  cast_LongType (_Id bad_id_row) = None /\
  map id (map clean_row [bad_id_row]) = [None] /\
  df_count (df_filter (fun c => isNull (option_map VLong (id c)))
                      (map clean_row [bad_id_row])) = 1 /\
  Cleaning.validate_string_anomalies [bad_id_row] (col "_Name") = 0 /\
  Cleaning.validate_string_anomalies (map clean_row [bad_id_row])
                                     (fun c => option_map VLong (id c)) = 0.
Proof.
  repeat split.
Qed.

(** C8, where it fails: on the engine in ANSI mode the cast of an id that
    is not a number raises.  The Cleaner has printed its final count when
    the display of the sample evaluates the cast; the exception leaves the
    Cleaner and [main], nothing is exported and the session stays active. *)
Lemma failed_cast_aborts_run :
  _Id bad_id_row = Some (VStr "abc") /\
  fst (@Deferred.clean_badges_data reference_engine ansi_on [bad_id_row] no_files)
  = Raised (NumberFormatException (invalid_input "abc" "BIGINT")) /\
  existsb (printed_line "Final record count")
          (trace (snd (@Deferred.clean_badges_data reference_engine ansi_on
                                                   [bad_id_row] no_files))) = true /\
  fst (@Deferred.main reference_engine ansi_on
                      (world_with_input Cleaning.input_path [bad_id_row]))
  = Raised (NumberFormatException (invalid_input "abc" "BIGINT")) /\
  parquet_dirs (snd (@Deferred.main reference_engine ansi_on
                                    (world_with_input Cleaning.input_path [bad_id_row])))
               Cleaning.output_path = None /\
  session_active (snd (@Deferred.main reference_engine ansi_on
                                      (world_with_input Cleaning.input_path [bad_id_row])))
  = true.
Proof.
  vm_compute. repeat split.
Qed.

(** C10, where it fails: on the engine in ANSI mode a date that cannot be
    read does not become a NULL date.  The timestamp cast raises when the
    year distribution is computed: the Cleaner prints no final count and
    returns no table, and nothing is written, no NULL directory either. *)
Lemma unreadable_date_aborts_cleaner :
  _Date bad_date_row = Some (VStr "not a date") /\
  fst (@Deferred.clean_badges_data reference_engine ansi_on [bad_date_row] no_files)
  = Raised (DateTimeException (invalid_input "not a date" "TIMESTAMP")) /\
  existsb (printed_line "Final record count")
          (trace (snd (@Deferred.clean_badges_data reference_engine ansi_on
                                                   [bad_date_row] no_files))) = false /\
  fst (@Deferred.main reference_engine ansi_on
                      (world_with_input Cleaning.input_path [bad_date_row]))
  = Raised (DateTimeException (invalid_input "not a date" "TIMESTAMP")) /\
  parquet_dirs (snd (@Deferred.main reference_engine ansi_on
                                    (world_with_input Cleaning.input_path [bad_date_row])))
               Cleaning.output_path = None.
Proof.
  vm_compute. repeat split.
Qed.

(** With ANSI mode off the same two rows are cleaned and exported: the id
    and the date are NULL, and the row without a date is in the directory of
    the NULL year. *)
Example failed_casts_answer_null :
  fst (@Deferred.main reference_engine ansi_off
                      (world_with_input Cleaning.input_path [bad_id_row; bad_date_row]))
  = Returned tt /\
  map id (map clean_row [bad_id_row; bad_date_row]) = [None; Some 6] /\
  map date (map clean_row [bad_id_row; bad_date_row]) = [Some 1262401445000000; None] /\
  map fst (year_dataset (map clean_row [bad_id_row; bad_date_row]))
  = [Some None; Some (Some (VLong 2010))].
Proof.
  vm_compute. repeat split.
Qed.


(** The export of two cleaned badges, read back. *)
Lemma export_read_back_permutation_witness :
  exists w1 rows,
    Cleaning.export_to_parquet (map clean_row two_badges) Cleaning.output_path
                               (Some "badge_year") no_files
    = (Returned Cleaning.output_path, w1) /\
    read_parquet (Session Cleaning.app_name) Cleaning.output_path w1 = (Returned rows, w1) /\
    Permutation rows (map clean_row two_badges).
Proof.
  destruct (export_read_back_permutation
              reference_engine (Session Cleaning.app_name) (map clean_row two_badges)
              Cleaning.output_path no_files) as (w1 & w2 & rows & H1 & H2 & H3 & _).
  - discriminate.
  - exists w1, rows. auto.
Defined.

(** The statistics of two badges of the years 2008 and 2009. *)
Lemma partition_statistics_are_year_distribution_witness :
  year_counts (dataset_rows (year_dataset (map clean_row two_badges)))
  = year_counts (map clean_row two_badges).
Proof.
  destruct (partition_statistics_are_year_distribution
              reference_engine (Session Cleaning.app_name) two_badges
              Cleaning.output_path no_files) as (H & _).
  - discriminate.
  - exact H.
Defined.

(** An export with the empty string for the partition column. *)
Lemma flat_export_round_trip_witness :
  exists w1 w2,
    Cleaning.export_to_parquet [] Cleaning.output_path (Some "") no_files
    = (Returned Cleaning.output_path, w1) /\
    Cleaning.validate_parquet_output (Session Cleaning.app_name) Cleaning.output_path w1
    = (Returned 0, w2).
Proof.
  destruct (flat_export_round_trip
              reference_engine (Session Cleaning.app_name) [] Cleaning.output_path
              (Some "") no_files) as (w1 & w2 & rows & H1 & _ & _ & _ & H2).
  - reflexivity.
  - exists w1, w2. auto.
Defined.


(** The range of the user ids 10 and -1. *)
Lemma user_id_range_bounds_witness :
  df_min (map _UserId two_badges) = Some (VLong (-1)) /\
  df_max (map _UserId two_badges) = Some (VLong 10).
Proof.
  destruct (user_id_range_bounds reference_engine two_badges no_files) as (_ & _ & H & _).
  - repeat constructor.
  - split; reflexivity.
Defined.

(** The negative user id -1 among the user ids 10 and -1. *)
Lemma negative_user_ids_counted_witness :
  df_count (negative_user_rows two_badges) = 1.
Proof.
  destruct (negative_user_ids_counted reference_engine two_badges no_files) as (H & _).
  - repeat constructor.
  - rewrite H. reflexivity.
Defined.

(** The class distribution of the classes 1, 2 and 99 and a NULL class. *)
Lemma class_distribution_accounts_for_rows_witness :
  total_count (class_dist (classes_1_2_99 ++ [null_class_row])) = 4 /\
  total_count (List.filter invalid_class_key (class_dist (classes_1_2_99 ++ [null_class_row])))
  = 1.
Proof.
  destruct (class_distribution_accounts_for_rows
              reference_engine (classes_1_2_99 ++ [null_class_row]) no_files)
    as (_ & H1 & H2 & _).
  - repeat constructor.
  - rewrite H1, H2. split; reflexivity.
Defined.

(** The year distribution of two dated badges and one without a date. *)
Lemma null_year_group_counts_null_dates_witness :
  In (None, 1) (year_counts (map clean_row (undated_row :: two_badges))).
Proof.
  destruct (null_year_group_counts_null_dates reference_engine (undated_row :: two_badges))
    as (H & _).
  - repeat constructor; vm_compute; intros H; first [discriminate | auto].
  - apply H. split; reflexivity.
Defined.
